(** * GENEActiv reader and rolling median: a shallow embedding

    This development embeds in Rocq the two C extensions

      - [src/skimu/read/_extensions/read_geneactiv.c]
        ([parseline], [geneactiv_read_header], [get_timestamps],
        [geneactiv_read_block]) and
      - [src/skimu/utility/_extensions/rolling_median.c] ([roll_median])

    and proves properties of the decoded values.

    Conventions of the embedding.

      - A C [double] is Rocq's primitive binary64 [float]; every arithmetic
        operation of the source is the corresponding correctly rounded
        primitive, and [!=] on doubles is the negation of IEEE equality.
      - A C [long] is a [Z] (LP64: 64 bits); [strtol] saturates as the C
        library does.  An [int] is a [Z] within the 32-bit range; a [long]
        stored into an [int] wraps to that range.
      - A [FILE*] is the list of characters that remain to be read.
      - A [char] array is the list of its bytes.  The local arrays of the C
        functions are not initialised by the source, so their initial
        contents are explicit arguments of the embedded functions.
      - Undefined behaviour (a store outside the caller's buffers, a null
        pointer passed to [strtol], a scan of [strtol] behind the end of the
        array [p], signed overflow, a division by zero) is the result
        [None], or [Undefined] for the rolling median; a function that
        returns gives [Some] of its return code and of the memory it leaves
        behind. *)

From Stdlib Require Import Reals Lra.
From Stdlib Require Import ZArith Lia Bool Ascii String Floats.
From stdpp Require Import base option list.

#[local] Open Scope Z_scope.
#[local] Open Scope list_scope.

(* ===================================================================== *)
(** ** Characters, C strings and the C library                            *)
(* ===================================================================== *)

Module Libc.

Definition NUL : ascii := Ascii.zero.
Definition newline : ascii := "010"%char.

(** The unread rest of an open file. *)
Definition FILE := list ascii.

(** The bytes of a string literal. *)
Definition bytes (s : string) : list ascii := list_ascii_of_string s.

(** The C string that starts at the head of an array: the bytes before the
    first NUL.  A string that is not terminated inside the array is cut at
    the end of the array. *)
Fixpoint cstr (s : list ascii) : list ascii :=
  match s with
  | [] => []
  | c :: s' => if Ascii.eqb c NUL then [] else c :: cstr s'
  end.

(** [&s[k]] read as a C string. *)
Definition cstr_at (s : list ascii) (k : nat) : list ascii := cstr (skipn k s).

Definition strlen (s : list ascii) : Z := Z.of_nat (length (cstr s)).

(** [memcpy(dst, src, n)]: the first [n] bytes of [dst] are replaced. *)
Definition memcpy (dst src : list ascii) (n : nat) : list ascii :=
  firstn n src ++ skipn n dst.

(** The characters one call of [fgets] with room for [n] characters takes
    from the file: at most [n], up to and including the first newline. *)
Fixpoint read_line (n : nat) (fp : FILE) : list ascii * FILE :=
  match n, fp with
  | S n', c :: fp' =>
      if Ascii.eqb c newline then ([c], fp')
      else let '(l, rest) := read_line n' fp' in (c :: l, rest)
  | _, _ => ([], fp)
  end.

(** [fgets(s, n, fp)].  At the end of the file nothing is stored and the
    result is NULL ([None]); otherwise the line and its terminator are
    stored at the head of [s], the bytes behind them stay as they were. *)
Definition fgets (s : list ascii) (n : nat) (fp : FILE)
  : option (list ascii * FILE) :=
  match fp with
  | [] => None
  | _ :: _ =>
      let '(l, rest) := read_line (n - 1) fp in
      Some (l ++ NUL :: skipn (S (length l)) s, rest)
  end.

(** *** strtol *)

Definition LONG_MAX : Z := 2 ^ 63 - 1.
Definition LONG_MIN : Z := - 2 ^ 63.

Definition isspace (c : ascii) : bool :=
  let n := nat_of_ascii c in
  (Nat.eqb n 32 || (Nat.leb 9 n && Nat.leb n 13))%bool.

Fixpoint skip_space (s : list ascii) : list ascii :=
  match s with
  | c :: s' => if isspace c then skip_space s' else s
  | [] => []
  end.

(** The value of a character as a digit, letters counting from ten. *)
Definition digit_val (c : ascii) : option Z :=
  let n := Z.of_nat (nat_of_ascii c) in
  if (48 <=? n) && (n <=? 57) then Some (n - 48)
  else if (97 <=? n) && (n <=? 122) then Some (n - 87)
  else if (65 <=? n) && (n <=? 90) then Some (n - 55)
  else None.

(** The longest prefix of digits below [base], accumulated from [acc]. *)
Fixpoint strtol_digits (base : Z) (s : list ascii) (acc : Z) : Z :=
  match s with
  | c :: s' =>
      match digit_val c with
      | Some d => if d <? base then strtol_digits base s' (acc * base + d) else acc
      | None => acc
      end
  | [] => acc
  end.

Definition strip_sign (s : list ascii) : bool * list ascii :=
  match s with
  | c :: s' =>
      if Ascii.eqb c "-" then (true, s')
      else if Ascii.eqb c "+" then (false, s')
      else (false, s)
  | [] => (false, s)
  end.

(** In base 16 a leading [0x] or [0X] is skipped. *)
Definition strip_0x (base : Z) (s : list ascii) : list ascii :=
  if base =? 16 then
    match s with
    | c0 :: c1 :: s' =>
        if Ascii.eqb c0 "0" && (Ascii.eqb c1 "x" || Ascii.eqb c1 "X")
        then s' else s
    | _ => s
    end
  else s.

(** [strtol(s, NULL, base)] on a C string: white space, an optional sign,
    the digits; no digits give 0; the result saturates at the range of
    [long]. *)
Definition strtol (s : list ascii) (base : Z) : Z :=
  let '(neg, s1) := strip_sign (skip_space s) in
  let v := strtol_digits base (strip_0x base s1) 0 in
  if neg then Z.max LONG_MIN (- v) else Z.min LONG_MAX v.

(** The digits of [strtol] end at a character of the array. *)
Fixpoint digits_stop (base : Z) (s : list ascii) : bool :=
  match s with
  | c :: s' =>
      match digit_val c with
      | Some d => if d <? base then digits_stop base s' else true
      | None => true
      end
  | [] => false
  end.

(** The scan of [strtol(s, NULL, base)] ends at a character of the array
    [s]: it does not read behind the last byte of [s]. *)
Definition strtol_stops (s : list ascii) (base : Z) : bool :=
  digits_stop base (strip_0x base (snd (strip_sign (skip_space s)))).

(** *** strtok with the delimiter set [":"]

    [strtok_at s p] is one step of [strtok] on the array [s] with the
    scan resuming at offset [p]: the offset of the token found (or NULL),
    the array with the delimiter behind the token overwritten by NUL, and
    the offset at which the next call resumes. *)

Definition colon : ascii := ":"%char.

Fixpoint strspn_colon (s : list ascii) : nat :=
  match s with
  | c :: s' => if Ascii.eqb c colon then S (strspn_colon s') else O
  | [] => O
  end.

Fixpoint strcspn_colon (s : list ascii) : nat :=
  match s with
  | c :: s' =>
      if Ascii.eqb c NUL || Ascii.eqb c colon then O else S (strcspn_colon s')
  | [] => O
  end.

Definition strtok_at (s : list ascii) (p : nat) : option nat * list ascii * nat :=
  let tok := (p + strspn_colon (skipn p s))%nat in
  match skipn tok s with
  | [] => (None, s, tok)
  | c :: _ =>
      if Ascii.eqb c NUL then (None, s, tok)
      else
        let e := (tok + strcspn_colon (skipn tok s))%nat in
        match skipn e s with
        | c' :: _ =>
            if Ascii.eqb c' NUL then (Some tok, s, e)
            else (Some tok, <[e := NUL]> s, S e)
        | [] => (Some tok, s, e)
        end
  end.

End Libc.
Import Libc.

(* ===================================================================== *)
(** ** Doubles                                                            *)
(* ===================================================================== *)

(** [(double)z] for an integer [z]: the nearest binary64 value, ties to
    even. *)
Definition double_of_Z (z : Z) : float :=
  SF2Prim (binary_normalize prec emax z 0 false).

(** [a != b] on doubles. *)
Definition fne (a b : float) : bool := negb (PrimFloat.eqb a b).

(** A double that is zero, positive or not a number. *)
Definition not_negative (x : spec_float) : bool :=
  match x with
  | S754_nan => true
  | S754_zero s | S754_infinity s | S754_finite s _ _ => negb s
  end.

(** A double that is zero or positive. *)
Definition nonneg (x : spec_float) : bool :=
  match x with
  | S754_nan => false
  | S754_zero s | S754_infinity s | S754_finite s _ _ => negb s
  end.

(** A double that is zero or positive, and finite. *)
Definition nonneg_finite (x : spec_float) : bool :=
  match x with
  | S754_zero s | S754_finite s _ _ => negb s
  | _ => false
  end.

(** *** The real value of a double

    The order of two doubles is the order of two real numbers.  The
    definitions below read the intermediate results of [SpecFloat] as real
    numbers, for the proof that the timestamps of a block do not
    decrease. *)

(** Two to the power [e]. *)
Definition bpow (e : Z) : R := powerRZ 2 e.

(** The value of a double; of interest for finite doubles only. *)
Definition SF2R (x : spec_float) : R :=
  match x with
  | S754_finite s m e => (IZR (cond_Zopp s (Zpos m)) * bpow e)%R
  | _ => 0%R
  end.

(** The real number [u] lies in the unit interval that starts at the
    integer [m], at the place the location [l] names: at [m], below the
    middle, at the middle, or above it. *)
Definition loc_ok (u : R) (m : Z) (l : location) : Prop :=
  match l with
  | loc_Exact => u = IZR m
  | loc_Inexact Lt => (IZR m < u < IZR m + 1 / 2)%R
  | loc_Inexact Eq => u = (IZR m + 1 / 2)%R
  | loc_Inexact Gt => (IZR m + 1 / 2 < u < IZR m + 1)%R
  end.

(** The triple [(m, e, l)] that [SpecFloat] hands to its rounding stands
    for the real number [x]: [x] lies between [m * 2^e] and
    [(m + 1) * 2^e], where [l] says. *)
Definition Rep (x : R) (m e : Z) (l : location) : Prop :=
  loc_ok (x * bpow (- e)) m l.

(** The end of [binary_round_aux]: from the rounded integer [k] at the
    exponent [E] to the double. *)
Definition finish (sx : bool) (k E : Z) : spec_float :=
  let '(mrs, e) := shr_fexp prec emax k E loc_Exact in
  match shr_m mrs with
  | Z0 => S754_zero sx
  | Zpos m => if e <=? emax - prec then S754_finite sx m e else S754_infinity sx
  | Zneg _ => S754_nan
  end.

(** What the first phase of a rounding hands to [finish]: an integer of at
    most 53 bits (or [2^53]) that has all 53 bits above the least
    exponent. *)
Definition canon (k E : Z) : Prop :=
  0 <= k <= 2 ^ 53 /\ -1074 <= E /\ (-1074 < E -> 2 ^ 52 <= k).

(** The order of two such pairs: by the exponent, then by the integer. *)
Definition lex_le (k1 E1 k2 E2 : Z) : Prop := E1 < E2 \/ (E1 = E2 /\ k1 <= k2).

(** A double with the sign [sx] that is a number. *)
Definition signed (sx : bool) (r : spec_float) : Prop :=
  match r with
  | S754_zero s | S754_infinity s | S754_finite s _ _ => s = sx
  | S754_nan => False
  end.

(** A zero or a finite double. *)
Definition finite_or_zero (x : spec_float) : Prop :=
  match x with S754_zero _ | S754_finite _ _ _ => True | _ => False end.

(** A finite double of the format, of at most [2^p]. *)
Definition bounded_by (p : Z) (r : spec_float) : Prop :=
  finite_or_zero r /\ valid_binary r = true /\ (Rabs (SF2R r) <= bpow p)%R.

(* ===================================================================== *)
(** ** The data of [read_binary_imu.h]                                    *)
(* ===================================================================== *)

(** The return codes that [read_geneactiv.c] names.  The header that
    declares them is not among the sources; only their names are used. *)
Inductive GN_Read_Err :=
| GN_READ_E_NONE
| GN_READ_E_BLOCK_TIMESTAMP
| GN_READ_E_BLOCK_FS
| GN_READ_E_BLOCK_DATA
| GN_READ_E_BLOCK_DATA_3600
| GN_READ_E_BLOCK_FS_WARN.

(** A [double[3]]: one value per axis. *)
Record axes := Axes { ax0 : float; ax1 : float; ax2 : float }.

Definition axis_get (a : axes) (k : Z) : float :=
  if k =? 0 then ax0 a else if k =? 1 then ax1 a else ax2 a.

Definition axis_set (a : axes) (k : Z) (v : float) : axes :=
  if k =? 0 then Axes v (ax1 a) (ax2 a)
  else if k =? 1 then Axes (ax0 a) v (ax2 a)
  else Axes (ax0 a) (ax1 a) v.

(** [GN_Info_t], the fields the reader uses. *)
Record GN_Info_t := Info {
  fs : float;
  gain : axes;
  offset : axes;
  volts : float;
  lux : float;
  npages : Z;
  max_n : Z;
  fs_err : Z
}.

Definition set_fs (v : float) (i : GN_Info_t) : GN_Info_t :=
  Info v (gain i) (offset i) (volts i) (lux i) (npages i) (max_n i) (fs_err i).
Definition set_gain (j : Z) (v : float) (i : GN_Info_t) : GN_Info_t :=
  Info (fs i) (axis_set (gain i) j v) (offset i) (volts i) (lux i) (npages i) (max_n i) (fs_err i).
Definition set_offset (j : Z) (v : float) (i : GN_Info_t) : GN_Info_t :=
  Info (fs i) (gain i) (axis_set (offset i) j v) (volts i) (lux i) (npages i) (max_n i) (fs_err i).
Definition set_volts (v : float) (i : GN_Info_t) : GN_Info_t :=
  Info (fs i) (gain i) (offset i) v (lux i) (npages i) (max_n i) (fs_err i).
Definition set_lux (v : float) (i : GN_Info_t) : GN_Info_t :=
  Info (fs i) (gain i) (offset i) (volts i) v (npages i) (max_n i) (fs_err i).
Definition set_npages (v : Z) (i : GN_Info_t) : GN_Info_t :=
  Info (fs i) (gain i) (offset i) (volts i) (lux i) v (max_n i) (fs_err i).
Definition set_max_n (v : Z) (i : GN_Info_t) : GN_Info_t :=
  Info (fs i) (gain i) (offset i) (volts i) (lux i) (npages i) v (fs_err i).
Definition set_fs_err (v : Z) (i : GN_Info_t) : GN_Info_t :=
  Info (fs i) (gain i) (offset i) (volts i) (lux i) (npages i) (max_n i) v.

(** Modelled from the spec: the macro [GN_READLINE] is defined in
    [read_binary_imu.h], which is not among the sources.  The spec describes
    each use as skipping or reading one line of the stream, and every use
    site reads the line from the local 255-byte array [buff]; the macro is
    therefore one [fgets(buff, 255, fp)] whose result is not inspected, as
    in [parseline]. *)
Definition GN_READLINE (st : list ascii * FILE) : list ascii * FILE :=
  match fgets (fst st) 255 (snd st) with
  | Some st' => st'
  | None => st
  end.

(* ===================================================================== *)
(** ** The header decoder                                                 *)
(* ===================================================================== *)

(** [parseline(fp, buff, buff_len, &key, &val)]: the array and the file
    after the call, and the offsets in the array of the two tokens (NULL is
    [None]). *)
Definition parseline (fp : FILE) (buff : list ascii) (buff_len : nat)
  : list ascii * FILE * option nat * option nat :=
  let '(buff1, fp1) :=
    match fgets buff buff_len fp with
    | Some st => st
    | None => (buff, fp)
    end in
  let '(key, buff2, save) := strtok_at buff1 0 in
  let '(val, buff3, _) := strtok_at buff2 save in
  (buff3, fp1, key, val).

(** [(double)strtol(v, NULL, 10)] for the token [v] of [parseline]; a null
    [v] is dereferenced by [strtol]. *)
Definition parse_val (buff : list ascii) (v : option nat) : option float :=
  match v with
  | Some p => Some (double_of_Z (strtol (cstr_at buff p) 10))
  | None => None
  end.

(** One round of the loop over the axes: the gain line, then the offset
    line, of axis [j]. *)
Definition read_gain_offset (j : Z) (st : list ascii * FILE * GN_Info_t)
  : option (list ascii * FILE * GN_Info_t) :=
  let '(buff, fp, info) := st in
  let '(buff, fp, _, v) := parseline fp buff 255 in
  g ← parse_val buff v;
  let info := set_gain j g info in
  let '(buff, fp, _, v) := parseline fp buff 255 in
  o ← parse_val buff v;
  Some (buff, fp, set_offset j o info).

Definition geneactiv_read_header (buff : list ascii) (fp : FILE) (info : GN_Info_t)
  : option (GN_Read_Err * FILE * GN_Info_t) :=
  (* read the first 19 lines *)
  let '(buff, fp) := Nat.iter 19 GN_READLINE (buff, fp) in
  (* sampling frequency *)
  let '(buff, fp, _, v) := parseline fp buff 255 in
  f ← parse_val buff v;
  let info := set_fs f info in
  (* read another group of lines *)
  let '(buff, fp) := Nat.iter 27 GN_READLINE (buff, fp) in
  (* get the gain and offset values *)
  st ← read_gain_offset 0 (buff, fp, info);
  st ← read_gain_offset 1 st;
  st ← read_gain_offset 2 st;
  let '(buff, fp, info) := st in
  (* get the volts and lux values *)
  let '(buff, fp) := GN_READLINE (buff, fp) in
  let info := set_volts (double_of_Z (strtol (cstr_at buff 6) 10)) info in
  let '(buff, fp) := GN_READLINE (buff, fp) in
  let info := set_lux (double_of_Z (strtol (cstr_at buff 4) 10)) info in
  (* read and skip a few more lines. Last line read is 58 *)
  let '(buff, fp) := Nat.iter 3 GN_READLINE (buff, fp) in
  let info := set_npages (strtol (cstr_at buff 16) 10) info in
  let '(buff, fp) := GN_READLINE (buff, fp) in
  Some (GN_READ_E_NONE, fp, info).




(** [(double)strtol(s, NULL, 10)]. *)
Definition number (s : list ascii) : float := double_of_Z (strtol s 10).


(* ===================================================================== *)
(** ** The block decoder                                                  *)
(* ===================================================================== *)

(** Modelled from the spec: [GN_SAMPLES] is defined in [read_binary_imu.h],
    which is not among the sources.  The spec gives one sample per
    twelve-character group of the 3600-character data line, 300 samples per
    block. *)
Definition GN_SAMPLES : Z := 300.

Definition INT_MAX : Z := 2 ^ 31 - 1.
Definition INT_MIN : Z := - 2 ^ 31.

(** A [long] stored into an [int]. *)
Definition int_of_long (z : Z) : Z := (z + 2 ^ 31) mod 2 ^ 32 - 2 ^ 31.

(** The fields of [struct tm] that [get_timestamps] sets; [memset] zeroes
    the others. *)
Record tm := Tm {
  tm_year : Z; tm_mon : Z; tm_mday : Z; tm_hour : Z; tm_min : Z; tm_sec : Z
}.

(** [Time_t]. *)
Record Time_t := MkTime { t_hour : Z; t_min : Z; t_sec : Z; t_msec : Z }.

(** [GN_Data_t], the sample buffers of the caller.  The length of a list is
    the number of elements the caller allocated. *)
Record GN_Data_t := Data {
  acc : list float;
  temp : list float;
  light : list float;
  ts : list float
}.

Definition set_acc (v : list float) (d : GN_Data_t) : GN_Data_t :=
  Data v (temp d) (light d) (ts d).
Definition set_temp (v : list float) (d : GN_Data_t) : GN_Data_t :=
  Data (acc d) v (light d) (ts d).
Definition set_light (v : list float) (d : GN_Data_t) : GN_Data_t :=
  Data (acc d) (temp d) v (ts d).
Definition set_ts (v : list float) (d : GN_Data_t) : GN_Data_t :=
  Data (acc d) (temp d) (light d) v.

(** [a[i] = v] on a buffer of the caller; outside the buffer the store is
    undefined. *)
Definition store (a : list float) (i : Z) (v : float) : option (list float) :=
  if (0 <=? i) && (i <? Z.of_nat (length a))
  then Some (<[Z.to_nat i := v]> a) else None.

(** What the decoder takes from outside [read_geneactiv.c]: the C library
    ([strtod], [timegm]), the clock-stamp macros of [read_binary_imu.h],
    which are applied to the array [time], and the day-window indexer
    [get_day_indexing].  The indexer receives pointers to the day and window
    index arrays only; these arrays and the window description ([Window_t]
    and the [day_starts] and [day_stops] of [GN_Data_t]) are the state
    [Indexing]. *)
Class Platform := {
  strtod : list ascii -> float;
  timegm : tm -> Z;
  GN_DATE_YEAR : list ascii -> Z;
  GN_DATE_MONTH : list ascii -> Z;
  GN_DATE_DAY : list ascii -> Z;
  GN_DATE_HOUR : list ascii -> Z;
  GN_DATE_MIN : list ascii -> Z;
  GN_DATE_SEC : list ascii -> Z;
  GN_DATE_MSEC : list ascii -> Z;
  Indexing : Type;
  get_day_indexing : float -> Time_t -> Z -> Z -> Indexing -> Indexing
}.

(** The initial contents of the local arrays of [geneactiv_read_block]:
    [buff[255]], [data_str[3610]], [time[40]], and the byte [p[3]] of
    [p[4]], which the source never writes. *)
Record Locals := Stack {
  buff0 : list ascii;
  data_str0 : list ascii;
  time0 : list ascii;
  p3 : ascii
}.

(** What a call leaves behind: the return code, the file, the indexing
    state (of type [I]), [*info] and [*data]. *)
Record Outcome (I : Type) := Out {
  code : GN_Read_Err;
  file : FILE;
  w_info : I;
  info_of : GN_Info_t;
  data_of : GN_Data_t
}.

Arguments Out {I} _ _ _ _ _.
Arguments code {I} _.
Arguments file {I} _.
Arguments w_info {I} _.
Arguments info_of {I} _.
Arguments data_of {I} _.

Section Decoder.
Context `{Platform}.

(** The loop [for (int i = from; i < from + n; ++i) a[i] = v]. *)
Fixpoint fill (n : nat) (i : Z) (v : float) (a : list float)
  : option (list float) :=
  match n with
  | O => Some a
  | S n' => a' ← store a i v; fill n' (i + 1) v a'
  end.

(** The loop [for (int i = Nps; i < (Nps + GN_SAMPLES); ++i) a[i] = v] on
    the [long] [Nps].  The counter is an [int]: it starts at [Nps] stored
    into an [int], and the test compares it with the [long]
    [Nps + GN_SAMPLES].  A counter that starts at or above the bound leaves
    the loop before any store; a bound above [INT_MAX] is not reached by an
    [int] counter, whose increment beyond [INT_MAX] is undefined. *)
Definition temp_loop (Nps : Z) (v : float) (a : list float)
  : option (list float) :=
  let i := int_of_long Nps in
  let bound := Nps + GN_SAMPLES in
  if bound <=? i then Some a
  else if INT_MAX <? bound then None
  else fill (Z.to_nat (bound - i)) i v a.

(** The loop [for (int j = 0; j < GN_SAMPLES; ++j)
    data->ts[*Nps + j] = t0 + (double)j / info->fs], with [n] rounds left
    from round [j]. *)
Fixpoint stamp (n : nat) (j : Z) (Nps : Z) (t0 fs : float) (a : list float)
  : option (list float) :=
  match n with
  | O => Some a
  | S n' =>
      a' ← store a (Nps + j) (t0 + double_of_Z j / fs)%float;
      stamp n' (j + 1) Nps t0 fs a'
  end.

(** The start of the block in seconds since the epoch. *)
Definition block_t0 (time : list ascii) : float :=
  let tm0 := Tm (int_of_long (GN_DATE_YEAR time - 1900))
                (int_of_long (GN_DATE_MONTH time - 1))
                (int_of_long (GN_DATE_DAY time))
                (int_of_long (GN_DATE_HOUR time))
                (int_of_long (GN_DATE_MIN time))
                (int_of_long (GN_DATE_SEC time)) in
  (double_of_Z (timegm tm0)
   + double_of_Z (GN_DATE_MSEC time * 1000) / 1000000)%float.

Definition get_timestamps (Nps : Z) (time : list ascii) (info : GN_Info_t)
    (data : GN_Data_t) (winfo : Indexing)
  : option (GN_Read_Err * GN_Data_t * Indexing) :=
  let t := MkTime (GN_DATE_HOUR time) (GN_DATE_MIN time) (GN_DATE_SEC time)
                (GN_DATE_MSEC time * 1000) in
  let t0 := block_t0 time in
  (* create the full timestamp array for the block *)
  ts' ← stamp (Z.to_nat GN_SAMPLES) 0 Nps t0 (fs info) (ts data);
  (* INDEXING *)
  let winfo' := get_day_indexing (fs info) t (max_n info) (npages info) winfo in
  Some (GN_READ_E_NONE, set_ts ts' data, winfo').

(** [memcpy(p, &data_str[off], 3); t_ = strtol(p, NULL, 16)], where the
    byte [p[3]] is [p3].  The source stores no terminator in [p]: the call
    is defined when the scan of [strtol] ends inside the four bytes of
    [p]. *)
Definition field (data_str : list ascii) (off : Z) (p3 : ascii) : option Z :=
  let p := memcpy [NUL; NUL; NUL; p3] (skipn (Z.to_nat off) data_str) 3 in
  if strtol_stops p 16 then Some (strtol (cstr p) 16) else None.

(** [t_ = (t_ > 2047) ? -4096 + t_ : t_]. *)
Definition adjust (t_ : Z) : Z := if t_ >? 2047 then -4096 + t_ else t_.

(** [((double)t_ * 100.0f - info->offset[k]) / info->gain[k]]. *)
Definition calibrate (info : GN_Info_t) (k : Z) (t_ : Z) : float :=
  ((double_of_Z t_ * 100 - axis_get (offset info) k) / axis_get (gain info) k)%float.

(** [(double)(t_ >> 2) * (info->lux / info->volts)]; [>>] on a negative
    [long] is the arithmetic shift. *)
Definition light_value (info : GN_Info_t) (t_ : Z) : float :=
  (double_of_Z (Z.shiftr t_ 2) * (lux info / volts info))%float.

(** The loop over the axes, [for (int k = 0; k < 3; ++k)], with [n] rounds
    left from round [k]; [j] counts the acceleration values stored. *)
Fixpoint accel (n : nat) (k : Z) (i j : Z) (Nps : Z) (data_str : list ascii)
    (p3 : ascii) (info : GN_Info_t) (a : list float) : option (list float) :=
  match n with
  | O => Some a
  | S n' =>
      t_ ← field data_str (i + k * 3) p3;
      let t_ := adjust t_ in
      a' ← store a (Nps * 3 + j) (calibrate info k t_);
      accel n' (k + 1) i (j + 1) Nps data_str p3 info a'
  end.

(** The loop over the groups, [for (int i = 0; i < 3600; i += 12)], with
    [n] rounds left from offset [i]. *)
Fixpoint groups (n : nat) (i j jj : Z) (Nps : Z) (data_str : list ascii)
    (p3 : ascii) (info : GN_Info_t) (data : GN_Data_t) : option GN_Data_t :=
  match n with
  | O => Some data
  | S n' =>
      a' ← accel 3 0 i j Nps data_str p3 info (acc data);
      t_ ← field data_str (i + 9) p3;
      l' ← store (light data) (Nps + jj) (light_value info t_);
      groups n' (i + 12) (j + 3) (jj + 1) Nps data_str p3 info
             (set_light l' (set_acc a' data))
  end.

(** The part of [geneactiv_read_block] from the read of the data string
    to the end, entered with the return code [ier] set so far. *)
Definition read_block_data (loc : Locals) (fp : FILE) (w_info : Indexing)
    (info : GN_Info_t) (data : GN_Data_t) (Nps : Z) (time : list ascii)
    (ier : GN_Read_Err) : option (Outcome Indexing) :=
  (* read the 3600 character data string *)
  match fgets (data_str0 loc) 3610 fp with
  | None => Some (Out GN_READ_E_BLOCK_DATA fp w_info info data)
  | Some (data_str, fp) =>
      (* check the length *)
      if strlen data_str <? 3601 then
        Some (Out GN_READ_E_BLOCK_DATA_3600 fp w_info info data)
      else
        (* put the block data into the appropiate location *)
        data ← groups 300 0 0 0 Nps data_str (p3 loc) info data;
        r ← get_timestamps Nps time info data w_info;
        let '(_, data, w_info) := r in
        Some (Out ier fp w_info info data)
  end.

Definition geneactiv_read_block (loc : Locals) (fp : FILE) (w_info : Indexing)
    (info : GN_Info_t) (data : GN_Data_t) : option (Outcome Indexing) :=
  (* skip first 2 lines; 3d line is sequence number *)
  let '(buff, fp) := Nat.iter 3 GN_READLINE (buff0 loc, fp) in
  let N := strtol (cstr_at buff 16) 10 in
  let Nps := N * GN_SAMPLES in
  (* the product is a [long] *)
  if negb ((LONG_MIN <=? Nps) && (Nps <=? LONG_MAX)) then None else
  (* max N found so far *)
  let info := set_max_n (if N >? max_n info then N else max_n info) info in
  (* read the line containing the timestamp *)
  match fgets (time0 loc) 40 fp with
  | None => Some (Out GN_READ_E_BLOCK_TIMESTAMP fp w_info info data)
  | Some (time, fp) =>
      (* skip a line then read the line with the temperature *)
      let '(buff, fp) := Nat.iter 2 GN_READLINE (buff, fp) in
      let temp_ := strtod (cstr_at buff 12) in
      temp' ← temp_loop Nps temp_ (temp data);
      let data := set_temp temp' data in
      (* skip 2 more lines then read the sampling rate *)
      let '(buff, fp) := Nat.iter 3 GN_READLINE (buff, fp) in
      let fs_ := strtod (cstr_at buff 22) in
      if fne fs_ (fs info) && (fs_err info <? 1) then
        (* increment the error counter, set the sampling frequency to that
           of the block, and set the warning; the message that [sprintf]
           leaves in the global [warn_str] is not part of the model *)
        let info := set_fs fs_ (set_fs_err (fs_err info + 1) info) in
        read_block_data loc fp w_info info data Nps time GN_READ_E_BLOCK_FS_WARN
      else if fne fs_ (fs info) && (fs_err info >=? 1) then
        Some (Out GN_READ_E_BLOCK_FS fp w_info info data)
      else
        read_block_data loc fp w_info info data Nps time GN_READ_E_NONE
  end.

End Decoder.

(* ===================================================================== *)
(** ** The rolling median                                                 *)
(* ===================================================================== *)

Module RollingMedian.

(** The array [PyArray_FromAny] hands back: its dimensions and its
    elements as C-contiguous doubles. *)
Record ndarray := Array { dims : list Z; elems : list float }.

Definition PyArray_NDIM (a : ndarray) : Z := Z.of_nat (length (dims a)).
Definition PyArray_SIZE (a : ndarray) : Z := fold_right Z.mul 1 (dims a).

Inductive gsl_movstat_end_t :=
| GSL_MOVSTAT_END_PADZERO
| GSL_MOVSTAT_END_PADVALUE
| GSL_MOVSTAT_END_TRUNCATE.

(** The moving median of the GSL, for a workspace allocated with
    [gsl_movstat_alloc(K)]; the output vector has the size of the input
    vector. *)
Class Gsl := {
  gsl_movstat_median : gsl_movstat_end_t -> list float -> Z -> list float;
  gsl_movstat_median_size :
    forall e x K, length (gsl_movstat_median e x K) = length x
}.

(** What a call of the extension function does: it returns an array, it
    returns NULL with a Python error set, or its behaviour is undefined. *)
Inductive result :=
| Returned (a : ndarray)
| Null
| Undefined.

Section RollMedian.
Context `{Gsl}.

(** The loop [for (int i = 0; i < nrepeats; ++i)], with [n] rounds left;
    [off] is the distance of [dptr] and [rptr] from the start of their
    arrays. *)
Fixpoint median_loop (n : nat) (off stride : nat) (wlen : Z)
    (d r : list float) : list float :=
  match n with
  | O => r
  | S n' =>
      let x := take stride (drop off d) in
      let xmean := gsl_movstat_median GSL_MOVSTAT_END_PADZERO x wlen in
      median_loop n' (off + stride) stride wlen d
                  (take off r ++ xmean ++ drop (off + stride) r)
  end.

(** [roll_median(x, wlen)] for an argument that converts to the array
    [data]; [empty] is the content of the array [PyArray_EMPTY]
    allocates, of the size of [data]. *)
Definition roll_median (data : ndarray) (wlen : Z) (empty : list float)
  : result :=
  (* PyArray_FromAny with min_depth 1 *)
  if PyArray_NDIM data <? 1 then Null else
  let ndim := PyArray_NDIM data in
  let ddims := dims data in
  (* gsl_movstat_alloc((size_t)wlen) cannot allocate a negative length *)
  if wlen <? 0 then Undefined else
  let stride := nth (Z.to_nat (ndim - 1)) ddims 0 in
  (* PyArray_SIZE(data) / stride divides by zero on an empty last axis *)
  if stride =? 0 then Undefined else
  let nrepeats := int_of_long (PyArray_SIZE data ÷ stride) in
  Returned (Array ddims
              (median_loop (Z.to_nat nrepeats) 0 (Z.to_nat stride) wlen
                           (elems data) empty)).

End RollMedian.

End RollingMedian.

(* ===================================================================== *)
(** ** Reading the buffers and the text of a block                        *)
(* ===================================================================== *)

(** [a[z]] when [z] is inside the buffer. *)
Definition get (a : list float) (z : Z) : option float :=
  if z <? 0 then None else a !! Z.to_nat z.

(** The loop shape shared by the stores of the decoder: [n] rounds from
    round [m], round [z] storing the value [f z] at [base + z]. *)
Fixpoint writes (n : nat) (m base : Z) (f : Z -> option float) (a : list float)
  : option (list float) :=
  match n with
  | O => Some a
  | S n' =>
      v ← f m; a' ← store a (base + m) v; writes n' (m + 1) base f a'
  end.

(** The number of characters before the first newline of the file, or
    before its end. *)
Fixpoint line_length (fp : FILE) : Z :=
  match fp with
  | [] => 0
  | c :: fp' => if Ascii.eqb c newline then 0 else 1 + line_length fp'
  end.

(** A hexadecimal digit and its value. *)
Definition hexval (c : ascii) : option Z :=
  match digit_val c with
  | Some d => if d <? 16 then Some d else None
  | None => None
  end.

(** What [strtol] tests on a character, for a hexadecimal digit. *)
Definition plain_digit (c : ascii) : bool :=
  match hexval c with
  | Some _ =>
      negb (Ascii.eqb c NUL) && negb (isspace c)
      && negb (Ascii.eqb c "-") && negb (Ascii.eqb c "+")
      && negb (Ascii.eqb c "x") && negb (Ascii.eqb c "X")
  | None => true
  end.

(** The value of the three hexadecimal digits at offset [off] of the data
    string, when there are three. *)
Definition hex3 (data_str : list ascii) (off : Z) : option Z :=
  match skipn (Z.to_nat off) data_str with
  | c0 :: c1 :: c2 :: _ =>
      d0 ← hexval c0; d1 ← hexval c1; d2 ← hexval c2;
      Some (256 * d0 + 16 * d1 + d2)
  | _ => None
  end.

(** Every light field of the data string is three hexadecimal digits. *)
Definition light_fields_hex (data_str : list ascii) : bool :=
  forallb (fun g => match hex3 data_str (12 * Z.of_nat g + 9) with
                    | Some _ => true
                    | None => false
                    end) (seq 0 300).

(** Every field of the data string is read inside the array [p], whose
    byte [p[3]] is [c]: each of the 1200 scans of [strtol], one per field of
    three characters, ends within the four bytes of [p]. *)
Definition fields_inside (data_str : list ascii) (c : ascii) : bool :=
  forallb (fun n => match field data_str (3 * Z.of_nat n) c with
                    | Some _ => true
                    | None => false
                    end) (seq 0 1200).

(** What [geneactiv_read_block] reads before the data string. *)
Record BlockText := Blk {
  bt_N : Z;                 (* the sequence number *)
  bt_time : list ascii;     (* the array [time] holding the clock stamp *)
  bt_temp : float;          (* the temperature *)
  bt_fs : float;            (* the sampling rate the block declares *)
  bt_fp : FILE              (* the file from the data string on *)
}.

Section BlockText.
Context `{Platform}.

(** The reads of [geneactiv_read_block] up to the sampling rate, without
    its stores; [None] when the file ends before the clock stamp. *)
Definition block_text (loc : Locals) (fp : FILE) : option BlockText :=
  let '(buff, fp) := Nat.iter 3 GN_READLINE (buff0 loc, fp) in
  let N := strtol (cstr_at buff 16) 10 in
  match fgets (time0 loc) 40 fp with
  | None => None
  | Some (time, fp) =>
      let '(buff, fp) := Nat.iter 2 GN_READLINE (buff, fp) in
      let temp_ := strtod (cstr_at buff 12) in
      let '(buff, fp) := Nat.iter 3 GN_READLINE (buff, fp) in
      let fs_ := strtod (cstr_at buff 22) in
      Some (Blk N time temp_ fs_ fp)
  end.

(** The caller's buffers have room for block [N]. *)
Definition room (N : Z) (data : GN_Data_t) : Prop :=
  0 <= N * GN_SAMPLES /\
  N * GN_SAMPLES + GN_SAMPLES <= INT_MAX /\
  N * GN_SAMPLES + GN_SAMPLES <= Z.of_nat (length (temp data)) /\
  N * GN_SAMPLES + GN_SAMPLES <= Z.of_nat (length (light data)) /\
  N * GN_SAMPLES + GN_SAMPLES <= Z.of_nat (length (ts data)) /\
  (N * GN_SAMPLES + GN_SAMPLES) * 3 <= Z.of_nat (length (acc data)).

(** The block is decoded: the call returns success, or the warning of a
    corrected sampling rate. *)
Definition decoded (c : GN_Read_Err) : Prop :=
  c = GN_READ_E_NONE \/ c = GN_READ_E_BLOCK_FS_WARN.

(** [*info] after the sequence number [N] has been read. *)
Definition seen (N : Z) (info : GN_Info_t) : GN_Info_t :=
  set_max_n (if N >? max_n info then N else max_n info) info.

(** [*info] after the first mismatch of the sampling rate. *)
Definition corrected (fs_ : float) (info : GN_Info_t) : GN_Info_t :=
  set_fs fs_ (set_fs_err (fs_err info + 1) info).

(** The samples of block [b], decoded from the data string [data_str]
    under [info], are in the buffers [data'], and the rest of [data'] is
    as in [data]. *)
Definition block_stored (b : BlockText) (data_str : list ascii) (c : ascii)
    (info : GN_Info_t) (data data' : GN_Data_t) : Prop :=
  let Nps := bt_N b * GN_SAMPLES in
  length (temp data') = length (temp data)
  /\ length (ts data') = length (ts data)
  /\ length (acc data') = length (acc data)
  /\ length (light data') = length (light data)
  /\ (forall j, 0 <= j < GN_SAMPLES ->
        get (temp data') (Nps + j) = Some (bt_temp b)
        /\ get (ts data') (Nps + j)
           = Some (block_t0 (bt_time b) + double_of_Z j / fs info)%float
        /\ (exists t_, field data_str (12 * j + 9) c = Some t_
             /\ get (light data') (Nps + j) = Some (light_value info t_))
        /\ forall k, 0 <= k < 3 ->
             exists t_, field data_str (12 * j + k * 3) c = Some t_
               /\ get (acc data') (Nps * 3 + 3 * j + k)
                  = Some (calibrate info k (adjust t_)))
  /\ (forall z, ~ (Nps <= z < Nps + GN_SAMPLES) ->
        get (temp data') z = get (temp data) z
        /\ get (ts data') z = get (ts data) z
        /\ get (light data') z = get (light data) z)
  /\ (forall z, ~ (Nps * 3 <= z < (Nps + GN_SAMPLES) * 3) ->
        get (acc data') z = get (acc data) z).

End BlockText.

(* ===================================================================== *)
(** ** The lines of a file                                                *)
(* ===================================================================== *)

(** A text without a newline. *)
Definition no_newline (l : list ascii) : bool :=
  forallb (fun c => negb (Ascii.eqb c newline)) l.

(** A text without a NUL. *)
Definition no_nul (l : list ascii) : bool :=
  forallb (fun c => negb (Ascii.eqb c NUL)) l.

(** A line that one [fgets] with room for [n] characters reads whole: its
    text [l] has no newline, and the text and its newline are fewer than
    [n] characters. *)
Definition fits (n : nat) (l : list ascii) : bool :=
  no_newline l && (S (length l) <? n)%nat.

(** The file that holds the texts [ls], each ended by a newline, and
    then [rest]. *)
Definition lines (ls : list (list ascii)) (rest : FILE) : FILE :=
  fold_right (fun l fp => l ++ newline :: fp) rest ls.

(** The array after [fgets] has stored the line of text [l] in the array
    [s]. *)
Definition line_in (l s : list ascii) : list ascii :=
  l ++ newline :: NUL :: skipn (S (S (length l))) s.

(** The ten lines of a block of the file, as texts without their newlines.
    Of line 3 the decoder uses what is behind the first 16 characters (the
    sequence number), of line 6 what is behind the first 12 (the
    temperature), of line 9 what is behind the first 22 (the sampling
    rate); line 4 is the clock stamp and line 10 the data string. *)
Record BlockLines := BLines {
  bl_1 : list ascii;
  bl_2 : list ascii;
  bl_seq_label : list ascii;
  bl_seq : list ascii;
  bl_time : list ascii;
  bl_5 : list ascii;
  bl_temp_label : list ascii;
  bl_temp : list ascii;
  bl_7 : list ascii;
  bl_8 : list ascii;
  bl_fs_label : list ascii;
  bl_fs : list ascii;
  bl_data : list ascii
}.

(** The nine lines before the data string. *)
Definition head_lines (b : BlockLines) : list (list ascii) :=
  [bl_1 b; bl_2 b; bl_seq_label b ++ bl_seq b; bl_time b; bl_5 b;
   bl_temp_label b ++ bl_temp b; bl_7 b; bl_8 b; bl_fs_label b ++ bl_fs b].

(** The block in a file, followed by [rest]. *)
Definition block_file (b : BlockLines) (rest : FILE) : FILE :=
  lines (head_lines b) (bl_data b ++ newline :: rest).

(** Every line before the data string is read whole by its [fgets], the
    three labels have the widths the decoder skips, and the lines the
    decoder converts hold no NUL. *)
Definition head_well_formed (b : BlockLines) : bool :=
  forallb (fits 255)
    [bl_1 b; bl_2 b; bl_seq_label b ++ bl_seq b; bl_5 b;
     bl_temp_label b ++ bl_temp b; bl_7 b; bl_8 b; bl_fs_label b ++ bl_fs b]
  && fits 40 (bl_time b)
  && (length (bl_seq_label b) =? 16)%nat
  && (length (bl_temp_label b) =? 12)%nat
  && (length (bl_fs_label b) =? 22)%nat
  && no_nul (bl_seq_label b ++ bl_seq b)
  && no_nul (bl_temp_label b ++ bl_temp b)
  && no_nul (bl_fs_label b ++ bl_fs b).

(** The data string has at least 3600 characters, holds no NUL and is read
    whole by its [fgets]. *)
Definition data_well_formed (b : BlockLines) : bool :=
  fits 3610 (bl_data b) && no_nul (bl_data b)
  && (3600 <=? length (bl_data b))%nat.

(** A text that [strtok] with the delimiter [":"] takes as one token: no
    NUL and no colon. *)
Definition token (s : list ascii) : bool :=
  forallb (fun c => negb (Ascii.eqb c NUL) && negb (Ascii.eqb c colon)) s.

(** A line [key:value] of the header. *)
Record KeyValue := KV { kv_key : list ascii; kv_value : list ascii }.

(** The text of the line: the key, a colon, the value. *)
Definition kv_text (l : KeyValue) : list ascii :=
  kv_key l ++ colon :: kv_value l.

(** The key is not empty, key and value are tokens, and the line is read
    whole by [parseline]. *)
Definition kv_ok (l : KeyValue) : bool :=
  match kv_key l with
  | [] => false
  | _ :: _ => token (kv_key l) && token (kv_value l) && fits 255 (kv_text l)
  end.

(** The 59 lines of a header, as texts without their newlines.  Line 20
    and lines 48 to 53 are [key:value] lines; of line 54 the decoder uses
    what is behind the first 6 characters (the volts), of line 55 what is
    behind the first 4 (the lux), of line 58 what is behind the first 16
    (the number of pages). *)
Record HeaderLines := HLines {
  hl_1_19 : list (list ascii);
  hl_fs : KeyValue;
  hl_21_47 : list (list ascii);
  hl_gain0 : KeyValue;
  hl_offset0 : KeyValue;
  hl_gain1 : KeyValue;
  hl_offset1 : KeyValue;
  hl_gain2 : KeyValue;
  hl_offset2 : KeyValue;
  hl_volts_label : list ascii;
  hl_volts : list ascii;
  hl_lux_label : list ascii;
  hl_lux : list ascii;
  hl_56 : list ascii;
  hl_57 : list ascii;
  hl_npages_label : list ascii;
  hl_npages : list ascii;
  hl_59 : list ascii
}.

(** The header in a file, followed by [rest]. *)
Definition header_file (h : HeaderLines) (rest : FILE) : FILE :=
  lines (hl_1_19 h)
    (lines [kv_text (hl_fs h)]
       (lines (hl_21_47 h)
          (lines [kv_text (hl_gain0 h); kv_text (hl_offset0 h);
                  kv_text (hl_gain1 h); kv_text (hl_offset1 h);
                  kv_text (hl_gain2 h); kv_text (hl_offset2 h);
                  hl_volts_label h ++ hl_volts h;
                  hl_lux_label h ++ hl_lux h;
                  hl_56 h; hl_57 h;
                  hl_npages_label h ++ hl_npages h;
                  hl_59 h] rest))).

(** There are 19 lines before line 20 and 27 behind it, every line is read
    whole by its [fgets], the [key:value] lines are as [parseline] needs
    them, the three labels have the widths the decoder skips, and the lines
    the decoder converts by column hold no NUL. *)
Definition header_well_formed (h : HeaderLines) : bool :=
  (length (hl_1_19 h) =? 19)%nat && forallb (fits 255) (hl_1_19 h)
  && kv_ok (hl_fs h)
  && (length (hl_21_47 h) =? 27)%nat && forallb (fits 255) (hl_21_47 h)
  && kv_ok (hl_gain0 h) && kv_ok (hl_offset0 h)
  && kv_ok (hl_gain1 h) && kv_ok (hl_offset1 h)
  && kv_ok (hl_gain2 h) && kv_ok (hl_offset2 h)
  && forallb (fits 255)
       [hl_volts_label h ++ hl_volts h; hl_lux_label h ++ hl_lux h;
        hl_56 h; hl_57 h; hl_npages_label h ++ hl_npages h; hl_59 h]
  && (length (hl_volts_label h) =? 6)%nat
  && (length (hl_lux_label h) =? 4)%nat
  && (length (hl_npages_label h) =? 16)%nat
  && no_nul (hl_volts_label h ++ hl_volts h)
  && no_nul (hl_lux_label h ++ hl_lux h)
  && no_nul (hl_npages_label h ++ hl_npages h).

(* ===================================================================== *)
(** ** A platform to run the decoder on                                   *)
(* ===================================================================== *)

(** A platform for the examples: [strtod] on plain decimals, [timegm] by
    the civil calendar, the clock-stamp macros as the columns of the
    GENEActiv page time, and an indexer that does nothing. *)
Module Demo.

(** [strtod] on plain decimal numerals (sign, digits, point, digits): the
    quotient of two exactly represented integers, correctly rounded. *)
Fixpoint decimal (s : list ascii) (m k : Z) (point : bool) : Z * Z :=
  match s with
  | c :: s' =>
      if Ascii.eqb c "."%char && negb point then decimal s' m k true
      else match digit_val c with
           | Some d =>
               if d <? 10
               then decimal s' (m * 10 + d) (if point then k + 1 else k) point
               else (m, k)
           | None => (m, k)
           end
  | [] => (m, k)
  end.

Definition strtod_decimal (s : list ascii) : float :=
  let '(neg, s1) := strip_sign (skip_space s) in
  let '(m, k) := decimal s1 0 0 false in
  let v := (double_of_Z m / double_of_Z (10 ^ k))%float in
  if neg then (- v)%float else v.

(** Days from 1970-01-01 to the civil date [y]-[m]-[d]. *)
Definition days_from_civil (y m d : Z) : Z :=
  let y' := if m <=? 2 then y - 1 else y in
  let era := y' / 400 in
  let yoe := y' - era * 400 in
  let doy := (153 * (if m >? 2 then m - 3 else m + 9) + 2) / 5 + d - 1 in
  let doe := yoe * 365 + yoe / 4 - yoe / 100 + doy in
  era * 146097 + doe - 719468.

Definition timegm_civil (t : tm) : Z :=
  let y := tm_year t + 1900 + tm_mon t / 12 in
  let m := tm_mon t mod 12 + 1 in
  (days_from_civil y m 1 + (tm_mday t - 1)) * 86400
  + tm_hour t * 3600 + tm_min t * 60 + tm_sec t.

(** The clock stamp [Page Time:2018-05-14 14:46:14:500] has its fields at
    columns 10, 15, 18, 21, 24, 27 and 30; no day indexing is done. *)
#[export] Instance platform : Platform := {|
  strtod := strtod_decimal;
  timegm := timegm_civil;
  GN_DATE_YEAR t := strtol (cstr_at t 10) 10;
  GN_DATE_MONTH t := strtol (cstr_at t 15) 10;
  GN_DATE_DAY t := strtol (cstr_at t 18) 10;
  GN_DATE_HOUR t := strtol (cstr_at t 21) 10;
  GN_DATE_MIN t := strtol (cstr_at t 24) 10;
  GN_DATE_SEC t := strtol (cstr_at t 27) 10;
  GN_DATE_MSEC t := strtol (cstr_at t 30) 10;
  Indexing := unit;
  get_day_indexing _ _ _ _ w := w
|}.

Definition line (s : string) : list ascii := bytes s ++ [newline].

(** The nine lines of a block before its data string. *)
Definition block_head (n temp_ fs_ : string) : list ascii :=
  line "Recorded Data" ++ line "Device Unique Serial Code:012345"
  ++ line ("Sequence Number:" ++ n)
  ++ line "Page Time:2018-05-14 14:46:14:500"
  ++ line "Unassigned:"
  ++ line ("Temperature:" ++ temp_)
  ++ line "Battery voltage:4.1"
  ++ line "Device Status:Recording"
  ++ line ("Measurement Frequency:" ++ fs_).

(** A data line of [n] copies of one twelve-character group. *)
Definition data_line (n : nat) (group : string) : list ascii :=
  concat (replicate n (bytes group)) ++ [newline].

Definition info0 : GN_Info_t :=
  Info 100 (Axes 25548 25665 25391) (Axes (-574) (-330) 356) 299 1062 2 0 0.

(** Buffers for two blocks, and local arrays filled with [?]. *)
Definition data0 : GN_Data_t :=
  Data (replicate 1800 0%float) (replicate 600 0%float)
       (replicate 600 0%float) (replicate 600 0%float).

Definition loc0 : Locals :=
  Stack (replicate 255 "?"%char) (replicate 3610 "?"%char)
        (replicate 40 "?"%char) NUL.

(** Block 1 at the header rate; each group has the acceleration fields
    [7FF], [800], [001] and the light field [FFC]. *)
(** The same arrays, entered with the digit 5 in the byte [p[3]]. *)
Definition loc_stale : Locals :=
  Stack (buff0 loc0) (data_str0 loc0) (time0 loc0) "5"%char.

Definition block1 : FILE :=
  block_head "1" "25.5" "100.0" ++ data_line 300 "7FF800001FFC".

(** What the decoder reads of [block1]. *)
Definition text1 : BlockText :=
  Eval vm_compute in
    match block_text loc0 block1 with
    | Some b => b
    | None => Blk 0 [] 0 0 []
    end.

Definition data_str1 : list ascii :=
  Eval vm_compute in
    match fgets (data_str0 loc0) 3610 (bt_fp text1) with
    | Some (s, _) => s
    | None => []
    end.

(** Block 0 declaring 50 Hz. *)
Definition block_50hz : FILE :=
  block_head "0" "25.5" "50.0" ++ data_line 300 "7FF800001FFC".

Definition text_50hz : BlockText :=
  Eval vm_compute in
    match block_text loc0 block_50hz with
    | Some b => b
    | None => Blk 0 [] 0 0 []
    end.



(** Block 1 with an all-zero data line. *)
Definition block_zero : FILE :=
  block_head "1" "25.5" "100.0" ++ data_line 300 "000000000000".

Definition data_str_zero : list ascii :=
  Eval vm_compute in
    match fgets (data_str0 loc0) 3610 (data_line 300 "000000000000") with
    | Some (s, _) => s
    | None => []
    end.

(** Block 1 declaring a sampling rate of 10^13 Hz. *)
Definition block_fast : FILE :=
  block_head "1" "25.5" "10000000000000" ++ data_line 300 "7FF800001FFC".


Definition blank_info : GN_Info_t :=
  Info 0 (Axes 0 0 0) (Axes 0 0 0) 0 0 0 0 0.


Definition buff_junk : list ascii := replicate 255 "?"%char.

(** Block 2, for which [data0] has no room. *)
(** A block whose first sample index, [-7158279 * 300], is below
    [INT_MIN]. *)
Definition block_wrapped : FILE :=
  block_head "-7158279" "25.5" "50.0" ++ data_line 300 "7FF800001FFC".

Definition text_wrapped : BlockText :=
  Eval vm_compute in
    match block_text loc0 block_wrapped with
    | Some b => b
    | None => Blk 0 [] 0 0 []
    end.

Definition block_beyond : FILE :=
  block_head "2" "25.5" "100.0" ++ data_line 300 "7FF800001FFC".

Definition text_beyond : BlockText :=
  Eval vm_compute in
    match block_text loc0 block_beyond with
    | Some b => b
    | None => Blk 0 [] 0 0 []
    end.

(** Block 1 declaring 50 Hz, with a data line of 3588 characters. *)
Definition block_50hz_short : FILE :=
  block_head "1" "25.5" "50.0" ++ data_line 299 "7FF800001FFC".

Definition text_50hz_short : BlockText :=
  Eval vm_compute in
    match block_text loc0 block_50hz_short with
    | Some b => b
    | None => Blk 0 [] 0 0 []
    end.

(** Block 1 at the end of a file that has no newline behind the 3600
    characters of the data line. *)
Definition block_unterminated : FILE :=
  block_head "1" "25.5" "100.0" ++ concat (replicate 300 (bytes "7FF800001FFC")).

Definition text_unterminated : BlockText :=
  Eval vm_compute in
    match block_text loc0 block_unterminated with
    | Some b => b
    | None => Blk 0 [] 0 0 []
    end.

(** The lines of block 0 declaring the rate [freq]. *)
Definition block_lines (freq : string) : BlockLines :=
  BLines (bytes "Recorded Data") (bytes "Device Unique Serial Code:012345")
         (bytes "Sequence Number:") (bytes "0")
         (bytes "Page Time:2018-05-14 14:46:14:500")
         (bytes "Unassigned:")
         (bytes "Temperature:") (bytes "25.5")
         (bytes "Battery voltage:4.1") (bytes "Device Status:Recording")
         (bytes "Measurement Frequency:") (bytes freq)
         (concat (replicate 300 (bytes "7FF800001FFC"))).

(** The lines of the header [header "100 Hz"]. *)
Definition header_lines : HeaderLines :=
  HLines (replicate 19 (bytes "Device Identity"))
         (KV (bytes "Measurement Frequency") (bytes "100 Hz"))
         (replicate 27 (bytes "Configuration Info"))
         (KV (bytes "x gain") (bytes "25548")) (KV (bytes "x offset") (bytes "-574"))
         (KV (bytes "y gain") (bytes "25665")) (KV (bytes "y offset") (bytes "-330"))
         (KV (bytes "z gain") (bytes "25391")) (KV (bytes "z offset") (bytes "356"))
         (bytes "Volts:") (bytes "299") (bytes "Lux:") (bytes "1062")
         (bytes "") (bytes "Memory Status")
         (bytes "Number of Pages:") (bytes "2") (bytes "").

(** A moving median for the examples, as [gsl_movstat_median] computes it
    with a workspace of [gsl_movstat_alloc(K)]: the window of a sample
    reaches [K / 2] samples to both sides, and the samples it misses at the
    ends of the vector are zeros, copies of the end value, or left out. *)
Fixpoint insert_sorted (x : float) (l : list float) : list float :=
  match l with
  | [] => [x]
  | y :: l' => if (x <=? y)%float then x :: l else y :: insert_sorted x l'
  end.

Definition median_of (l : list float) : float :=
  let s := fold_right insert_sorted [] l in
  let n := length s in
  if Nat.even n
  then ((nth (n / 2 - 1) s 0 + nth (n / 2) s 0) / 2)%float
  else nth (n / 2) s 0%float.

Definition window (e : RollingMedian.gsl_movstat_end_t) (x : list float)
    (h i : nat) : list float :=
  flat_map
    (fun k =>
       if (i + k <? h)%nat then
         match e with
         | RollingMedian.GSL_MOVSTAT_END_PADZERO => [0%float]
         | RollingMedian.GSL_MOVSTAT_END_PADVALUE => [nth 0 x 0%float]
         | RollingMedian.GSL_MOVSTAT_END_TRUNCATE => []
         end
       else if (length x <=? i + k - h)%nat then
         match e with
         | RollingMedian.GSL_MOVSTAT_END_PADZERO => [0%float]
         | RollingMedian.GSL_MOVSTAT_END_PADVALUE => [nth (length x - 1) x 0%float]
         | RollingMedian.GSL_MOVSTAT_END_TRUNCATE => []
         end
       else [nth (i + k - h) x 0%float])
    (seq 0 (2 * h + 1)).

Definition movstat_median (e : RollingMedian.gsl_movstat_end_t) (x : list float)
    (K : Z) : list float :=
  map (fun i => median_of (window e x (Z.to_nat (K / 2)) i)) (seq 0 (length x)).

#[export] Instance gsl : RollingMedian.Gsl := {|
  RollingMedian.gsl_movstat_median := movstat_median;
  RollingMedian.gsl_movstat_median_size e x K :=
    eq_trans (List.length_map _ _) (List.length_seq (length x) 0)
|}.

(** Block 1 declaring a sampling rate of 0. *)
Definition block_norate : FILE :=
  block_head "1" "25.5" "0" ++ data_line 300 "7FF800001FFC".

Definition text_norate : BlockText :=
  Eval vm_compute in
    match block_text loc0 block_norate with
    | Some b => b
    | None => Blk 0 [] 0 0 []
    end.

End Demo.

(* ===================================================================== *)
(** ** Tactics                                                            *)
(* ===================================================================== *)

(** Split the conjunctions of boolean tests among the hypotheses. *)
Ltac split_andb :=
  repeat match goal with
         | E : _ && _ = true |- _ => apply andb_true_iff in E; destruct E
         | E : (_ =? _)%nat = true |- _ => apply Nat.eqb_eq in E
         | E : (_ <=? _)%nat = true |- _ => apply Nat.leb_le in E
         | E : (_ <? _)%nat = true |- _ => apply Nat.ltb_lt in E
         end.

(** Every line of a list is read whole, from hypotheses on each. *)
Ltac all_fit :=
  cbn [app forallb];
  repeat match goal with E : fits _ _ = true |- _ => rewrite E end;
  reflexivity.

(* ===================================================================== *)
(** ** Stores into the caller's buffers                                   *)
(* ===================================================================== *)

Section Stores.

Lemma store_inv a i v a' :
  store a i v = Some a' ->
  0 <= i < Z.of_nat (length a) /\ a' = <[Z.to_nat i := v]> a.
Proof.
  unfold store. destruct (0 <=? i) eqn:E1; simpl; [|discriminate].
  destruct (i <? Z.of_nat (length a)) eqn:E2; [|discriminate].
  intros [= <-]. split; [lia | reflexivity].
Qed.

Lemma store_some a i v :
  0 <= i < Z.of_nat (length a) -> store a i v = Some (<[Z.to_nat i := v]> a).
Proof.
  intros Hi. unfold store.
  destruct (0 <=? i) eqn:E1; [|lia].
  destruct (i <? Z.of_nat (length a)) eqn:E2; [reflexivity|lia].
Qed.

Lemma store_length a i v a' : store a i v = Some a' -> length a' = length a.
Proof. intros [_ ->]%store_inv. apply length_insert. Qed.

Lemma store_get_eq a i v a' : store a i v = Some a' -> get a' i = Some v.
Proof.
  intros [Hi ->]%store_inv. unfold get.
  destruct (i <? 0) eqn:E; [lia|].
  apply list_lookup_insert_eq. lia.
Qed.

Lemma store_get_ne a i v a' z :
  store a i v = Some a' -> z <> i -> get a' z = get a z.
Proof.
  intros [Hi ->]%store_inv Hz. unfold get.
  destruct (z <? 0) eqn:E; [reflexivity|].
  apply list_lookup_insert_ne. lia.
Qed.

Lemma get_some_lt a z v : get a z = Some v -> 0 <= z < Z.of_nat (length a).
Proof.
  unfold get. destruct (z <? 0) eqn:E; [discriminate|].
  intros Hl%lookup_lt_Some. lia.
Qed.

(** What a run of [writes] leaves in the buffer. *)
Lemma writes_spec n : forall m base f a a',
  writes n m base f a = Some a' ->
  length a' = length a
  /\ (forall z, m <= z < m + Z.of_nat n ->
        exists v, f z = Some v /\ get a' (base + z) = Some v)
  /\ (forall z, ~ (base + m <= z < base + m + Z.of_nat n) -> get a' z = get a z).
Proof.
  induction n as [|n IH]; intros m base f a a'; simpl.
  - intros [= <-]. repeat split; intros; first [reflexivity | lia].
  - destruct (f m) as [v|] eqn:Hv; [|discriminate]. simpl.
    destruct (store a (base + m) v) as [a1|] eqn:Hs; [|discriminate].
    simpl. intros Hw. destruct (IH _ _ _ _ _ Hw) as (Hlen & Hin & Hout).
    split; [rewrite Hlen; eauto using store_length|].
    split.
    + intros z Hz. destruct (Z.eq_dec z m) as [->|Hne].
      * exists v. split; [exact Hv|]. rewrite Hout by lia.
        eauto using store_get_eq.
      * apply Hin. lia.
    + intros z Hz. rewrite Hout by lia.
      eapply store_get_ne; [eassumption | lia].
Qed.

Lemma writes_total_spec n m base g a a' :
  writes n m base (fun z => Some (g z)) a = Some a' ->
  length a' = length a
  /\ (forall z, m <= z < m + Z.of_nat n -> get a' (base + z) = Some (g z))
  /\ (forall z, ~ (base + m <= z < base + m + Z.of_nat n) -> get a' z = get a z).
Proof.
  intros Hw. apply writes_spec in Hw. destruct Hw as (Hlen & Hin & Hout).
  split; [exact Hlen|]. split; [|exact Hout].
  intros z Hz. destruct (Hin z Hz) as (v & [= <-] & Hget). exact Hget.
Qed.

(** A run of [writes] inside the buffer, of values that are defined, is
    defined. *)
Lemma writes_some n : forall m base f a,
  (forall z, m <= z < m + Z.of_nat n -> is_Some (f z)) ->
  0 <= base + m -> base + m + Z.of_nat n <= Z.of_nat (length a) ->
  is_Some (writes n m base f a).
Proof.
  induction n as [|n IH]; intros m base f a Hf H0 H1; simpl; [eauto|].
  destruct (Hf m) as [v ->]; [lia|]. simpl.
  rewrite store_some by lia. simpl.
  apply IH; [intros z Hz; apply Hf; lia | lia |]. rewrite length_insert. lia.
Qed.

Context `{Platform}.

Lemma fill_writes n : forall i v a,
  fill n i v a = writes n i 0 (fun _ => Some v) a.
Proof.
  induction n as [|n IH]; intros i v a; simpl; [reflexivity|].
  rewrite Z.add_0_l. destruct (store a i v); simpl; [apply IH | reflexivity].
Qed.

Lemma stamp_writes n : forall j Nps t0 fs_ a,
  stamp n j Nps t0 fs_ a
  = writes n j Nps (fun z => Some (t0 + double_of_Z z / fs_)%float) a.
Proof.
  induction n as [|n IH]; intros j Nps t0 fs_ a; simpl; [reflexivity|].
  destruct (store a (Nps + j) _); simpl; [apply IH | reflexivity].
Qed.

Lemma accel_writes n : forall k i j Nps data_str c info a,
  accel n k i j Nps data_str c info a
  = writes n k (Nps * 3 + j - k)
      (fun z => option_map (fun t_ => calibrate info z (adjust t_))
                           (field data_str (i + z * 3) c)) a.
Proof.
  induction n as [|n IH]; intros k i j Nps data_str c info a; simpl; [reflexivity|].
  replace (Nps * 3 + j - k + k) with (Nps * 3 + j) by lia.
  destruct (field data_str (i + k * 3) c) as [t_|]; simpl; [|reflexivity].
  destruct (store a (Nps * 3 + j) _); simpl; [|reflexivity].
  rewrite IH. f_equal. lia.
Qed.

Lemma groups_S n i j jj Nps data_str c info data :
  groups (S n) i j jj Nps data_str c info data
  = (a' ← accel 3 0 i j Nps data_str c info (acc data);
     t_ ← field data_str (i + 9) c;
     l' ← store (light data) (Nps + jj) (light_value info t_);
     groups n (i + 12) (j + 3) (jj + 1) Nps data_str c info
            (set_light l' (set_acc a' data))).
Proof. reflexivity. Qed.

(** What the loop over the groups leaves in the buffers. *)
Lemma groups_spec n : forall i j jj Nps data_str c info data data',
  groups n i j jj Nps data_str c info data = Some data' ->
  temp data' = temp data /\ ts data' = ts data
  /\ length (acc data') = length (acc data)
  /\ length (light data') = length (light data)
  /\ (forall g k, 0 <= g < Z.of_nat n -> 0 <= k < 3 ->
        exists t_, field data_str (i + 12 * g + k * 3) c = Some t_
          /\ get (acc data') (Nps * 3 + j + 3 * g + k)
             = Some (calibrate info k (adjust t_)))
  /\ (forall g, 0 <= g < Z.of_nat n ->
        exists t_, field data_str (i + 12 * g + 9) c = Some t_
          /\ get (light data') (Nps + jj + g) = Some (light_value info t_))
  /\ (forall z, ~ (Nps * 3 + j <= z < Nps * 3 + j + 3 * Z.of_nat n) ->
        get (acc data') z = get (acc data) z)
  /\ (forall z, ~ (Nps + jj <= z < Nps + jj + Z.of_nat n) ->
        get (light data') z = get (light data) z).
Proof.
  induction n as [|n IH]; intros i j jj Nps data_str c info data data'.
  - intros [= <-]. repeat split; intros; first [reflexivity | lia].
  - rewrite groups_S, accel_writes.
    destruct (writes 3 0 _ _ (acc data)) as [a1|] eqn:Ha; [|discriminate]. simpl.
    destruct (field data_str (i + 9) c) as [tl|] eqn:Hfl; [|discriminate]. simpl.
    destruct (store (light data) (Nps + jj) _) as [l1|] eqn:Hl; [|discriminate]. simpl.
    intros Hg. apply IH in Hg. simpl in Hg.
    destruct Hg as (Ht & Hts & Hla & Hll & Hacc & Hlight & Hacc' & Hlight').
    apply writes_spec in Ha. destruct Ha as (Hlen1 & Hin1 & Hout1).
    repeat split.
    + exact Ht.
    + exact Hts.
    + congruence.
    + rewrite Hll. eauto using store_length.
    + intros g k Hg Hk. destruct (Z.eq_dec g 0) as [->|Hne].
      * destruct (Hin1 k) as (v & Hv & Hget); [lia|].
        replace (i + 12 * 0 + k * 3) with (i + k * 3) by lia.
        destruct (field data_str (i + k * 3) c) as [t_|]; [|discriminate].
        injection Hv as <-. exists t_. split; [reflexivity|].
        rewrite Hacc' by lia.
        replace (Nps * 3 + j + 3 * 0 + k) with (Nps * 3 + j - 0 + k) by lia.
        exact Hget.
      * destruct (Hacc (g - 1) k) as (t_ & Hf & Hget); [lia | lia |].
        exists t_. split.
        -- rewrite <- Hf. f_equal. lia.
        -- rewrite <- Hget. f_equal. lia.
    + intros g Hg. destruct (Z.eq_dec g 0) as [->|Hne].
      * exists tl. split; [rewrite <- Hfl; f_equal; lia|].
        rewrite Hlight' by lia. rewrite Z.add_0_r.
        eauto using store_get_eq.
      * destruct (Hlight (g - 1)) as (t_ & Hf & Hget); [lia|].
        exists t_. split.
        -- rewrite <- Hf. f_equal. lia.
        -- rewrite <- Hget. f_equal. lia.
    + intros z Hz. rewrite Hacc' by lia. apply Hout1. lia.
    + intros z Hz. rewrite Hlight' by lia.
      eapply store_get_ne; [eassumption | lia].
Qed.

(** The loop over the groups is defined when its fields are defined and its
    stores stay inside the buffers. *)
Lemma groups_some n : forall i j jj Nps data_str c info data,
  (forall g k, 0 <= g < Z.of_nat n -> 0 <= k < 4 ->
     is_Some (field data_str (i + 12 * g + 3 * k) c)) ->
  0 <= Nps * 3 + j ->
  Nps * 3 + j + 3 * Z.of_nat n <= Z.of_nat (length (acc data)) ->
  0 <= Nps + jj ->
  Nps + jj + Z.of_nat n <= Z.of_nat (length (light data)) ->
  is_Some (groups n i j jj Nps data_str c info data).
Proof.
  induction n as [|n IH]; intros i j jj Nps data_str c info data Hc Ha0 Ha1 Hl0 Hl1;
    [simpl; eauto|].
  rewrite groups_S, accel_writes.
  destruct (writes_some 3 0 (Nps * 3 + j - 0)
              (fun z => option_map (fun t_ => calibrate info z (adjust t_))
                                   (field data_str (i + z * 3) c))
              (acc data)) as [a1 Ha]; [| lia | lia |].
  { intros z Hz. destruct (Hc 0 z) as [t_ Ht]; [lia | lia |].
    replace (i + 12 * 0 + 3 * z) with (i + z * 3) in Ht by lia.
    rewrite Ht. simpl. eauto. }
  rewrite Ha. simpl.
  destruct (Hc 0 3) as [tl Ht]; [lia | lia |].
  replace (i + 12 * 0 + 3 * 3) with (i + 9) in Ht by lia.
  rewrite Ht. simpl.
  rewrite store_some by lia. simpl.
  apply writes_spec in Ha. destruct Ha as (Hlen & _ & _).
  apply IH; simpl; rewrite ?length_insert; [| lia ..].
  intros g k Hg Hk.
  replace (i + 12 + 12 * g + 3 * k) with (i + 12 * (g + 1) + 3 * k) by lia.
  apply Hc; lia.
Qed.

(** The fields of a data string that are read inside [p]. *)
Lemma fields_inside_spec data_str c :
  fields_inside data_str c = true <->
  forall g k, 0 <= g < 300 -> 0 <= k < 4 ->
    is_Some (field data_str (12 * g + 3 * k) c).
Proof.
  unfold fields_inside. rewrite forallb_forall. split.
  - intros Hall g k Hg Hk. specialize (Hall (Z.to_nat (4 * g + k))).
    replace (3 * Z.of_nat (Z.to_nat (4 * g + k))) with (12 * g + 3 * k) in Hall by lia.
    destruct (field data_str (12 * g + 3 * k) c); [eauto|].
    discriminate Hall. apply in_seq. lia.
  - intros Hall n Hn%in_seq.
    destruct (Hall (Z.of_nat n / 4) (Z.of_nat n mod 4)) as [t_ Ht].
    + pose proof (Z.div_pos (Z.of_nat n) 4).
      pose proof (Z.div_lt_upper_bound (Z.of_nat n) 4 300). lia.
    + apply Z.mod_pos_bound. lia.
    + replace (12 * (Z.of_nat n / 4) + 3 * (Z.of_nat n mod 4))
        with (3 * Z.of_nat n) in Ht
        by (pose proof (Z.div_mod (Z.of_nat n) 4); lia).
      rewrite Ht. reflexivity.
Qed.

End Stores.

(* ===================================================================== *)
(** ** One call of the block decoder                                      *)
(* ===================================================================== *)

#[local] Arguments fill : simpl never.
#[local] Arguments stamp : simpl never.
#[local] Arguments accel : simpl never.
#[local] Arguments groups : simpl never.
#[local] Arguments writes : simpl never.
#[local] Arguments Z.to_nat : simpl never.

Section Block.
Context `{Platform}.

Lemma int_of_long_range z : INT_MIN <= int_of_long z <= INT_MAX.
Proof.
  unfold int_of_long, INT_MIN, INT_MAX.
  pose proof (Z.mod_pos_bound (z + 2 ^ 31) (2 ^ 32)). lia.
Qed.

Lemma int_of_long_int z : INT_MIN <= z <= INT_MAX -> int_of_long z = z.
Proof.
  unfold int_of_long, INT_MIN, INT_MAX. intros Hz.
  rewrite Z.mod_small by lia. lia.
Qed.

(** A [long] below [INT_MIN] is stored into an [int] as a greater value. *)
Lemma int_of_long_below z : z < INT_MIN -> z + 2 ^ 32 <= int_of_long z.
Proof.
  unfold int_of_long, INT_MIN. intros Hz.
  pose proof (Z.mod_pos_bound (z + 2 ^ 31) (2 ^ 32)).
  pose proof (Z.div_mod (z + 2 ^ 31) (2 ^ 32)).
  assert ((z + 2 ^ 31) / 2 ^ 32 < 0) by (apply Z.div_lt_upper_bound; lia).
  nia.
Qed.

(** The temperature loop of a block whose first sample index is an [int]:
    300 stores from that index. *)
Lemma temp_loop_int Nps v a :
  INT_MIN <= Nps -> Nps + GN_SAMPLES <= INT_MAX ->
  temp_loop Nps v a = fill (Z.to_nat GN_SAMPLES) Nps v a.
Proof.
  unfold temp_loop, GN_SAMPLES. intros H0 H1.
  rewrite int_of_long_int by lia.
  destruct (Nps + 300 <=? Nps) eqn:E; [lia|].
  destruct (INT_MAX <? Nps + 300) eqn:E'; [lia|].
  replace (Nps + 300 - Nps) with 300 by lia. reflexivity.
Qed.

(** Below [INT_MIN] the counter starts above the bound: no store. *)
Lemma temp_loop_below Nps v a : Nps < INT_MIN -> temp_loop Nps v a = Some a.
Proof.
  unfold temp_loop, GN_SAMPLES. intros H0.
  pose proof (int_of_long_below _ H0).
  destruct (Nps + 300 <=? int_of_long Nps) eqn:E; [reflexivity|lia].
Qed.

(** Above [INT_MAX] the loop has no defined end. *)
Lemma temp_loop_above Nps v a :
  INT_MAX < Nps + GN_SAMPLES -> temp_loop Nps v a = None.
Proof.
  unfold temp_loop, GN_SAMPLES. intros H1.
  pose proof (int_of_long_range Nps).
  destruct (Nps + 300 <=? int_of_long Nps) eqn:E; [lia|].
  destruct (INT_MAX <? Nps + 300) eqn:E'; [reflexivity|lia].
Qed.

(** A temperature loop that is defined on a block of samples that are not
    before the start of the buffer has made its 300 stores. *)
Lemma temp_loop_fill Nps v a a' :
  0 <= Nps -> temp_loop Nps v a = Some a' ->
  Nps + GN_SAMPLES <= INT_MAX /\ fill (Z.to_nat GN_SAMPLES) Nps v a = Some a'.
Proof.
  intros H0 Ht.
  destruct (Z_le_gt_dec (Nps + GN_SAMPLES) INT_MAX) as [Hle|Hgt].
  - split; [exact Hle|]. rewrite <- temp_loop_int; [exact Ht| |exact Hle].
    unfold INT_MIN. lia.
  - rewrite temp_loop_above in Ht by lia. discriminate.
Qed.

(** The groups of a block are stored from a sample index that is not
    before the start of the buffers. *)
Lemma groups_start Nps data_str c info data data' :
  groups 300 0 0 0 Nps data_str c info data = Some data' -> 0 <= Nps.
Proof.
  intros Hg. apply groups_spec in Hg.
  destruct Hg as (_ & _ & _ & _ & _ & Hl & _).
  destruct (Hl 0) as (t_ & _ & Hget); [lia|].
  apply get_some_lt in Hget. lia.
Qed.

(** The decoder in terms of the text it reads. *)
Lemma read_block_unfold loc fp w info data b :
  block_text loc fp = Some b ->
  geneactiv_read_block loc fp w info data =
    let Nps := bt_N b * GN_SAMPLES in
    if negb ((LONG_MIN <=? Nps) && (Nps <=? LONG_MAX)) then None else
    let info1 := seen (bt_N b) info in
    temp' ← temp_loop Nps (bt_temp b) (temp data);
    let data1 := set_temp temp' data in
    if fne (bt_fs b) (fs info) && (fs_err info <? 1) then
      read_block_data loc (bt_fp b) w (corrected (bt_fs b) info1) data1 Nps
                      (bt_time b) GN_READ_E_BLOCK_FS_WARN
    else if fne (bt_fs b) (fs info) && (fs_err info >=? 1) then
      Some (Out GN_READ_E_BLOCK_FS (bt_fp b) w info1 data1)
    else
      read_block_data loc (bt_fp b) w info1 data1 Nps (bt_time b) GN_READ_E_NONE.
Proof.
  unfold block_text, geneactiv_read_block.
  destruct (Nat.iter 3 GN_READLINE (buff0 loc, fp)) as [buff1 fp1].
  destruct (fgets (time0 loc) 40 fp1) as [[time fp2]|]; [|discriminate].
  destruct (Nat.iter 2 GN_READLINE (buff1, fp2)) as [buff2 fp3].
  destruct (Nat.iter 3 GN_READLINE (buff2, fp3)) as [buff3 fp4].
  intros [= <-]. reflexivity.
Qed.

(** The data string is read and long enough: the groups are decoded and
    the timestamps are set. *)
Lemma read_block_data_full loc fp w info data Nps time ier data_str fp' :
  fgets (data_str0 loc) 3610 fp = Some (data_str, fp') ->
  3601 <= strlen data_str ->
  read_block_data loc fp w info data Nps time ier =
    (data1 ← groups 300 0 0 0 Nps data_str (p3 loc) info data;
     ts' ← stamp (Z.to_nat GN_SAMPLES) 0 Nps (block_t0 time) (fs info) (ts data1);
     Some (Out ier fp'
             (get_day_indexing (fs info)
                (MkTime (GN_DATE_HOUR time) (GN_DATE_MIN time) (GN_DATE_SEC time)
                      (GN_DATE_MSEC time * 1000))
                (max_n info) (npages info) w)
             info (set_ts ts' data1))).
Proof.
  intros Hf Hlen. unfold read_block_data. rewrite Hf.
  destruct (strlen data_str <? 3601) eqn:E; [lia|].
  destruct (groups 300 0 0 0 Nps data_str (p3 loc) info data) as [data1|];
    simpl; [|reflexivity].
  unfold get_timestamps.
  destruct (stamp _ 0 Nps _ _ (ts data1)); reflexivity.
Qed.

Lemma line_length_nonneg fp : 0 <= line_length fp.
Proof.
  induction fp as [|c fp IH]; simpl; [lia|].
  destruct (Ascii.eqb c newline); lia.
Qed.

Lemma read_line_length n : forall fp,
  Z.of_nat (length (fst (read_line n fp))) <= line_length fp + 1.
Proof.
  induction n as [|n IH]; intros fp; pose proof (line_length_nonneg fp);
    destruct fp as [|c fp]; simpl in *; try lia.
  destruct (Ascii.eqb c newline); simpl; [lia|].
  specialize (IH fp). destruct (read_line n fp) as [l rest]. simpl in *. lia.
Qed.

Lemma cstr_terminated l s : (length (cstr (l ++ NUL :: s)) <= length l)%nat.
Proof.
  induction l as [|c l IH]; simpl; [lia|].
  destruct (Ascii.eqb c NUL); simpl; lia.
Qed.

(** A line of fewer than 3600 characters fails the length check. *)
Lemma fgets_short s fp ds fp' :
  line_length fp < 3600 -> fgets s 3610 fp = Some (ds, fp') -> strlen ds < 3601.
Proof.
  intros Hl. unfold fgets. destruct fp as [|c fp]; [discriminate|].
  pose proof (read_line_length (3610 - 1) (c :: fp)) as Hr.
  destruct (read_line (3610 - 1) (c :: fp)) as [l rest]. simpl fst in Hr.
  intros [= <- <-]. unfold strlen.
  pose proof (cstr_terminated l (skipn (S (length l)) s)). lia.
Qed.

(** The data string is missing or too short: nothing more is stored. *)
Lemma read_block_data_short loc fp w info data Nps time ier :
  line_length fp < 3600 ->
  exists fp',
    read_block_data loc fp w info data Nps time ier
    = Some (Out match fp with
                | [] => GN_READ_E_BLOCK_DATA
                | _ :: _ => GN_READ_E_BLOCK_DATA_3600
                end fp' w info data).
Proof.
  intros Hl. unfold read_block_data.
  destruct (fgets (data_str0 loc) 3610 fp) as [[ds fp']|] eqn:Hf.
  - pose proof (fgets_short _ _ _ _ Hl Hf) as Hs.
    destruct (strlen ds <? 3601) eqn:E; [|lia].
    destruct fp; [discriminate Hf | eauto].
  - destruct fp as [|c fp]; [eauto|].
    unfold fgets in Hf. destruct (read_line (3610 - 1) (c :: fp)). discriminate.
Qed.

(** The three loops of a decoded block leave its samples in the buffers. *)
Lemma loops_block_stored b data_str c info data temp' data1 ts' :
  fill (Z.to_nat GN_SAMPLES) (bt_N b * GN_SAMPLES) (bt_temp b) (temp data) = Some temp' ->
  groups 300 0 0 0 (bt_N b * GN_SAMPLES) data_str c info (set_temp temp' data)
    = Some data1 ->
  stamp (Z.to_nat GN_SAMPLES) 0 (bt_N b * GN_SAMPLES) (block_t0 (bt_time b))
        (fs info) (ts data1) = Some ts' ->
  block_stored b data_str c info data (set_ts ts' data1).
Proof.
  rewrite fill_writes, stamp_writes. unfold GN_SAMPLES.
  intros Hf Hg Hs.
  apply writes_total_spec in Hf. destruct Hf as (Flen & Fin & Fout).
  apply groups_spec in Hg. cbn [temp ts acc light set_temp] in Hg.
  destruct Hg as (Gt & Gts & Gla & Gll & Gacc & Glight & Gacc' & Glight').
  apply writes_total_spec in Hs. destruct Hs as (Slen & Sin & Sout).
  unfold block_stored, GN_SAMPLES. cbn [temp ts acc light set_ts].
  rewrite Gt, Slen, Gts, Gla, Gll, Flen.
  do 4 (split; [reflexivity|]).
  split; [|split].
  - intros j Hj.
    split; [specialize (Fin (bt_N b * 300 + j)); rewrite Z.add_0_l in Fin;
            apply Fin; lia|].
    split; [apply Sin; lia|].
    split.
    + specialize (Glight j). rewrite Z.add_0_r, Z.add_0_l in Glight.
      apply Glight. lia.
    + intros k Hk. specialize (Gacc j k).
      rewrite Z.add_0_r, Z.add_0_l in Gacc. apply Gacc; lia.
  - intros z Hz. split; [apply Fout; lia|].
    split.
    + rewrite Sout by lia. rewrite Gts. reflexivity.
    + apply Glight'. lia.
  - intros z Hz. apply Gacc'. lia.
Qed.

(** With room in the buffers and fields that are defined the three loops
    are defined. *)
Lemma room_loops b data_str c info data :
  fields_inside data_str c = true ->
  room (bt_N b) data ->
  exists temp' data1 ts',
    fill (Z.to_nat GN_SAMPLES) (bt_N b * GN_SAMPLES) (bt_temp b) (temp data) = Some temp'
    /\ groups 300 0 0 0 (bt_N b * GN_SAMPLES) data_str c info (set_temp temp' data)
       = Some data1
    /\ stamp (Z.to_nat GN_SAMPLES) 0 (bt_N b * GN_SAMPLES) (block_t0 (bt_time b))
             (fs info) (ts data1) = Some ts'.
Proof.
  unfold room, GN_SAMPLES. intros Hc (H0 & _ & Ht & Hl & Hts & Ha).
  rewrite fields_inside_spec in Hc.
  rewrite fill_writes.
  destruct (writes_some (Z.to_nat 300) (bt_N b * 300) 0 (fun _ => Some (bt_temp b))
              (temp data)) as [temp' Hf]; [eauto | lia | lia |].
  destruct (groups_some 300 0 0 0 (bt_N b * 300) data_str c info (set_temp temp' data))
    as [data1 Hg]; cbn [acc light set_temp];
    [intros g k Hg Hk; apply Hc; lia | lia | lia | lia | lia |].
  exists temp', data1. rewrite stamp_writes.
  destruct (writes_some (Z.to_nat 300) 0 (bt_N b * 300)
              (fun z => Some (block_t0 (bt_time b) + double_of_Z z / fs info)%float)
              (ts data1)) as [ts' Hs]; [eauto | lia | |].
  { apply groups_spec in Hg. destruct Hg as (_ & -> & _). cbn [ts set_temp]. lia. }
  exists ts'. auto.
Qed.

(** The temperature loop alone. *)
Lemma room_fill b data :
  room (bt_N b) data ->
  exists temp',
    fill (Z.to_nat GN_SAMPLES) (bt_N b * GN_SAMPLES) (bt_temp b) (temp data) = Some temp'
    /\ (forall j, 0 <= j < GN_SAMPLES ->
          get temp' (bt_N b * GN_SAMPLES + j) = Some (bt_temp b))
    /\ (forall z, ~ (bt_N b * GN_SAMPLES <= z < bt_N b * GN_SAMPLES + GN_SAMPLES) ->
          get temp' z = get (temp data) z).
Proof.
  unfold room, GN_SAMPLES. intros (H0 & _ & Ht & _).
  rewrite fill_writes.
  destruct (writes_some (Z.to_nat 300) (bt_N b * 300) 0 (fun _ => Some (bt_temp b))
              (temp data)) as [temp' Hf]; [eauto | lia | lia |].
  exists temp'. split; [exact Hf|].
  apply writes_total_spec in Hf. destruct Hf as (_ & Hin & Hout). split.
  - intros j Hj. specialize (Hin (bt_N b * 300 + j)).
    rewrite Z.add_0_l in Hin. apply Hin. lia.
  - intros z Hz. apply Hout. lia.
Qed.

(** The rest of the decoder on a complete data string, in terms of its
    loops. *)
Lemma read_block_data_loops loc fp w info data Nps time ier data_str fp' data1 ts' :
  fgets (data_str0 loc) 3610 fp = Some (data_str, fp') ->
  3601 <= strlen data_str ->
  groups 300 0 0 0 Nps data_str (p3 loc) info data = Some data1 ->
  stamp (Z.to_nat GN_SAMPLES) 0 Nps (block_t0 time) (fs info) (ts data1) = Some ts' ->
  exists w',
    read_block_data loc fp w info data Nps time ier
    = Some (Out ier fp' w' info (set_ts ts' data1)).
Proof.
  intros Hf Hlen Hg Hs.
  rewrite (read_block_data_full _ _ _ _ _ _ _ _ _ _ Hf Hlen), Hg.
  cbn [mbind option_bind]. rewrite Hs. cbn [mbind option_bind]. eauto.
Qed.

(** A call of the rest of the decoder that ends decoded has read a
    complete data string and run its loops. *)
Lemma read_block_data_inv loc fp w info data Nps time ier r :
  read_block_data loc fp w info data Nps time ier = Some r ->
  decoded (code r) ->
  exists data_str data1 ts',
    fgets (data_str0 loc) 3610 fp = Some (data_str, file r)
    /\ 3601 <= strlen data_str
    /\ groups 300 0 0 0 Nps data_str (p3 loc) info data = Some data1
    /\ stamp (Z.to_nat GN_SAMPLES) 0 Nps (block_t0 time) (fs info) (ts data1) = Some ts'
    /\ code r = ier /\ info_of r = info /\ data_of r = set_ts ts' data1.
Proof.
  unfold read_block_data.
  destruct (fgets (data_str0 loc) 3610 fp) as [[ds fp']|] eqn:Hf.
  2:{ intros [= <-] [D|D]; discriminate D. }
  destruct (strlen ds <? 3601) eqn:E.
  { intros [= <-] [D|D]; discriminate D. }
  destruct (groups 300 0 0 0 Nps ds (p3 loc) info data) as [data1|] eqn:Hg;
    cbn [mbind option_bind]; [|discriminate].
  unfold get_timestamps.
  destruct (stamp _ 0 Nps _ _ (ts data1)) as [ts'|] eqn:Hs;
    cbn [mbind option_bind]; [|discriminate].
  intros [= <-] _. exists ds, data1, ts'. cbn [code file info_of data_of].
  repeat split; try reflexivity; try assumption. lia.
Qed.

(** Without a clock stamp the decoder stops before any store. *)
Lemma read_block_no_stamp loc fp w info data r :
  block_text loc fp = None ->
  geneactiv_read_block loc fp w info data = Some r ->
  code r = GN_READ_E_BLOCK_TIMESTAMP /\ data_of r = data.
Proof.
  unfold block_text, geneactiv_read_block.
  destruct (Nat.iter 3 GN_READLINE (buff0 loc, fp)) as [buff1 fp1].
  destruct (negb _); [discriminate|].
  destruct (fgets (time0 loc) 40 fp1) as [[time fp2]|].
  - destruct (Nat.iter 2 GN_READLINE (buff1, fp2)) as [buff2 fp3].
    destruct (Nat.iter 3 GN_READLINE (buff2, fp3)) as [buff3 fp4]. discriminate.
  - intros _ [= <-]. split; reflexivity.
Qed.

Lemma room_in_range N data :
  room N data ->
  negb ((LONG_MIN <=? N * GN_SAMPLES) && (N * GN_SAMPLES <=? LONG_MAX)) = false
  /\ forall v a, temp_loop (N * GN_SAMPLES) v a
                 = fill (Z.to_nat GN_SAMPLES) (N * GN_SAMPLES) v a.
Proof.
  intros (H0 & H1 & _). split.
  - unfold GN_SAMPLES, LONG_MIN, LONG_MAX, INT_MAX in *.
    apply negb_false_iff, andb_true_iff; split; lia.
  - intros v a. apply temp_loop_int; [unfold INT_MIN; lia | exact H1].
Qed.

(** A call that ends decoded: what it has read and what it leaves. *)
Lemma read_block_inv loc fp w info data r :
  geneactiv_read_block loc fp w info data = Some r ->
  decoded (code r) ->
  exists b data_str,
    block_text loc fp = Some b
    /\ fgets (data_str0 loc) 3610 (bt_fp b) = Some (data_str, file r)
    /\ 3601 <= strlen data_str
    /\ (if fne (bt_fs b) (fs info)
        then fs_err info < 1 /\ code r = GN_READ_E_BLOCK_FS_WARN
             /\ info_of r = corrected (bt_fs b) (seen (bt_N b) info)
        else code r = GN_READ_E_NONE /\ info_of r = seen (bt_N b) info)
    /\ block_stored b data_str (p3 loc) (info_of r) data (data_of r).
Proof.
  intros Hrun Hdec.
  destruct (block_text loc fp) as [b|] eqn:Hb.
  2:{ destruct (read_block_no_stamp _ _ _ _ _ _ Hb Hrun) as [Hc _].
      rewrite Hc in Hdec. destruct Hdec; discriminate. }
  exists b. rewrite (read_block_unfold _ _ _ _ _ _ Hb) in Hrun.
  cbv zeta in Hrun.
  destruct (negb _) in Hrun; [discriminate|].
  destruct (temp_loop _ _ (temp data)) as [temp'|] eqn:Hf;
    cbn [mbind option_bind] in Hrun; [|discriminate].
  assert (Hfin : forall info1 ier,
    read_block_data loc (bt_fp b) w info1 (set_temp temp' data)
                    (bt_N b * GN_SAMPLES) (bt_time b) ier = Some r ->
    exists data_str,
      fgets (data_str0 loc) 3610 (bt_fp b) = Some (data_str, file r)
      /\ 3601 <= strlen data_str /\ code r = ier /\ info_of r = info1
      /\ block_stored b data_str (p3 loc) info1 data (data_of r)).
  { intros info1 ier Hr.
    destruct (read_block_data_inv _ _ _ _ _ _ _ _ _ Hr Hdec)
      as (ds & data1 & ts' & Hg & Hlen & Hgr & Hst & Hc & Hi & Hd).
    apply temp_loop_fill in Hf; [|exact (groups_start _ _ _ _ _ _ Hgr)].
    destruct Hf as [_ Hf].
    exists ds. rewrite Hd. eauto 10 using loops_block_stored. }
  destruct (fne (bt_fs b) (fs info)) eqn:Hm; cbn [andb] in Hrun.
  - destruct (fs_err info <? 1) eqn:He.
    + apply Hfin in Hrun. destruct Hrun as (ds & Hg & Hlen & Hc & Hi & Hs).
      exists ds. rewrite Hi. split; [reflexivity|].
      split; [exact Hg|]. split; [exact Hlen|]. split; [|exact Hs].
      split; [lia|]. split; [exact Hc | reflexivity].
    + destruct (fs_err info >=? 1) eqn:He'; [|lia].
      injection Hrun as <-. destruct Hdec; discriminate.
  - apply Hfin in Hrun. destruct Hrun as (ds & Hg & Hlen & Hc & Hi & Hs).
    exists ds. rewrite Hi. split; [reflexivity|].
    split; [exact Hg|]. split; [exact Hlen|]. split; [|exact Hs].
    split; [exact Hc | reflexivity].
Qed.

(** A block with room in the buffers, a complete data string whose fields
    are read inside [p], and no second mismatch of the sampling rate is
    decoded. *)
Lemma read_block_total loc fp w info data b data_str fp' :
  fields_inside data_str (p3 loc) = true ->
  block_text loc fp = Some b ->
  room (bt_N b) data ->
  fgets (data_str0 loc) 3610 (bt_fp b) = Some (data_str, fp') ->
  3601 <= strlen data_str ->
  fne (bt_fs b) (fs info) && (fs_err info >=? 1) = false ->
  exists r,
    geneactiv_read_block loc fp w info data = Some r /\ decoded (code r).
Proof.
  intros Hp Hb Hroom Hg Hlen Hm.
  rewrite (read_block_unfold _ _ _ _ _ _ Hb). cbv zeta.
  destruct (room_in_range _ _ Hroom) as [-> Htl]. rewrite Htl.
  assert (Hfin : forall info1 ier, decoded ier -> exists r,
    (temp' ← fill (Z.to_nat GN_SAMPLES) (bt_N b * GN_SAMPLES) (bt_temp b) (temp data);
     read_block_data loc (bt_fp b) w info1 (set_temp temp' data)
                     (bt_N b * GN_SAMPLES) (bt_time b) ier) = Some r
    /\ decoded (code r)).
  { intros info1 ier Hier.
    destruct (room_loops b data_str (p3 loc) info1 data Hp Hroom)
      as (temp' & data1 & ts' & Hf & Hgr & Hst).
    rewrite Hf. cbn [mbind option_bind].
    destruct (read_block_data_loops loc _ w _ _ _ _ ier _ _ _ _ Hg Hlen Hgr Hst)
      as [w' ->].
    eexists. split; [reflexivity | exact Hier]. }
  destruct (fne (bt_fs b) (fs info)) eqn:Hmm; cbn [andb] in *.
  - rewrite Hm. destruct (fs_err info <? 1) eqn:He; [|lia].
    destruct (Hfin (corrected (bt_fs b) (seen (bt_N b) info)) GN_READ_E_BLOCK_FS_WARN)
      as (r & Hr & Hd); [right; reflexivity|].
    destruct (fill _ _ _ (temp data)); [|discriminate]. eauto.
  - destruct (Hfin (seen (bt_N b) info) GN_READ_E_NONE)
      as (r & Hr & Hd); [left; reflexivity|].
    destruct (fill _ _ _ (temp data)); [|discriminate]. eauto.
Qed.

(** A block with a complete data string that is no second mismatch of the
    rate: a call that returns has decoded the block. *)
Lemma complete_block_decoded loc fp w info data b data_str fp' r :
  block_text loc fp = Some b ->
  fgets (data_str0 loc) 3610 (bt_fp b) = Some (data_str, fp') ->
  3601 <= strlen data_str ->
  fne (bt_fs b) (fs info) && (fs_err info >=? 1) = false ->
  geneactiv_read_block loc fp w info data = Some r ->
  decoded (code r).
Proof.
  intros Hb Hg Hlen Hm. rewrite (read_block_unfold _ _ _ _ _ _ Hb). cbv zeta.
  destruct (negb _); [discriminate|].
  destruct (temp_loop _ _ (temp data)) as [temp'|];
    cbn [mbind option_bind]; [|discriminate].
  rewrite Hm.
  assert (Hfin : forall info1 data1 ier,
    decoded ier ->
    read_block_data loc (bt_fp b) w info1 data1 (bt_N b * GN_SAMPLES)
                    (bt_time b) ier = Some r ->
    decoded (code r)).
  { intros info1 data1 ier Hier.
    rewrite (read_block_data_full _ _ _ _ _ _ _ _ _ _ Hg Hlen).
    destruct (groups _ _ _ _ _ _ _ _ data1) as [data2|];
      cbn [mbind option_bind]; [|discriminate].
    destruct (stamp _ _ _ _ _ (ts data2)) as [ts'|];
      cbn [mbind option_bind]; [|discriminate].
    intros [= <-]. exact Hier. }
  destruct (fne (bt_fs b) (fs info) && (fs_err info <? 1)); apply Hfin;
    [right | left]; reflexivity.
Qed.

End Block.

(* ===================================================================== *)
(** ** The ways a call of the block decoder ends                          *)
(* ===================================================================== *)

Section Cases.
Context `{Platform}.

(** The three ways the rest of the decoder ends. *)
Lemma read_block_data_cases loc fp w info data Nps time ier r :
  read_block_data loc fp w info data Nps time ier = Some r ->
  (fp = [] /\ r = Out GN_READ_E_BLOCK_DATA [] w info data)
  \/ (exists data_str fp',
        fgets (data_str0 loc) 3610 fp = Some (data_str, fp')
        /\ strlen data_str < 3601
        /\ r = Out GN_READ_E_BLOCK_DATA_3600 fp' w info data)
  \/ (exists data_str fp' data1 ts',
        fgets (data_str0 loc) 3610 fp = Some (data_str, fp')
        /\ 3601 <= strlen data_str
        /\ groups 300 0 0 0 Nps data_str (p3 loc) info data = Some data1
        /\ stamp (Z.to_nat GN_SAMPLES) 0 Nps (block_t0 time) (fs info) (ts data1)
           = Some ts'
        /\ r = Out ier fp'
                 (get_day_indexing (fs info)
                    (MkTime (GN_DATE_HOUR time) (GN_DATE_MIN time) (GN_DATE_SEC time)
                            (GN_DATE_MSEC time * 1000))
                    (max_n info) (npages info) w)
                 info (set_ts ts' data1)).
Proof.
  unfold read_block_data.
  destruct (fgets (data_str0 loc) 3610 fp) as [[ds fp']|] eqn:Hf.
  - destruct (strlen ds <? 3601) eqn:E.
    + intros [= <-]. right. left. exists ds, fp'. repeat split. lia.
    + destruct (groups 300 0 0 0 Nps ds (p3 loc) info data) as [data1|] eqn:Hg;
        cbn [mbind option_bind]; [|discriminate].
      unfold get_timestamps.
      destruct (stamp _ 0 Nps _ _ (ts data1)) as [ts'|] eqn:Hs;
        cbn [mbind option_bind]; [|discriminate].
      intros [= <-]. right. right. exists ds, fp', data1, ts'.
      repeat split; try assumption. lia.
  - destruct fp as [|c fp].
    + intros [= <-]. left. split; reflexivity.
    + unfold fgets in Hf. destruct (read_line (3610 - 1) (c :: fp)). discriminate.
Qed.

(** The ways the decoder ends: without a clock stamp, with the mismatch
    error, or in the rest of the decoder, entered with the rate corrected
    or with the rate as it was. *)
Lemma read_block_cases loc fp w info data r :
  geneactiv_read_block loc fp w info data = Some r ->
  (block_text loc fp = None
   /\ exists N, r = Out GN_READ_E_BLOCK_TIMESTAMP [] w (seen N info) data)
  \/ (exists b temp',
        block_text loc fp = Some b
        /\ temp_loop (bt_N b * GN_SAMPLES) (bt_temp b) (temp data) = Some temp'
        /\ ((fne (bt_fs b) (fs info) = true /\ 1 <= fs_err info
             /\ r = Out GN_READ_E_BLOCK_FS (bt_fp b) w (seen (bt_N b) info)
                        (set_temp temp' data))
            \/ (fne (bt_fs b) (fs info) = true /\ fs_err info < 1
                /\ read_block_data loc (bt_fp b) w
                     (corrected (bt_fs b) (seen (bt_N b) info))
                     (set_temp temp' data) (bt_N b * GN_SAMPLES) (bt_time b)
                     GN_READ_E_BLOCK_FS_WARN = Some r)
            \/ (fne (bt_fs b) (fs info) = false
                /\ read_block_data loc (bt_fp b) w (seen (bt_N b) info)
                     (set_temp temp' data) (bt_N b * GN_SAMPLES) (bt_time b)
                     GN_READ_E_NONE = Some r))).
Proof.
  intros Hrun.
  destruct (block_text loc fp) as [b|] eqn:Hb.
  - right. exists b.
    rewrite (read_block_unfold _ _ _ _ _ _ Hb) in Hrun. cbv zeta in Hrun.
    destruct (negb _) in Hrun; [discriminate|].
    destruct (temp_loop _ _ (temp data)) as [temp'|] eqn:Hf;
      cbn [mbind option_bind] in Hrun; [|discriminate].
    exists temp'. split; [reflexivity|]. split; [reflexivity|].
    destruct (fne (bt_fs b) (fs info)) eqn:Hm; cbn [andb] in Hrun.
    + destruct (fs_err info <? 1) eqn:He.
      * right. left. repeat split; [lia | exact Hrun].
      * destruct (fs_err info >=? 1) eqn:He'; [|lia].
        injection Hrun as <-. left. repeat split. lia.
    + right. right. split; [reflexivity | exact Hrun].
  - left. split; [reflexivity|].
    revert Hb Hrun. unfold block_text, geneactiv_read_block.
    destruct (Nat.iter 3 GN_READLINE (buff0 loc, fp)) as [buff1 fp1].
    destruct (negb _); [discriminate|].
    destruct (fgets (time0 loc) 40 fp1) as [[time fp2]|] eqn:Hf.
    + destruct (Nat.iter 2 GN_READLINE (buff1, fp2)) as [buff2 fp3].
      destruct (Nat.iter 3 GN_READLINE (buff2, fp3)) as [buff3 fp4]. discriminate.
    + intros _ [= <-]. exists (strtol (cstr_at buff1 16) 10).
      destruct fp1 as [|c fp1]; [reflexivity|].
      unfold fgets in Hf. destruct (read_line (40 - 1) (c :: fp1)). discriminate.
Qed.

End Cases.

(* ===================================================================== *)
(** ** Three hexadecimal digits                                           *)
(* ===================================================================== *)

Section Hex.

Lemma plain_digit_all c : plain_digit c = true.
Proof. destruct c as [[] [] [] [] [] [] [] []]; vm_compute; reflexivity. Qed.

Lemma hexval_plain c d :
  hexval c = Some d ->
  Ascii.eqb c NUL = false /\ isspace c = false
  /\ Ascii.eqb c "-" = false /\ Ascii.eqb c "+" = false
  /\ Ascii.eqb c "x" = false /\ Ascii.eqb c "X" = false.
Proof.
  intros Hd. pose proof (plain_digit_all c) as Hp. unfold plain_digit in Hp.
  rewrite Hd in Hp.
  repeat (apply andb_true_iff in Hp; destruct Hp as [Hp ?]).
  repeat split; apply negb_true_iff; assumption.
Qed.

Lemma hexval_digit c d :
  hexval c = Some d -> digit_val c = Some d /\ 0 <= d < 16.
Proof.
  unfold hexval, digit_val.
  set (n := Z.of_nat (nat_of_ascii c)).
  destruct ((48 <=? n) && (n <=? 57)) eqn:E1;
    [|destruct ((97 <=? n) && (n <=? 122)) eqn:E2;
      [|destruct ((65 <=? n) && (n <=? 90)) eqn:E3; [|discriminate]]].
  all: match goal with |- context [?x <? 16] => destruct (x <? 16) eqn:E end;
    intros [= <-]; split; [reflexivity | lia].
Qed.

(** [strtol] in base 16 on three hexadecimal digits, followed by
    characters [tail] that hold no further digit. *)
Lemma strtol_hex3 c0 c1 c2 tail d0 d1 d2 :
  hexval c0 = Some d0 -> hexval c1 = Some d1 -> hexval c2 = Some d2 ->
  (forall v, strtol_digits 16 tail v = v) ->
  strtol (c0 :: c1 :: c2 :: tail) 16 = 256 * d0 + 16 * d1 + d2.
Proof.
  intros H0 H1 H2 Htail.
  destruct (hexval_plain _ _ H0) as (_ & S0 & M0 & P0 & _).
  destruct (hexval_plain _ _ H1) as (_ & _ & _ & _ & X1 & X1').
  destruct (hexval_digit _ _ H0) as [D0 R0].
  destruct (hexval_digit _ _ H1) as [D1 R1].
  destruct (hexval_digit _ _ H2) as [D2 R2].
  unfold strtol. cbn [skip_space]. rewrite S0.
  cbn [strip_sign]. rewrite M0, P0.
  unfold strip_0x. rewrite Z.eqb_refl, X1, X1', andb_false_r.
  cbn [strtol_digits]. rewrite D0, D1, D2.
  destruct (d0 <? 16) eqn:E0; [|lia].
  destruct (d1 <? 16) eqn:E1; [|lia].
  destruct (d2 <? 16) eqn:E2; [|lia].
  rewrite Htail. unfold LONG_MAX. lia.
Qed.

(** Behind three hexadecimal digits the scan of [strtol] goes on to the
    next character. *)
Lemma strtol_stops_hex3 c0 c1 c2 tail d0 d1 d2 :
  hexval c0 = Some d0 -> hexval c1 = Some d1 -> hexval c2 = Some d2 ->
  strtol_stops (c0 :: c1 :: c2 :: tail) 16 = digits_stop 16 tail.
Proof.
  intros H0 H1 H2.
  destruct (hexval_plain _ _ H0) as (_ & S0 & M0 & P0 & _).
  destruct (hexval_plain _ _ H1) as (_ & _ & _ & _ & X1 & X1').
  destruct (hexval_digit _ _ H0) as [D0 R0].
  destruct (hexval_digit _ _ H1) as [D1 R1].
  destruct (hexval_digit _ _ H2) as [D2 R2].
  unfold strtol_stops. cbn [skip_space]. rewrite S0.
  cbn [strip_sign]. rewrite M0, P0. cbn [snd].
  unfold strip_0x. rewrite Z.eqb_refl, X1, X1', andb_false_r.
  cbn [digits_stop]. rewrite D0, D1, D2.
  destruct (d0 <? 16) eqn:E0; [|lia].
  destruct (d1 <? 16) eqn:E1; [|lia].
  destruct (d2 <? 16) eqn:E2; [|lia].
  reflexivity.
Qed.

(** An array that ends with NUL stops every scan. *)
Lemma skip_space_nul l : exists l', skip_space (l ++ [NUL]) = l' ++ [NUL].
Proof.
  induction l as [|c l IH]; [exists []; reflexivity|].
  cbn [app skip_space]. destruct (isspace c); [exact IH | exists (c :: l); reflexivity].
Qed.

Lemma strip_sign_nul l : exists l', snd (strip_sign (l ++ [NUL])) = l' ++ [NUL].
Proof.
  destruct l as [|c l]; [exists []; reflexivity|].
  cbn [app strip_sign].
  destruct (Ascii.eqb c "-"); [exists l; reflexivity|].
  destruct (Ascii.eqb c "+"); [exists l; reflexivity | exists (c :: l); reflexivity].
Qed.

Lemma strip_0x_nul base l : exists l', strip_0x base (l ++ [NUL]) = l' ++ [NUL].
Proof.
  unfold strip_0x. destruct (base =? 16); [|eauto].
  destruct l as [|c0 [|c1 l]].
  - exists []. reflexivity.
  - exists [c0]. cbn [app].
    replace (Ascii.eqb NUL "x" || Ascii.eqb NUL "X") with false by reflexivity.
    rewrite andb_false_r. reflexivity.
  - cbn [app].
    destruct (Ascii.eqb c0 "0" && (Ascii.eqb c1 "x" || Ascii.eqb c1 "X"));
      [exists l | exists (c0 :: c1 :: l)]; reflexivity.
Qed.

Lemma digits_stop_nul base l : digits_stop base (l ++ [NUL]) = true.
Proof.
  induction l as [|c l IH]; [reflexivity|].
  cbn [app digits_stop]. destruct (digit_val c) as [d|]; [|reflexivity].
  destruct (d <? base); [exact IH | reflexivity].
Qed.

Lemma strtol_stops_nul base l : strtol_stops (l ++ [NUL]) base = true.
Proof.
  unfold strtol_stops.
  destruct (skip_space_nul l) as [l1 ->].
  destruct (strip_sign_nul l1) as [l2 ->].
  destruct (strip_0x_nul base l2) as [l3 ->].
  apply digits_stop_nul.
Qed.

Context `{Platform}.

(** With a NUL in [p[3]] every field is defined. *)
Lemma field_nul data_str off : is_Some (field data_str off NUL).
Proof.
  unfold field, memcpy.
  change (skipn 3 [NUL; NUL; NUL; NUL]) with [NUL].
  rewrite strtol_stops_nul. eauto.
Qed.

Lemma fields_inside_nul data_str : fields_inside data_str NUL = true.
Proof. apply fields_inside_spec. intros g k _ _. apply field_nul. Qed.

(** The field the decoder reads at three hexadecimal digits is their
    value. *)
Lemma field_hex3 data_str off c v t_ :
  hex3 data_str off = Some v ->
  field data_str off c = Some t_ ->
  t_ = v /\ 0 <= v <= 4095.
Proof.
  unfold hex3, field, memcpy.
  destruct (skipn (Z.to_nat off) data_str) as [|c0 [|c1 [|c2 rest]]];
    try discriminate.
  destruct (hexval c0) as [d0|] eqn:H0; [|discriminate].
  destruct (hexval c1) as [d1|] eqn:H1; [|discriminate].
  destruct (hexval c2) as [d2|] eqn:H2; [|discriminate].
  cbn [mbind option_bind]. intros [= <-].
  destruct (hexval_plain _ _ H0) as (N0 & _).
  destruct (hexval_plain _ _ H1) as (N1 & _).
  destruct (hexval_plain _ _ H2) as (N2 & _).
  change (firstn 3 (c0 :: c1 :: c2 :: rest) ++ skipn 3 [NUL; NUL; NUL; c])
    with [c0; c1; c2; c].
  rewrite (strtol_stops_hex3 _ _ _ [c] _ _ _ H0 H1 H2).
  destruct (digits_stop 16 [c]) eqn:Hstop; [|discriminate].
  intros [= <-].
  destruct (hexval_digit _ _ H0) as [_ R0].
  destruct (hexval_digit _ _ H1) as [_ R1].
  destruct (hexval_digit _ _ H2) as [_ R2].
  split; [|lia].
  cbn [cstr]. rewrite N0, N1, N2.
  apply (strtol_hex3 _ _ _ _ _ _ _ H0 H1 H2).
  intros v. cbn [digits_stop] in Hstop.
  destruct (Ascii.eqb c NUL); cbn [strtol_digits]; [reflexivity|].
  destruct (digit_val c) as [d|]; [|reflexivity].
  destruct (d <? 16); [discriminate | reflexivity].
Qed.

(** The field at three hexadecimal digits: their value when the byte
    [p[3]] is no hexadecimal digit, and undefined when it is one. *)
Lemma field_hex3_value data_str off c v :
  hex3 data_str off = Some v ->
  field data_str off c = match hexval c with
                         | Some _ => None
                         | None => Some v
                         end.
Proof.
  intros Hv.
  assert (Hstop : match hexval c with
                  | Some _ => field data_str off c = None
                  | None => is_Some (field data_str off c)
                  end).
  { revert Hv. unfold hex3, field, memcpy.
    destruct (skipn (Z.to_nat off) data_str) as [|c0 [|c1 [|c2 rest]]];
      try discriminate.
    destruct (hexval c0) as [d0|] eqn:H0; [|discriminate].
    destruct (hexval c1) as [d1|] eqn:H1; [|discriminate].
    destruct (hexval c2) as [d2|] eqn:H2; [|discriminate].
    intros _.
    change (firstn 3 (c0 :: c1 :: c2 :: rest) ++ skipn 3 [NUL; NUL; NUL; c])
      with [c0; c1; c2; c].
    rewrite (strtol_stops_hex3 _ _ _ [c] _ _ _ H0 H1 H2).
    unfold hexval. cbn [digits_stop].
    destruct (digit_val c) as [d|]; [|eauto].
    destruct (d <? 16); [reflexivity | eauto]. }
  destruct (hexval c) as [d|]; [exact Hstop|].
  destruct Hstop as [t_ Ht]. rewrite Ht.
  destruct (field_hex3 _ _ _ _ _ Hv Ht) as [-> _]. reflexivity.
Qed.

End Hex.

(* ===================================================================== *)
(** ** Doubles: comparisons and signs                                     *)
(* ===================================================================== *)

Section Doubles.

Lemma SFeqb_sym x y : SFeqb x y = SFeqb y x.
Proof.
  unfold SFeqb, SFcompare.
  destruct x as [sx|sx| |sx mx ex], y as [sy|sy| |sy my ey];
    try destruct sx; try destruct sy; try reflexivity.
  all: change (Pos.compare_cont Eq my mx) with (Pos.compare my mx).
  all: change (Pos.compare_cont Eq mx my) with (Pos.compare mx my).
  all: rewrite (Z.compare_antisym ex ey), (Pos.compare_antisym mx my).
  all: destruct (ex ?= ey), (mx ?= my)%positive; reflexivity.
Qed.

(** [a != b] is symmetric. *)
Lemma fne_sym a b : fne a b = fne b a.
Proof. unfold fne. rewrite !FloatAxioms.eqb_spec, SFeqb_sym. reflexivity. Qed.

Lemma nonneg_not_negative x : nonneg x = true -> not_negative x = true.
Proof. destruct x; simpl; congruence. Qed.

Lemma Prim2SF_zero : Prim2SF 0 = S754_zero false.
Proof. vm_compute. reflexivity. Qed.

Lemma Prim2SF_infinity : Prim2SF infinity = S754_infinity false.
Proof. vm_compute. reflexivity. Qed.

Lemma not_negative_ltb x :
  not_negative (Prim2SF x) = true -> (x <? 0)%float = false.
Proof.
  rewrite FloatAxioms.ltb_spec, Prim2SF_zero.
  destruct (Prim2SF x) as [[]|[]| |[] m e]; cbv; intros; congruence.
Qed.

Lemma nonneg_leb x : nonneg (Prim2SF x) = true -> (0 <=? x)%float = true.
Proof.
  rewrite FloatAxioms.leb_spec, Prim2SF_zero.
  destruct (Prim2SF x) as [[]|[]| |[] m e]; cbv; intros; congruence.
Qed.

Lemma positive_nonneg x : (0 <? x)%float = true -> nonneg (Prim2SF x) = true.
Proof.
  rewrite FloatAxioms.ltb_spec, Prim2SF_zero.
  destruct (Prim2SF x) as [[]|[]| |[] m e]; cbv; intros; congruence.
Qed.

Lemma is_finite_spec x :
  is_finite x = true ->
  match Prim2SF x with S754_zero _ | S754_finite _ _ _ => True | _ => False end.
Proof.
  unfold is_finite, is_nan, is_infinity.
  rewrite !FloatAxioms.eqb_spec, FloatAxioms.abs_spec, Prim2SF_infinity.
  destruct (Prim2SF x) as [s|s| |s m e]; simpl; try discriminate; auto.
  destruct s; cbv; discriminate.
Qed.

(** Rounding keeps the sign of a mantissa that is not negative. *)
Lemma shr_1_nonneg mrs : 0 <= shr_m mrs -> 0 <= shr_m (shr_1 mrs).
Proof. destruct mrs as [[|[p|p|]|p] r s]; simpl; lia. Qed.

Lemma iter_pos_shr_1_nonneg p : forall mrs,
  0 <= shr_m mrs -> 0 <= shr_m (SpecFloat.iter_pos shr_1 p mrs).
Proof.
  induction p as [p IH|p IH|]; intros mrs Hm; simpl;
    auto using shr_1_nonneg.
Qed.

Lemma shr_fexp_nonneg m e l :
  0 <= m -> 0 <= shr_m (fst (shr_fexp prec emax m e l)).
Proof.
  intros Hm. unfold shr_fexp, shr.
  assert (H0 : 0 <= shr_m (shr_record_of_loc m l))
    by (destruct l as [|[]]; exact Hm).
  destruct (fexp prec emax (Zdigits2 m + e) - e); simpl;
    auto using iter_pos_shr_1_nonneg.
Qed.

Lemma round_nearest_even_nonneg m l : 0 <= m -> 0 <= round_nearest_even m l.
Proof.
  intros Hm. unfold round_nearest_even.
  destruct l as [|[]]; try destruct (Z.even m); lia.
Qed.

Lemma binary_round_aux_nonneg m e l :
  0 <= m -> nonneg (binary_round_aux prec emax false m e l) = true.
Proof.
  intros Hm. unfold binary_round_aux.
  pose proof (shr_fexp_nonneg m e l Hm) as H1.
  destruct (shr_fexp prec emax m e l) as [mrs' e']. simpl in H1.
  pose proof (shr_fexp_nonneg _ e' loc_Exact
                (round_nearest_even_nonneg _ (loc_of_shr_record mrs') H1)) as H2.
  destruct (shr_fexp prec emax _ e' loc_Exact) as [mrs'' e'']. simpl in H2.
  destruct (shr_m mrs'') as [|p|p]; [reflexivity | | lia].
  destruct (e'' <=? emax - prec); reflexivity.
Qed.

Lemma binary_round_aux_not_negative m e l :
  not_negative (binary_round_aux prec emax false m e l) = true.
Proof.
  unfold binary_round_aux.
  destruct (shr_fexp prec emax m e l) as [mrs' e'].
  destruct (shr_fexp prec emax _ e' loc_Exact) as [mrs'' e''].
  destruct (shr_m mrs'') as [|p|p]; try reflexivity.
  destruct (e'' <=? emax - prec); reflexivity.
Qed.

Lemma SFdiv_not_negative x y :
  nonneg x = true -> nonneg y = true -> not_negative (SF64div x y) = true.
Proof.
  unfold SF64div, SFdiv.
  destruct x as [[]|[]| |[] mx ex], y as [[]|[]| |[] my ey];
    simpl; try congruence; intros _ _.
  destruct (SFdiv_core_binary prec emax (Z.pos mx) ex (Z.pos my) ey) as [[mz ez] lz].
  apply binary_round_aux_not_negative.
Qed.

Lemma SFmul_not_negative x y :
  nonneg_finite x = true -> not_negative y = true ->
  not_negative (SF64mul x y) = true.
Proof.
  unfold SF64mul, SFmul.
  destruct x as [[]|[]| |[] mx ex], y as [[]|[]| |[] my ey];
    simpl; try congruence; intros _ _.
  apply binary_round_aux_not_negative.
Qed.

Lemma SFmul_nonneg x y :
  nonneg_finite x = true -> nonneg_finite y = true ->
  nonneg (SF64mul x y) = true.
Proof.
  unfold SF64mul, SFmul.
  destruct x as [[]|[]| |[] mx ex], y as [[]|[]| |[] my ey];
    simpl; try congruence; intros _ _.
  apply binary_round_aux_nonneg. lia.
Qed.

(** A product with zero is zero when the other factor is finite. *)
Lemma mul_zero_finite q :
  is_finite q = true -> (0 * q =? 0)%float = true.
Proof.
  intros Hq%is_finite_spec.
  rewrite FloatAxioms.eqb_spec, FloatAxioms.mul_spec, Prim2SF_zero.
  destruct (Prim2SF q) as [s|s| |s m e]; try contradiction; reflexivity.
Qed.

(** The integers from 0 to 1023 convert to finite doubles that are not
    negative. *)
Lemma double_of_Z_light s :
  0 <= s <= 1023 -> nonneg_finite (Prim2SF (double_of_Z s)) = true.
Proof.
  intros Hs.
  assert (Hall : forallb (fun n => nonneg_finite (Prim2SF (double_of_Z (Z.of_nat n))))
                         (seq 0 1024) = true) by (vm_compute; reflexivity).
  rewrite forallb_forall in Hall.
  specialize (Hall (Z.to_nat s)). rewrite Z2Nat.id in Hall by lia.
  apply Hall, in_seq. lia.
Qed.

End Doubles.

(* ===================================================================== *)
(** ** The blocks of the demonstration platform                           *)
(* ===================================================================== *)

Import Demo.

Lemma block1_text : block_text loc0 block1 = Some text1.
Proof. vm_compute. reflexivity. Defined.

Lemma block1_data_str :
  fgets (data_str0 loc0) 3610 (bt_fp text1) = Some (data_str1, []).
Proof. vm_compute. reflexivity. Qed.

Lemma block1_strlen : 3601 <= strlen data_str1.
Proof. vm_compute. discriminate. Qed.

Lemma block1_room : room (bt_N text1) data0.
Proof. repeat split; vm_compute; discriminate. Defined.

(** [Demo.block1] is decoded. *)
Lemma block1_run :
  exists r, geneactiv_read_block loc0 block1 tt info0 data0 = Some r
            /\ decoded (code r).
Proof.
  apply (read_block_total (H := platform) loc0 block1 tt info0 data0 text1 data_str1 []).
  - apply fields_inside_nul.
  - exact block1_text.
  - exact block1_room.
  - exact block1_data_str.
  - exact block1_strlen.
  - vm_compute. reflexivity.
Defined.

(* ===================================================================== *)
(** ** Properties of a decoded block                                      *)
(* ===================================================================== *)

(** C7.  A decoded block with sequence number [N] has its samples at the
    sample offset [N * GN_SAMPLES] of the caller's buffers (the acceleration
    at the element offset [N * GN_SAMPLES * 3]); the one temperature the
    block carries is in all [GN_SAMPLES] temperature slots of the block; and
    no element outside the block is changed. *)
Theorem block_written_at_sequence_offset `{Platform} loc fp w info data r :
  geneactiv_read_block loc fp w info data = Some r ->
  decoded (code r) ->
  exists b data_str,
    block_text loc fp = Some b
    /\ fgets (data_str0 loc) 3610 (bt_fp b) = Some (data_str, file r)
    /\ let N := bt_N b in
       (forall j, 0 <= j < GN_SAMPLES ->
          get (temp (data_of r)) (N * GN_SAMPLES + j) = Some (bt_temp b)
          /\ get (ts (data_of r)) (N * GN_SAMPLES + j)
             = Some (block_t0 (bt_time b) + double_of_Z j / fs (info_of r))%float
          /\ (exists t_,
                field data_str (12 * j + 9) (p3 loc) = Some t_
                /\ get (light (data_of r)) (N * GN_SAMPLES + j)
                   = Some (light_value (info_of r) t_))
          /\ forall k, 0 <= k < 3 ->
               exists t_,
                 field data_str (12 * j + k * 3) (p3 loc) = Some t_
                 /\ get (acc (data_of r)) (N * GN_SAMPLES * 3 + 3 * j + k)
                    = Some (calibrate (info_of r) k (adjust t_)))
       /\ (forall z, ~ (N * GN_SAMPLES <= z < N * GN_SAMPLES + GN_SAMPLES) ->
             get (temp (data_of r)) z = get (temp data) z
             /\ get (ts (data_of r)) z = get (ts data) z
             /\ get (light (data_of r)) z = get (light data) z)
       /\ (forall z, ~ (N * GN_SAMPLES * 3 <= z < (N * GN_SAMPLES + GN_SAMPLES) * 3) ->
             get (acc (data_of r)) z = get (acc data) z).
Proof.
  intros Hrun Hdec.
  destruct (read_block_inv _ _ _ _ _ _ Hrun Hdec)
    as (b & ds & Hb & Hg & _ & _ & Hs).
  exists b, ds. split; [exact Hb|]. split; [exact Hg|].
  destruct Hs as (_ & _ & _ & _ & Hin & Hout & Hacc). auto.
Qed.

Lemma block_written_at_sequence_offset_witness :
  exists r,
    geneactiv_read_block loc0 block1 tt info0 data0 = Some r
    /\ decoded (code r)
    /\ get (temp (data_of r)) (1 * GN_SAMPLES + 299) = Some 25.5%float
    /\ get (temp (data_of r)) 299 = get (temp data0) 299.
Proof.
  destruct block1_run as (r & E & D).
  exists r. split; [exact E|]. split; [exact D|].
  destruct (block_written_at_sequence_offset _ _ _ _ _ _ E D)
    as (b & ds & Hb & _ & Hin & Hout & _).
  rewrite block1_text in Hb. injection Hb as <-.
  cbv zeta in Hin, Hout. change (bt_N text1) with 1 in Hin, Hout.
  split.
  - apply Hin. unfold GN_SAMPLES. lia.
  - apply Hout. unfold GN_SAMPLES. lia.
Defined.

(** C1.  An acceleration field of three hexadecimal digits with unsigned
    value [v], in a block with a complete data line that is no second
    mismatch of the rate.  The array [p] receives the three digits and no
    terminator, so [strtol] reads on into the byte [p[3]], which the decoder
    never writes.  When that byte is a hexadecimal digit the scan leaves
    the array: the field is not read as [v], and the call has no defined
    result.  When it is no hexadecimal digit the field is read as [v], [v]
    is taken as [v - 4096] exactly when [v > 2047], and a call that returns
    has stored [(adjusted * 100 - offset[k]) / gain[k]] for axis [k] of
    sample [g], with the gain and offset of the header. *)
Theorem accel_field_has_no_terminator `{Platform} loc fp w info data b
    data_str fp' g k v :
  block_text loc fp = Some b ->
  fgets (data_str0 loc) 3610 (bt_fp b) = Some (data_str, fp') ->
  3601 <= strlen data_str ->
  fne (bt_fs b) (fs info) && (fs_err info >=? 1) = false ->
  0 <= g < GN_SAMPLES -> 0 <= k < 3 ->
  hex3 data_str (12 * g + 3 * k) = Some v ->
  match hexval (p3 loc) with
  | Some _ =>
      field data_str (12 * g + 3 * k) (p3 loc) = None
      /\ geneactiv_read_block loc fp w info data = None
  | None =>
      field data_str (12 * g + 3 * k) (p3 loc) = Some v
      /\ 0 <= v <= 4095
      /\ adjust v = (if 2047 <? v then v - 4096 else v)
      /\ forall r,
           geneactiv_read_block loc fp w info data = Some r ->
           get (acc (data_of r)) (bt_N b * GN_SAMPLES * 3 + 3 * g + k)
           = Some ((double_of_Z (if 2047 <? v then v - 4096 else v)%Z * 100
                    - axis_get (offset info) k) / axis_get (gain info) k)%float
  end.
Proof.
  intros Hb Hg Hlen Hm Hg' Hk Hv.
  pose proof (field_hex3_value data_str (12 * g + 3 * k) (p3 loc) v Hv) as Hfield.
  assert (Hstored : forall r,
    geneactiv_read_block loc fp w info data = Some r ->
    exists t_,
      field data_str (12 * g + 3 * k) (p3 loc) = Some t_
      /\ get (acc (data_of r)) (bt_N b * GN_SAMPLES * 3 + 3 * g + k)
         = Some (calibrate info k (adjust t_))).
  { intros r Hrun.
    pose proof (complete_block_decoded _ _ _ _ _ _ _ _ _ Hb Hg Hlen Hm Hrun) as Hdec.
    destruct (read_block_inv _ _ _ _ _ _ Hrun Hdec)
      as (b' & ds & Hb' & Hgg & _ & Hi & Hs).
    rewrite Hb in Hb'. injection Hb' as <-.
    rewrite Hg in Hgg. injection Hgg as <- _.
    destruct Hs as (_ & _ & _ & _ & Hin & _).
    destruct (Hin g Hg') as (_ & _ & _ & Hacc).
    destruct (Hacc k Hk) as (t_ & Hf & Hget).
    replace (12 * g + k * 3) with (12 * g + 3 * k) in Hf by lia.
    exists t_. split; [exact Hf|]. rewrite Hget. unfold calibrate.
    assert (Hgo : gain (info_of r) = gain info /\ offset (info_of r) = offset info).
    { destruct (fne (bt_fs b) (fs info)).
      - destruct Hi as (_ & _ & ->). split; reflexivity.
      - destruct Hi as (_ & ->). split; reflexivity. }
    destruct Hgo as [-> ->]. reflexivity. }
  destruct (hexval (p3 loc)) as [d|].
  - split; [exact Hfield|].
    destruct (geneactiv_read_block loc fp w info data) as [r|]; [|reflexivity].
    destruct (Hstored r eq_refl) as (t_ & Hf & _). congruence.
  - destruct (field_hex3 _ _ _ _ _ Hv Hfield) as [_ Hr].
    assert (Ha : adjust v = if 2047 <? v then v - 4096 else v).
    { unfold adjust. destruct (v >? 2047) eqn:E1, (2047 <? v) eqn:E2; lia. }
    split; [exact Hfield|]. split; [exact Hr|]. split; [exact Ha|].
    intros r Hrun. destruct (Hstored r Hrun) as (t_ & Hf & Hget).
    rewrite Hfield in Hf. injection Hf as <-.
    rewrite Hget, Ha. reflexivity.
Qed.

Lemma block1_text_stale : block_text loc_stale block1 = Some text1.
Proof. vm_compute. reflexivity. Defined.

Lemma accel_field_has_no_terminator_witness :
  hex3 data_str1 (12 * 0 + 3 * 1) = Some 2048
  /\ (hexval (p3 loc_stale) = Some 5
      /\ field data_str1 (12 * 0 + 3 * 1) (p3 loc_stale) = None
      /\ geneactiv_read_block loc_stale block1 tt info0 data0 = None)
  /\ (hexval (p3 loc0) = None
      /\ exists r,
           geneactiv_read_block loc0 block1 tt info0 data0 = Some r
           /\ get (acc (data_of r)) (1 * GN_SAMPLES * 3 + 3 * 0 + 1)
              = Some ((double_of_Z (2048 - 4096)%Z * 100 - (-330)) / 25665)%float).
Proof.
  assert (Hds : hex3 data_str1 (12 * 0 + 3 * 1) = Some 2048)
    by (vm_compute; reflexivity).
  split; [exact Hds|]. split.
  - split; [reflexivity|].
    exact (accel_field_has_no_terminator (H := platform) loc_stale block1 tt info0
             data0 text1 data_str1 [] 0 1 2048 block1_text_stale block1_data_str
             block1_strlen eq_refl ltac:(unfold GN_SAMPLES; lia) ltac:(lia) Hds).
  - split; [reflexivity|].
    destruct block1_run as (r & E & D). exists r. split; [exact E|].
    pose proof (accel_field_has_no_terminator (H := platform) loc0 block1 tt info0
                  data0 text1 data_str1 [] 0 1 2048 block1_text block1_data_str
                  block1_strlen eq_refl ltac:(unfold GN_SAMPLES; lia) ltac:(lia) Hds)
      as Hc.
    change (hexval (p3 loc0)) with (@None Z) in Hc. cbv iota in Hc.
    destruct Hc as (_ & _ & _ & Hget). exact (Hget r E).
Defined.

(* ===================================================================== *)
(** ** The sampling rate of a block against the header                    *)
(* ===================================================================== *)

Lemma block_50hz_text : block_text loc0 block_50hz = Some text_50hz.
Proof. vm_compute. reflexivity. Defined.

Lemma block_50hz_data_str :
  fgets (data_str0 loc0) 3610 (bt_fp text_50hz) = Some (data_str1, []).
Proof. vm_compute. reflexivity. Defined.

Lemma block_50hz_room : room (bt_N text_50hz) data0.
Proof. repeat split; vm_compute; discriminate. Defined.

(** [Demo.block_50hz] is decoded with the warning, and leaves buffers of
    the same sizes. *)
Lemma block_50hz_run :
  exists r, geneactiv_read_block loc0 block_50hz tt info0 data0 = Some r
            /\ code r = GN_READ_E_BLOCK_FS_WARN
            /\ room (bt_N text1) (data_of r)
            /\ room (bt_N text_50hz) (data_of r).
Proof.
  destruct (read_block_total (H := platform) loc0 block_50hz tt info0 data0
              text_50hz data_str1 [] (fields_inside_nul data_str1)
              block_50hz_text block_50hz_room
              block_50hz_data_str block1_strlen eq_refl) as (r & E & D).
  destruct (read_block_inv _ _ _ _ _ _ E D) as (b & ds & Hb & _ & _ & Hi & Hs).
  rewrite block_50hz_text in Hb. injection Hb as <-.
  exists r. split; [exact E|]. split.
  - assert (Hm : fne (bt_fs text_50hz) (fs info0) = true) by reflexivity.
    rewrite Hm in Hi. destruct Hi as (_ & Hc & _). exact Hc.
  - destruct Hs as (Lt & Lts & La & Ll & _).
    unfold room. rewrite Lt, Lts, La, Ll.
    split; [exact block1_room | exact block_50hz_room].
Defined.

(** C2, as the code has it.  A block whose declared sampling rate differs
    from the rate of the header, with room for it in the buffers.  With the
    mismatch counter at 0 the counter becomes 1 and the rate of the header
    becomes the rate of the block; then, when the data line is complete and
    each of its fields is read inside the array [p], the call returns the
    warning and the block is decoded (under the new rate); when the data
    line is missing or short the call returns the data error, not the
    warning, and stores no acceleration, light or timestamp.  With the
    counter at 1 or more the call returns the mismatch error, leaves the
    rate and the counter as they were, and stores no acceleration, light or
    timestamp. *)
Theorem rate_mismatch_tolerated_once `{Platform} loc fp w info data b :
  block_text loc fp = Some b ->
  fne (bt_fs b) (fs info) = true ->
  room (bt_N b) data ->
  (fs_err info = 0 ->
   (forall data_str fp',
      fgets (data_str0 loc) 3610 (bt_fp b) = Some (data_str, fp') ->
      3601 <= strlen data_str ->
      fields_inside data_str (p3 loc) = true ->
      exists r,
        geneactiv_read_block loc fp w info data = Some r
        /\ code r = GN_READ_E_BLOCK_FS_WARN
        /\ fs_err (info_of r) = 1
        /\ fs (info_of r) = bt_fs b
        /\ block_stored b data_str (p3 loc) (info_of r) data (data_of r))
   /\ (line_length (bt_fp b) < 3600 ->
       exists r,
         geneactiv_read_block loc fp w info data = Some r
         /\ code r = match bt_fp b with
                     | [] => GN_READ_E_BLOCK_DATA
                     | _ :: _ => GN_READ_E_BLOCK_DATA_3600
                     end
         /\ fs_err (info_of r) = 1
         /\ fs (info_of r) = bt_fs b
         /\ acc (data_of r) = acc data
         /\ light (data_of r) = light data
         /\ ts (data_of r) = ts data))
  /\ (1 <= fs_err info ->
      exists r,
        geneactiv_read_block loc fp w info data = Some r
        /\ code r = GN_READ_E_BLOCK_FS
        /\ fs (info_of r) = fs info
        /\ fs_err (info_of r) = fs_err info
        /\ acc (data_of r) = acc data
        /\ light (data_of r) = light data
        /\ ts (data_of r) = ts data).
Proof.
  intros Hb Hm Hroom. split; [intros He; split|].
  - intros ds fp' Hg Hlen Hp.
    destruct (read_block_total loc fp w info data b ds fp') as (r & Hrun & Hdec);
      [exact Hp | exact Hb | exact Hroom | exact Hg | exact Hlen | | ].
    { rewrite Hm. destruct (fs_err info >=? 1) eqn:E; [lia | reflexivity]. }
    destruct (read_block_inv _ _ _ _ _ _ Hrun Hdec)
      as (b' & ds' & Hb' & Hg' & _ & Hi & Hs).
    rewrite Hb in Hb'. injection Hb' as <-.
    rewrite Hg in Hg'. injection Hg' as <- _.
    rewrite Hm in Hi. destruct Hi as (_ & Hc & Hinfo).
    exists r. split; [exact Hrun|]. split; [exact Hc|].
    split; [rewrite Hinfo; simpl; lia|].
    split; [rewrite Hinfo; reflexivity | exact Hs].
  - intros Hl. rewrite (read_block_unfold _ _ _ _ _ _ Hb). cbv zeta.
    destruct (room_in_range _ _ Hroom) as [-> Htl]. rewrite Htl.
    destruct (room_fill b data Hroom) as (temp' & Hf & _).
    rewrite Hf. cbn [mbind option_bind]. rewrite Hm.
    destruct (fs_err info <? 1) eqn:E1; [|lia]. cbn [andb].
    destruct (read_block_data_short loc (bt_fp b) w
                (corrected (bt_fs b) (seen (bt_N b) info)) (set_temp temp' data)
                (bt_N b * GN_SAMPLES) (bt_time b) GN_READ_E_BLOCK_FS_WARN Hl)
      as [fp' ->].
    eexists. split; [reflexivity|]. cbn. rewrite He. repeat split.
  - intros He. rewrite (read_block_unfold _ _ _ _ _ _ Hb). cbv zeta.
    destruct (room_in_range _ _ Hroom) as [-> Htl]. rewrite Htl.
    destruct (room_fill b data Hroom) as (temp' & Hf & _).
    rewrite Hf. cbn [mbind option_bind]. rewrite Hm.
    destruct (fs_err info <? 1) eqn:E1; [lia|].
    destruct (fs_err info >=? 1) eqn:E2; [|lia]. cbn [andb].
    eexists. split; [reflexivity|]. cbn. repeat split.
Qed.

Lemma rate_mismatch_tolerated_once_witness :
  (exists r,
     geneactiv_read_block loc0 block_50hz tt info0 data0 = Some r
     /\ code r = GN_READ_E_BLOCK_FS_WARN
     /\ fs_err (info_of r) = 1 /\ fs (info_of r) = 50%float)
  /\ (exists r,
        geneactiv_read_block loc0 block_50hz tt (set_fs_err 1 info0) data0 = Some r
        /\ code r = GN_READ_E_BLOCK_FS
        /\ acc (data_of r) = acc data0 /\ light (data_of r) = light data0).
Proof.
  split.
  - destruct (rate_mismatch_tolerated_once (H := platform) loc0 block_50hz tt info0 data0 text_50hz
                block_50hz_text eq_refl block_50hz_room) as [Hwarn _].
    destruct (Hwarn eq_refl) as [Hfull _].
    destruct (Hfull data_str1 [] block_50hz_data_str block1_strlen
                (fields_inside_nul data_str1))
      as (r & E & Hc & He & Hfs & _).
    exists r. auto.
  - destruct (rate_mismatch_tolerated_once (H := platform) loc0 block_50hz tt (set_fs_err 1 info0)
                data0 text_50hz block_50hz_text eq_refl block_50hz_room)
      as [_ Herr].
    destruct Herr as (r & E & Hc & _ & _ & Ha & Hl & _); [simpl; lia|].
    exists r. auto.
Defined.

(** C2 as stated fails: the first block whose rate (50 Hz) differs from the
    rate of the header (100 Hz), met with the mismatch counter at 0, has a
    data line of 3588 characters.  The counter becomes 1 and the rate of the
    header becomes 50 Hz, but the call returns the error of the short data
    line, not the warning, and the block is not decoded. *)
Lemma first_mismatch_can_end_in_data_error :
  fs_err info0 = 0
  /\ fne (bt_fs text_50hz_short) (fs info0) = true
  /\ option_map (fun r => (code r, fs_err (info_of r), fs (info_of r),
                           get (light (data_of r)) 300 , get (light data0) 300))
                (geneactiv_read_block loc0 block_50hz_short tt info0 data0)
     = Some (GN_READ_E_BLOCK_DATA_3600, 1, 50%float, Some 0%float, Some 0%float).
Proof. repeat split; vm_compute; reflexivity. Qed.

(** C9.  Once a first mismatch has put the rate of a block into the
    header, later blocks are compared with that corrected rate.  A later
    call that returns, returns the mismatch error exactly when the rate its
    block declares differs from the corrected rate.  A later block that
    declares the rate the header had before is such a mismatch, and the
    call returns the mismatch error.  A later block whose rate equals the
    corrected rate is accepted: with a complete data line whose fields are
    read inside [p] it is decoded without warning, and the rate and the
    counter stay as they are. *)
Theorem later_blocks_compared_with_corrected_rate `{Platform} loc fp w info data r :
  fs_err info = 0 ->
  geneactiv_read_block loc fp w info data = Some r ->
  code r = GN_READ_E_BLOCK_FS_WARN ->
  exists b,
    block_text loc fp = Some b
    /\ fne (bt_fs b) (fs info) = true
    /\ fs (info_of r) = bt_fs b
    /\ fs_err (info_of r) = 1
    /\ forall loc' fp' w' info' data' b',
         fs info' = fs (info_of r) ->
         fs_err info' = fs_err (info_of r) ->
         block_text loc' fp' = Some b' ->
         (forall r',
            geneactiv_read_block loc' fp' w' info' data' = Some r' ->
            (code r' = GN_READ_E_BLOCK_FS <-> fne (bt_fs b') (bt_fs b) = true))
         /\ (bt_fs b' = fs info ->
             room (bt_N b') data' ->
             exists r',
               geneactiv_read_block loc' fp' w' info' data' = Some r'
               /\ code r' = GN_READ_E_BLOCK_FS)
         /\ (fne (bt_fs b') (bt_fs b) = false ->
             room (bt_N b') data' ->
             forall data_str fp'',
               fgets (data_str0 loc') 3610 (bt_fp b') = Some (data_str, fp'') ->
               3601 <= strlen data_str ->
               fields_inside data_str (p3 loc') = true ->
               exists r',
                 geneactiv_read_block loc' fp' w' info' data' = Some r'
                 /\ code r' = GN_READ_E_NONE
                 /\ fs (info_of r') = bt_fs b
                 /\ fs_err (info_of r') = 1
                 /\ block_stored b' data_str (p3 loc') (info_of r') data' (data_of r')).
Proof.
  intros He Hrun Hc.
  assert (Hdec : decoded (code r)) by (right; exact Hc).
  destruct (read_block_inv _ _ _ _ _ _ Hrun Hdec)
    as (b & ds & Hb & _ & _ & Hi & _).
  exists b. split; [exact Hb|].
  destruct (fne (bt_fs b) (fs info)) eqn:Hm.
  2:{ destruct Hi as [Hc' _]. congruence. }
  destruct Hi as (_ & _ & Hinfo).
  split; [reflexivity|].
  split; [rewrite Hinfo; reflexivity|].
  split; [rewrite Hinfo; simpl; lia|].
  intros loc' fp' w' info' data' b' Hfs Herr Hb'.
  assert (Hfs' : fs info' = bt_fs b) by (rewrite Hfs, Hinfo; reflexivity).
  assert (Herr' : fs_err info' = 1) by (rewrite Herr, Hinfo; simpl; lia).
  split; [|split].
  - intros r' Hrun'.
    destruct (read_block_cases _ _ _ _ _ _ Hrun')
      as [[Hn _] | (b'' & temp' & Hb'' & _ & Hcase)]; [congruence|].
    rewrite Hb' in Hb''. injection Hb'' as <-. rewrite Hfs' in Hcase.
    destruct Hcase as [(Hm' & _ & ->) | [(_ & Hlt & _) | (Hm' & Hr')]].
    + split; [intros _; exact Hm' | reflexivity].
    + lia.
    + rewrite Hm'. split; [|discriminate].
      apply read_block_data_cases in Hr'.
      destruct Hr' as [[_ ->] | [(ds' & fp'' & _ & _ & ->) |
                                 (ds' & fp'' & data1 & ts' & _ & _ & _ & _ & ->)]];
        discriminate.
  - intros Hdecl Hroom.
    rewrite (read_block_unfold _ _ _ _ _ _ Hb'). cbv zeta.
    destruct (room_in_range _ _ Hroom) as [-> Htl]. rewrite Htl.
    destruct (room_fill b' data' Hroom) as (temp' & Hf & _).
    rewrite Hf. cbn [mbind option_bind].
    rewrite Hdecl, Hfs'.
    rewrite fne_sym, Hm.
    rewrite Herr'. cbn. eexists. split; reflexivity.
  - intros Hsame Hroom data_str fp'' Hg Hlen Hp.
    destruct (read_block_total loc' fp' w' info' data' b' data_str fp'')
      as (r' & Hrun' & Hdec');
      [exact Hp | exact Hb' | exact Hroom | exact Hg | exact Hlen | | ].
    { rewrite Hfs', Hsame. reflexivity. }
    destruct (read_block_inv _ _ _ _ _ _ Hrun' Hdec')
      as (b'' & ds' & Hb'' & Hg' & _ & Hi' & Hs').
    rewrite Hb' in Hb''. injection Hb'' as <-.
    rewrite Hg in Hg'. injection Hg' as <- _.
    rewrite Hfs', Hsame in Hi'. destruct Hi' as [Hc' Hinfo'].
    exists r'. split; [exact Hrun'|]. split; [exact Hc'|].
    rewrite Hinfo'. cbn [fs fs_err seen set_max_n].
    split; [exact Hfs'|]. split; [exact Herr' | rewrite <- Hinfo'; exact Hs'].
Qed.

Lemma later_blocks_compared_with_corrected_rate_witness :
  exists r r' r'',
    geneactiv_read_block loc0 block_50hz tt info0 data0 = Some r
    /\ code r = GN_READ_E_BLOCK_FS_WARN
    /\ geneactiv_read_block loc0 block1 tt (info_of r) (data_of r) = Some r'
    /\ code r' = GN_READ_E_BLOCK_FS
    /\ geneactiv_read_block loc0 block_50hz tt (info_of r) (data_of r) = Some r''
    /\ code r'' = GN_READ_E_NONE
    /\ fs (info_of r'') = 50%float.
Proof.
  destruct block_50hz_run as (r & E & Hc & Hroom & Hroom0).
  destruct (later_blocks_compared_with_corrected_rate (H := platform)
              loc0 block_50hz tt info0 data0 r eq_refl E Hc)
    as (b & Hb & _ & _ & _ & Hlater).
  rewrite block_50hz_text in Hb. injection Hb as <-.
  destruct (Hlater loc0 block1 tt (info_of r) (data_of r) text1
              eq_refl eq_refl block1_text) as (_ & Hold & _).
  destruct (Hold eq_refl Hroom) as (r' & E' & Hc').
  destruct (Hlater loc0 block_50hz tt (info_of r) (data_of r) text_50hz
              eq_refl eq_refl block_50hz_text) as (_ & _ & Hnew).
  destruct (Hnew eq_refl Hroom0 data_str1 [] block_50hz_data_str block1_strlen
              (fields_inside_nul data_str1)) as (r'' & E'' & Hc'' & Hfs'' & _).
  exists r, r', r''. auto 10.
Defined.

(* ===================================================================== *)
(** ** A block whose data string is missing or short                      *)
(* ===================================================================== *)







(* ===================================================================== *)
(** ** Rounding to a double is monotone                                   *)
(* ===================================================================== *)

Lemma bpow_pos e : (0 < bpow e)%R.
Proof. apply powerRZ_lt. lra. Qed.

Lemma bpow_add a b : bpow (a + b) = (bpow a * bpow b)%R.
Proof. apply powerRZ_add. lra. Qed.

Lemma bpow_0 : bpow 0 = 1%R.
Proof. reflexivity. Qed.

Lemma bpow_1 : bpow 1 = 2%R.
Proof. unfold bpow. simpl. lra. Qed.

Lemma bpow_m1 : bpow (-1) = (1 / 2)%R.
Proof. unfold bpow. simpl. lra. Qed.

Lemma bpow_opp e : (bpow (- e) * bpow e = 1)%R.
Proof. rewrite <- bpow_add. replace (- e + e) with 0 by lia. reflexivity. Qed.

Lemma bpow_ge_1 n : 0 <= n -> (1 <= bpow n)%R.
Proof.
  intros Hn. unfold bpow. rewrite <- (Z2Nat.id n Hn), <- pow_powerRZ.
  apply pow_R1_Rle. lra.
Qed.

Lemma bpow_le a b : a <= b -> (bpow a <= bpow b)%R.
Proof.
  intros H. replace b with (a + (b - a)) by lia. rewrite bpow_add.
  pose proof (bpow_pos a). pose proof (bpow_ge_1 (b - a) ltac:(lia)). nra.
Qed.

Lemma bpow_lt a b : a < b -> (bpow a < bpow b)%R.
Proof.
  intros H. replace b with (a + 1 + (b - a - 1)) by lia.
  rewrite !bpow_add, bpow_1.
  pose proof (bpow_pos a). pose proof (bpow_le 0 (b - a - 1) ltac:(lia)) as H1.
  rewrite bpow_0 in H1. nra.
Qed.

Lemma bpow_lt_inv a b : (bpow a < bpow b)%R -> a < b.
Proof.
  intros H. destruct (Z_lt_le_dec a b) as [|Hle]; [assumption|].
  apply bpow_le in Hle. lra.
Qed.

Lemma bpow_IZR n : 0 <= n -> bpow n = IZR (2 ^ n).
Proof.
  intros Hn. unfold bpow. rewrite <- (Z2Nat.id n Hn).
  rewrite <- pow_powerRZ, <- pow_IZR. reflexivity.
Qed.

Lemma digits2_pos_spec p :
  2 ^ (Zpos (digits2_pos p) - 1) <= Zpos p < 2 ^ Zpos (digits2_pos p).
Proof.
  induction p as [p IH|p IH|]; cbn [digits2_pos];
    [| |change (1 <= 1 < 2); lia].
  - rewrite Pos2Z.inj_succ, (Pos2Z.inj_xI p).
    replace (Z.succ (Zpos (digits2_pos p)) - 1)
      with (Z.succ (Zpos (digits2_pos p) - 1)) by lia.
    rewrite !Z.pow_succ_r by lia. lia.
  - rewrite Pos2Z.inj_succ, (Pos2Z.inj_xO p).
    replace (Z.succ (Zpos (digits2_pos p)) - 1)
      with (Z.succ (Zpos (digits2_pos p) - 1)) by lia.
    rewrite !Z.pow_succ_r by lia. lia.
Qed.

Lemma Zdigits2_spec m :
  0 <= m ->
  0 <= Zdigits2 m /\ m < 2 ^ Zdigits2 m
  /\ (0 < m -> 1 <= Zdigits2 m /\ 2 ^ (Zdigits2 m - 1) <= m).
Proof.
  destruct m as [|p|p]; intros Hm; [simpl; lia | | lia].
  pose proof (digits2_pos_spec p). cbn [Zdigits2]. lia.
Qed.

(** The digits of a number between two powers of two. *)
Lemma Zdigits2_unique m d :
  0 <= d -> 2 ^ d <= m < 2 ^ (d + 1) -> Zdigits2 m = d + 1.
Proof.
  intros Hd [Hlo Hhi].
  assert (Hm : 0 < m) by (pose proof (Z.pow_pos_nonneg 2 d); lia).
  destruct (Zdigits2_spec m ltac:(lia)) as (H0 & H1 & H2).
  destruct (H2 Hm) as [H3 H4].
  destruct (Z_lt_le_dec (Zdigits2 m) (d + 1)) as [Hlt|Hge].
  - assert (2 ^ Zdigits2 m <= 2 ^ d) by (apply Z.pow_le_mono_r; lia). lia.
  - destruct (Z.eq_dec (Zdigits2 m) (d + 1)) as [|Hne]; [assumption|].
    assert (2 ^ (d + 1) <= 2 ^ (Zdigits2 m - 1)) by (apply Z.pow_le_mono_r; lia).
    lia.
Qed.

Lemma loc_ok_bounds u m l : loc_ok u m l -> (IZR m <= u < IZR m + 1)%R.
Proof. destruct l as [|[]]; simpl; intros; lra. Qed.

Lemma loc_of_shr_record_of_loc m l :
  loc_of_shr_record (shr_record_of_loc m l) = l
  /\ shr_m (shr_record_of_loc m l) = m.
Proof. destruct l as [|[]]; split; reflexivity. Qed.

Lemma shr_1_ok u mrs :
  0 <= shr_m mrs ->
  loc_ok u (shr_m mrs) (loc_of_shr_record mrs) ->
  0 <= shr_m (shr_1 mrs)
  /\ loc_ok (u * bpow (-1)) (shr_m (shr_1 mrs)) (loc_of_shr_record (shr_1 mrs)).
Proof.
  rewrite bpow_m1.
  destruct mrs as [m r s]. cbn [shr_m].
  destruct m as [|[p|p|]|p]; intros Hm; try lia;
    destruct r, s; cbn [shr_1 shr_m loc_of_shr_record orb loc_ok];
    rewrite ?(Pos2Z.inj_xI p), ?(Pos2Z.inj_xO p), ?plus_IZR, ?mult_IZR;
    intros Hu; (split; [lia|]); lra.
Qed.

Lemma iter_shr_ok p : forall u mrs,
  0 <= shr_m mrs ->
  loc_ok u (shr_m mrs) (loc_of_shr_record mrs) ->
  0 <= shr_m (SpecFloat.iter_pos shr_1 p mrs)
  /\ loc_ok (u * bpow (- Zpos p)) (shr_m (SpecFloat.iter_pos shr_1 p mrs))
            (loc_of_shr_record (SpecFloat.iter_pos shr_1 p mrs)).
Proof.
  induction p as [p IH|p IH|]; intros u mrs Hm Hu; cbn [SpecFloat.iter_pos].
  - destruct (shr_1_ok u mrs Hm Hu) as [H1 H2].
    destruct (IH _ _ H1 H2) as [H3 H4].
    destruct (IH _ _ H3 H4) as [H5 H6].
    split; [exact H5|].
    replace (u * bpow (- Zpos p~1))%R
      with (u * bpow (-1) * bpow (- Zpos p) * bpow (- Zpos p))%R; [exact H6|].
    rewrite !Rmult_assoc, <- !bpow_add. f_equal. f_equal. lia.
  - destruct (IH _ _ Hm Hu) as [H3 H4].
    destruct (IH _ _ H3 H4) as [H5 H6].
    split; [exact H5|].
    replace (u * bpow (- Zpos p~0))%R
      with (u * bpow (- Zpos p) * bpow (- Zpos p))%R; [exact H6|].
    rewrite !Rmult_assoc, <- !bpow_add. f_equal. f_equal. lia.
  - apply shr_1_ok; assumption.
Qed.

Lemma shr_ok x m e l n :
  0 <= m -> Rep x m e l ->
  let r := shr (shr_record_of_loc m l) e n in
  snd r = Z.max e (e + n)
  /\ 0 <= shr_m (fst r)
  /\ Rep x (shr_m (fst r)) (snd r) (loc_of_shr_record (fst r)).
Proof.
  intros Hm Hx. destruct (loc_of_shr_record_of_loc m l) as [El Em].
  unfold shr. destruct n as [|p|p]; cbn [fst snd].
  - rewrite El, Em. split; [lia|]. split; assumption.
  - destruct (iter_shr_ok p (x * bpow (- e)) (shr_record_of_loc m l)) as [H1 H2].
    + rewrite Em. exact Hm.
    + rewrite El, Em. exact Hx.
    + split; [lia|]. split; [exact H1|]. unfold Rep.
      replace (x * bpow (- (e + Zpos p)))%R
        with (x * bpow (- e) * bpow (- Zpos p))%R; [exact H2|].
      rewrite Rmult_assoc, <- bpow_add. f_equal. f_equal. lia.
  - rewrite El, Em. split; [lia|]. split; assumption.
Qed.

Lemma fexp_eq e : SpecFloat.fexp prec emax e = Z.max (e - 53) (-1074).
Proof. reflexivity. Qed.

Lemma shr_fexp_ok x m e l :
  0 <= m -> Rep x m e l ->
  let r := shr_fexp prec emax m e l in
  snd r = Z.max e (Z.max (Zdigits2 m + e - 53) (-1074))
  /\ 0 <= shr_m (fst r)
  /\ Rep x (shr_m (fst r)) (snd r) (loc_of_shr_record (fst r)).
Proof.
  intros Hm Hx. unfold shr_fexp. rewrite fexp_eq.
  destruct (shr_ok x m e l (Z.max (Zdigits2 m + e - 53) (-1074) - e) Hm Hx)
    as (H1 & H2 & H3).
  split; [rewrite H1; lia|]. split; assumption.
Qed.

Lemma rne_bounds M L : M <= round_nearest_even M L <= M + 1.
Proof.
  destruct L as [|[]]; cbn [round_nearest_even]; try lia.
  destruct (Z.even M); lia.
Qed.

(** Rounding to the nearest integer, ties to even, is monotone. *)
Lemma rne_mono u v M L M' L' :
  loc_ok u M L -> loc_ok v M' L' -> (u <= v)%R ->
  round_nearest_even M L <= round_nearest_even M' L'.
Proof.
  intros Hu Hv Huv.
  pose proof (loc_ok_bounds _ _ _ Hu) as Bu.
  pose proof (loc_ok_bounds _ _ _ Hv) as Bv.
  assert (HM : M <= M').
  { assert (IZR M < IZR (M' + 1))%R by (rewrite plus_IZR; lra).
    apply lt_IZR in H. lia. }
  destruct (Z.eq_dec M M') as [<-|Hne].
  - destruct L as [|[]], L' as [|[]]; cbn [round_nearest_even loc_ok] in *;
      try destruct (Z.even M); first [lia | exfalso; lra].
  - pose proof (rne_bounds M L). pose proof (rne_bounds M' L'). lia.
Qed.

Lemma bra_finish sx m e l :
  binary_round_aux prec emax sx m e l
  = finish sx (round_nearest_even (shr_m (fst (shr_fexp prec emax m e l)))
                 (loc_of_shr_record (fst (shr_fexp prec emax m e l))))
           (snd (shr_fexp prec emax m e l)).
Proof.
  unfold binary_round_aux, finish.
  destruct (shr_fexp prec emax m e l) as [mrs' e']. reflexivity.
Qed.

Lemma shr_fexp_exact k E :
  Z.max (Zdigits2 k + E - 53) (-1074) <= E ->
  shr_fexp prec emax k E loc_Exact = (Build_shr_record k false false, E).
Proof.
  intros H. unfold shr_fexp. rewrite fexp_eq. unfold shr.
  destruct (Z.max (Zdigits2 k + E - 53) (-1074) - E) as [|p|p] eqn:En;
    [reflexivity | lia | reflexivity].
Qed.

Lemma finish_zero sx E : -1074 <= E -> finish sx 0 E = S754_zero sx.
Proof.
  intros HE. unfold finish. rewrite shr_fexp_exact; [reflexivity|].
  cbn [Zdigits2]. lia.
Qed.

Lemma finish_small sx k E :
  0 < k < 2 ^ 53 -> -1074 <= E ->
  finish sx k E = if E <=? 971 then S754_finite sx (Z.to_pos k) E
                  else S754_infinity sx.
Proof.
  intros Hk HE. unfold finish. rewrite shr_fexp_exact.
  - cbn [shr_m]. destruct k as [|p|p]; try lia. reflexivity.
  - destruct (Zdigits2_spec k ltac:(lia)) as (H0 & H1 & H2).
    destruct (H2 ltac:(lia)) as [H3 H4].
    assert (Zdigits2 k <= 53); [|lia].
    destruct (Z_le_gt_dec (Zdigits2 k) 53) as [|Hgt]; [assumption|].
    assert (2 ^ 53 <= 2 ^ (Zdigits2 k - 1)) by (apply Z.pow_le_mono_r; lia).
    lia.
Qed.

Lemma finish_top sx E :
  -1074 <= E ->
  finish sx (2 ^ 53) E = if E + 1 <=? 971
                         then S754_finite sx (Z.to_pos (2 ^ 52)) (E + 1)
                         else S754_infinity sx.
Proof.
  intros HE. unfold finish, shr_fexp. rewrite fexp_eq.
  change (Zdigits2 (2 ^ 53)) with 54.
  replace (Z.max (54 + E - 53) (-1074) - E) with 1 by lia.
  reflexivity.
Qed.

(** The double that ends a rounding, by the integer [k] and the exponent
    [E] the rounding has reached. *)
Lemma finish_cases sx k E :
  canon k E ->
  (k = 0 /\ finish sx k E = S754_zero sx)
  \/ exists m e,
       0 < m < 2 ^ 53 /\ -1074 <= e /\ (-1074 < e -> 2 ^ 52 <= m)
       /\ (IZR m * bpow e = IZR k * bpow E)%R
       /\ (e = E /\ m = k \/ e = E + 1 /\ k = 2 ^ 53 /\ m = 2 ^ 52)
       /\ finish sx k E = if e <=? 971 then S754_finite sx (Z.to_pos m) e
                          else S754_infinity sx.
Proof.
  intros ([Hk0 Hk1] & HE & Hn).
  destruct (Z.eq_dec k 0) as [->|Hne].
  { left. split; [reflexivity | apply finish_zero; exact HE]. }
  right. destruct (Z.eq_dec k (2 ^ 53)) as [->|Hne'].
  - exists (2 ^ 52), (E + 1). rewrite finish_top by exact HE.
    split; [lia|]. split; [lia|]. split; [lia|]. split; [|split; [right; auto|reflexivity]].
    rewrite bpow_add, bpow_1.
    change (2 ^ 53) with (2 ^ 52 * 2). rewrite mult_IZR. lra.
  - exists k, E. rewrite finish_small by lia.
    split; [lia|]. split; [lia|]. split; [exact Hn|].
    split; [reflexivity|]. split; [left; auto | reflexivity].
Qed.

Lemma SFleb_finite_pos m1 e1 m2 e2 :
  0 < m1 -> 0 < m2 -> lex_le m1 e1 m2 e2 ->
  SFleb (S754_finite false (Z.to_pos m1) e1) (S754_finite false (Z.to_pos m2) e2) = true.
Proof.
  intros H1 H2 Hl. unfold SFleb, SFcompare.
  destruct Hl as [Hl|[-> Hl]].
  - apply Z.compare_lt_iff in Hl. rewrite Hl. reflexivity.
  - rewrite Z.compare_refl.
    change (Pos.compare_cont Eq (Z.to_pos m1) (Z.to_pos m2))
      with (Pos.compare (Z.to_pos m1) (Z.to_pos m2)).
    destruct (Pos.compare_spec (Z.to_pos m1) (Z.to_pos m2)) as [?|?|Hgt];
      try reflexivity.
    apply Pos2Z.pos_lt_pos in Hgt. rewrite !Z2Pos.id in Hgt by assumption. lia.
Qed.

Lemma SFleb_finite_neg m1 e1 m2 e2 :
  0 < m1 -> 0 < m2 -> lex_le m1 e1 m2 e2 ->
  SFleb (S754_finite true (Z.to_pos m2) e2) (S754_finite true (Z.to_pos m1) e1) = true.
Proof.
  intros H1 H2 Hl. unfold SFleb, SFcompare.
  destruct Hl as [Hl|[-> Hl]].
  - apply Z.compare_gt_iff in Hl. rewrite Hl. reflexivity.
  - rewrite Z.compare_refl.
    change (Pos.compare_cont Eq (Z.to_pos m2) (Z.to_pos m1))
      with (Pos.compare (Z.to_pos m2) (Z.to_pos m1)).
    destruct (Pos.compare_spec (Z.to_pos m2) (Z.to_pos m1)) as [?|Hlt|?];
      try reflexivity.
    apply Pos2Z.pos_lt_pos in Hlt. rewrite !Z2Pos.id in Hlt by assumption. lia.
Qed.

(** The order of the doubles that end two roundings is the order of their
    exponents, and of their integers at the same exponent; with the sign
    [sx] set it is the reverse order. *)
Lemma finish_leb (sx : bool) k1 E1 k2 E2 :
  canon k1 E1 -> canon k2 E2 -> lex_le k1 E1 k2 E2 ->
  (if sx then SFleb (finish true k2 E2) (finish true k1 E1)
   else SFleb (finish false k1 E1) (finish false k2 E2)) = true.
Proof.
  intros C1 C2 Hl.
  assert (Hk2 : k1 <> 0 -> k2 <> 0).
  { destruct C1 as ([? ?] & ? & ?), C2 as ([? ?] & ? & ?).
    destruct Hl as [Hl|[-> Hl]]; lia. }
  destruct (finish_cases sx k1 E1 C1) as [[-> F1]|(m1 & e1 & M1 & Ee1 & N1 & _ & S1 & F1)].
  - destruct (finish_cases sx k2 E2 C2) as [[-> F2]|(m2 & e2 & M2 & Ee2 & N2 & _ & S2 & F2)].
    + destruct sx; rewrite (finish_zero _ E1), (finish_zero _ E2);
        try reflexivity; destruct C1 as (_ & ? & _), C2 as (_ & ? & _); assumption.
    + destruct sx.
      * rewrite F2, F1. destruct (e2 <=? 971); reflexivity.
      * rewrite F2, F1. destruct (e2 <=? 971); reflexivity.
  - destruct (finish_cases sx k2 E2 C2) as [[-> F2]|(m2 & e2 & M2 & Ee2 & N2 & _ & S2 & F2)].
    { exfalso. apply Hk2; [|reflexivity].
      destruct S1 as [[_ <-]|(_ & -> & _)]; lia. }
    assert (Hm : lex_le m1 e1 m2 e2).
    { destruct C1 as ([? ?] & ? & ?), C2 as ([? ?] & ? & ?).
      unfold lex_le in *.
      destruct S1 as [[-> ->]|(-> & -> & ->)], S2 as [[-> ->]|(-> & -> & ->)];
        destruct Hl as [Hl|[? Hl]]; subst; lia. }
    destruct sx; rewrite F1, F2.
    + destruct (e1 <=? 971) eqn:L1, (e2 <=? 971) eqn:L2; try reflexivity.
      * apply SFleb_finite_neg; [lia | lia | exact Hm].
      * destruct Hm as [Hm|[-> Hm]]; lia.
    + destruct (e1 <=? 971) eqn:L1, (e2 <=? 971) eqn:L2; try reflexivity.
      * apply SFleb_finite_pos; [lia | lia | exact Hm].
      * destruct Hm as [Hm|[-> Hm]]; lia.
Qed.

Lemma Rep_scale x m e l :
  Rep x m e l -> (IZR m * bpow e <= x < (IZR m + 1) * bpow e)%R.
Proof.
  intros H%loc_ok_bounds.
  pose proof (bpow_pos e). pose proof (bpow_opp e).
  set (u := (x * bpow (- e))%R) in *.
  assert (Hx : x = (u * bpow e)%R) by (unfold u; rewrite Rmult_assoc, H1; lra).
  rewrite Hx. split; [apply Rmult_le_compat_r | apply Rmult_lt_compat_r]; lra.
Qed.

(** A real number located at [m] with the exponent [e]: its magnitude. *)
Lemma Rep_mag x m e l :
  0 <= m -> Rep x m e l ->
  (0 <= x < bpow (Zdigits2 m + e))%R
  /\ (0 < m -> (bpow (Zdigits2 m + e - 1) <= x)%R).
Proof.
  intros Hm Hx. apply Rep_scale in Hx.
  destruct (Zdigits2_spec m Hm) as (H0 & H1 & H2).
  pose proof (bpow_pos e) as He.
  assert (Hm0 : (0 <= IZR m)%R) by (apply IZR_le; exact Hm).
  assert (Hm1 : (IZR m + 1 <= bpow (Zdigits2 m))%R).
  { rewrite bpow_IZR by exact H0. rewrite <- plus_IZR. apply IZR_le. lia. }
  split; [split|].
  - nra.
  - rewrite bpow_add. nra.
  - intros Hpos. destruct (H2 Hpos) as [H3 H4].
    replace (Zdigits2 m + e - 1) with (Zdigits2 m - 1 + e) by lia.
    rewrite bpow_add, bpow_IZR by lia.
    apply IZR_le in H4. nra.
Qed.

(** The first phase of a rounding: the exponent it reaches and the integer
    it leaves. *)
Lemma phase1 x m e l :
  0 <= m -> Rep x m e l ->
  e <= Z.max (Zdigits2 m + e - 53) (-1074) ->
  let mu := Zdigits2 m + e in
  let E := Z.max (mu - 53) (-1074) in
  let M := shr_m (fst (shr_fexp prec emax m e l)) in
  let L := loc_of_shr_record (fst (shr_fexp prec emax m e l)) in
  snd (shr_fexp prec emax m e l) = E
  /\ Rep x M E L
  /\ canon (round_nearest_even M L) E
  /\ (x < bpow mu)%R
  /\ (-1074 < E -> (bpow (mu - 1) <= x)%R).
Proof.
  intros Hm Hx Hpre mu E M L.
  destruct (shr_fexp_ok x m e l Hm Hx) as (H1 & H2 & H3).
  fold M in H2, H3. fold L in H3.
  assert (HE : snd (shr_fexp prec emax m e l) = E) by (rewrite H1; unfold E, mu; lia).
  rewrite HE in H3.
  destruct (Rep_mag x m e l Hm Hx) as ([Hx0 Hx1] & Hx2). fold mu in Hx1, Hx2.
  assert (Hlow : -1074 < E -> (bpow (mu - 1) <= x)%R).
  { intros HE'. apply Hx2. destruct (Z.eq_dec m 0) as [->|]; [|lia].
    cbn [Zdigits2] in *. unfold E, mu in HE'. lia. }
  split; [exact HE|]. split; [exact H3|]. split; [|split; assumption].
  pose proof (rne_bounds M L) as Hk.
  pose proof (Rep_scale _ _ _ _ H3) as [Hs0 Hs1].
  pose proof (bpow_pos E) as HbE.
  assert (HM : M < 2 ^ 53).
  { apply lt_IZR. rewrite <- bpow_IZR by lia.
    assert (bpow mu <= bpow (53 + E))%R by (apply bpow_le; unfold E; lia).
    rewrite bpow_add in H. nra. }
  split; [lia|]. split; [unfold E; lia|].
  intros HE'. specialize (Hlow HE').
  assert (2 ^ 52 < M + 1); [|lia].
  apply lt_IZR. rewrite <- bpow_IZR, plus_IZR by lia.
  assert (bpow (52 + E) <= bpow (mu - 1))%R by (apply bpow_le; unfold E in *; lia).
  rewrite bpow_add in H. nra.
Qed.

(** Rounding to a double is monotone: of two real numbers that are not
    negative, the smaller is rounded to the smaller double; under the sign
    [sx] the order is reversed. *)
Lemma bra_mono (sx : bool) x y m1 e1 l1 m2 e2 l2 :
  0 <= m1 -> 0 <= m2 ->
  Rep x m1 e1 l1 -> Rep y m2 e2 l2 ->
  e1 <= Z.max (Zdigits2 m1 + e1 - 53) (-1074) ->
  e2 <= Z.max (Zdigits2 m2 + e2 - 53) (-1074) ->
  (x <= y)%R ->
  (if sx then SFleb (binary_round_aux prec emax true m2 e2 l2)
                    (binary_round_aux prec emax true m1 e1 l1)
   else SFleb (binary_round_aux prec emax false m1 e1 l1)
              (binary_round_aux prec emax false m2 e2 l2)) = true.
Proof.
  intros Hm1 Hm2 Hx Hy P1 P2 Hxy.
  destruct (phase1 x m1 e1 l1 Hm1 Hx P1) as (E1 & R1 & C1 & U1 & L1).
  destruct (phase1 y m2 e2 l2 Hm2 Hy P2) as (E2 & R2 & C2 & U2 & L2).
  rewrite !bra_finish, E1, E2.
  apply finish_leb; [exact C1 | exact C2 |].
  set (mu1 := Zdigits2 m1 + e1) in *. set (mu2 := Zdigits2 m2 + e2) in *.
  unfold lex_le.
  destruct (Z_lt_le_dec (Z.max (mu1 - 53) (-1074)) (Z.max (mu2 - 53) (-1074)))
    as [Hlt|Hge]; [left; exact Hlt|].
  destruct (Z.eq_dec (Z.max (mu1 - 53) (-1074)) (Z.max (mu2 - 53) (-1074)))
    as [Heq|Hne].
  - right. split; [exact Heq|].
    rewrite <- Heq in R2.
    apply (rne_mono _ _ _ _ _ _ R1 R2).
    apply Rmult_le_compat_r; [|exact Hxy].
    pose proof (bpow_pos (- Z.max (mu1 - 53) (-1074))). lra.
  - exfalso.
    assert (Hmu : mu2 <= mu1 - 1) by lia.
    specialize (L1 ltac:(lia)).
    apply bpow_le in Hmu. lra.
Qed.

Lemma finish_signed sx k E : canon k E -> signed sx (finish sx k E).
Proof.
  intros C.
  destruct (finish_cases sx k E C) as [[_ ->]|(m & e & _ & _ & _ & _ & _ & ->)];
    [reflexivity|].
  destruct (e <=? 971); reflexivity.
Qed.

Lemma bra_signed sx x m e l :
  0 <= m -> Rep x m e l ->
  e <= Z.max (Zdigits2 m + e - 53) (-1074) ->
  signed sx (binary_round_aux prec emax sx m e l).
Proof.
  intros Hm Hx P.
  destruct (phase1 x m e l Hm Hx P) as (E1 & _ & C1 & _).
  rewrite bra_finish, E1. apply finish_signed. exact C1.
Qed.

Lemma SFleb_signs a b : signed true a -> signed false b -> SFleb a b = true.
Proof.
  destruct a as [[]|[]| |[] ? ?], b as [[]|[]| |[] ? ?]; simpl;
    intros; try discriminate; try contradiction; reflexivity.
Qed.

Lemma SFleb_zero_pos s b : signed false b -> SFleb (S754_zero s) b = true.
Proof.
  destruct b as [[]|[]| |[] ? ?]; simpl; intros; try discriminate;
    try contradiction; reflexivity.
Qed.

Lemma SFleb_neg_zero a s : signed true a -> SFleb a (S754_zero s) = true.
Proof.
  destruct a as [[]|[]| |[] ? ?]; simpl; intros; try discriminate;
    try contradiction; reflexivity.
Qed.

(** *** Division *)

Lemma new_location_ok q r d :
  0 < d -> 0 <= r < d ->
  loc_ok (IZR q + IZR r / IZR d) q (new_location d r).
Proof.
  intros Hd Hr.
  assert (Hd' : (0 < IZR d)%R) by (apply IZR_lt; exact Hd).
  set (t := (IZR r / IZR d)%R).
  assert (Ht : (t * IZR d = IZR r)%R) by (unfold t; field; lra).
  assert (Hhalf : forall c, Z.compare (2 * r) d = c ->
            match c with
            | Lt => (2 * t < 1)%R
            | Eq => (2 * t = 1)%R
            | Gt => (1 < 2 * t)%R
            end).
  { intros c <-. destruct (Z.compare_spec (2 * r) d) as [H|H|H].
    - apply (f_equal IZR) in H. rewrite mult_IZR in H. nra.
    - apply IZR_lt in H. rewrite mult_IZR in H. nra.
    - apply IZR_lt in H. rewrite mult_IZR in H. nra. }
  assert (Hlt1 : (t < 1)%R).
  { assert (IZR r < IZR d)%R by (apply IZR_lt; lia). nra. }
  clearbody t.
  assert (Hzero : r = 0 -> t = 0%R).
  { intros E. rewrite E in Ht. nra. }
  assert (Hpos : r <> 0 -> (0 < t)%R).
  { intros Hne. assert (0 < IZR r)%R by (apply IZR_lt; lia). nra. }
  unfold new_location.
  destruct (Z.even d) eqn:Ev.
  - unfold new_location_even. destruct (Z.eqb_spec r 0) as [Hz|Hne].
    + cbn [loc_ok]. rewrite (Hzero Hz). lra.
    + specialize (Hpos Hne). specialize (Hhalf _ eq_refl). revert Hhalf.
      destruct (2 * r ?= d); cbn [loc_ok]; intros Hhalf; lra.
  - unfold new_location_odd. destruct (Z.eqb_spec r 0) as [Hz|Hne].
    + cbn [loc_ok]. rewrite (Hzero Hz). lra.
    + specialize (Hpos Hne). specialize (Hhalf _ eq_refl).
      assert (Hodd : 2 * r <> d).
      { intros <-. rewrite Z.even_mul in Ev. discriminate. }
      revert Hhalf.
      destruct (Z.compare_spec (2 * r + 1) d) as [H|H|H];
        destruct (Z.compare_spec (2 * r) d) as [H'|H'|H']; try lia;
        cbn [loc_ok]; intros Hhalf; lra.
Qed.

(** The quotient of two positive numbers, as the division leaves it for
    the rounding. *)
Lemma div_core_rep mx ex my ey :
  let x := (IZR (Zpos mx) * bpow ex / (IZR (Zpos my) * bpow ey))%R in
  let r := SFdiv_core_binary prec emax (Zpos mx) ex (Zpos my) ey in
  let q := fst (fst r) in
  let e' := snd (fst r) in
  0 <= q /\ Rep x q e' (snd r)
  /\ e' <= Z.max (Zdigits2 q + e' - 53) (-1074).
Proof.
  intros x r q e'.
  set (d1 := Zdigits2 (Zpos mx)). set (d2 := Zdigits2 (Zpos my)).
  set (E := Z.min (Z.max (d1 + ex - (d2 + ey) - 53) (-1074)) (ex - ey)).
  set (s := ex - ey - E).
  assert (Hs : 0 <= s) by (unfold s, E; lia).
  set (m' := Zpos mx * 2 ^ s).
  assert (Hr : r = (m' / Zpos my, E, new_location (Zpos my) (m' mod Zpos my))).
  { unfold r, SFdiv_core_binary. rewrite fexp_eq. fold d1 d2 E s.
    assert (Hm' : match s with
                  | Z0 => Zpos mx
                  | Zpos _ => Z.shiftl (Zpos mx) s
                  | Zneg _ => 0
                  end = m').
    { unfold m'. destruct s as [|p|p] eqn:Es; [lia | | lia].
      rewrite Z.shiftl_mul_pow2 by lia. reflexivity. }
    rewrite Hm'. unfold Z.div, Z.modulo.
    destruct (Z.div_eucl m' (Zpos my)) as [q0 r0]. reflexivity. }
  unfold q, e'. rewrite Hr. cbn [fst snd].
  assert (Hm'0 : 0 < m').
  { unfold m'. pose proof (Z.pow_pos_nonneg 2 s). lia. }
  pose proof (Z.div_mod m' (Zpos my) ltac:(lia)) as Hdm.
  pose proof (Z.mod_pos_bound m' (Zpos my) ltac:(lia)) as Hmod.
  assert (Hq0 : 0 <= m' / Zpos my) by (apply Z.div_pos; lia).
  pose proof (bpow_pos ex) as Hbx. pose proof (bpow_pos ey) as Hby.
  pose proof (bpow_pos E) as HbE.
  assert (Hmy : (0 < IZR (Zpos my))%R) by (apply IZR_lt; lia).
  assert (Hmx : (0 < IZR (Zpos mx))%R) by (apply IZR_lt; lia).
  assert (Hu : (x * bpow (- E)
                = IZR (m' / Zpos my) + IZR (m' mod Zpos my) / IZR (Zpos my))%R).
  { assert (Hm'R : IZR m' = (IZR (m' / Zpos my) * IZR (Zpos my)
                             + IZR (m' mod Zpos my))%R).
    { rewrite Hdm at 1. rewrite plus_IZR, mult_IZR. ring. }
    replace (IZR (m' / Z.pos my) + IZR (m' mod Z.pos my) / IZR (Z.pos my))%R
      with (IZR m' / IZR (Zpos my))%R by (rewrite Hm'R; field; lra).
    unfold m'. rewrite mult_IZR, <- bpow_IZR by exact Hs.
    unfold x, s.
    replace (ex - ey - E) with (ex + (- ey + - E)) by lia.
    rewrite !bpow_add.
    pose proof (bpow_opp ey) as Hoy.
    field_simplify_eq; [|split; lra].
    transitivity (IZR (Zpos mx) * bpow ex * bpow (- E) * (bpow (- ey) * bpow ey))%R;
      [rewrite Hoy; ring | ring]. }
  assert (HRep : Rep x (m' / Zpos my) E (new_location (Zpos my) (m' mod Zpos my))).
  { unfold Rep. rewrite Hu. apply new_location_ok; lia. }
  split; [exact Hq0|]. split; [exact HRep|].
  (* the exponent is small enough for the quotient *)
  destruct (Rep_mag _ _ _ _ Hq0 HRep) as ([_ Hx1] & _).
  destruct (Zdigits2_spec (Zpos mx) ltac:(lia)) as (_ & _ & H1).
  destruct (H1 ltac:(lia)) as [_ Hlo1]. fold d1 in Hlo1.
  destruct (Zdigits2_spec (Zpos my) ltac:(lia)) as (Hd2 & Hhi2 & _). fold d2 in Hd2, Hhi2.
  assert (Hxlow : (bpow (d1 + ex - (d2 + ey) - 1) < x)%R).
  { unfold x.
    replace (d1 + ex - (d2 + ey) - 1) with ((d1 - 1) + ex + (- d2 + - ey)) by lia.
    rewrite !bpow_add.
    apply IZR_le in Hlo1. apply IZR_lt in Hhi2.
    rewrite <- bpow_IZR in Hlo1, Hhi2 by lia.
    pose proof (bpow_opp ey) as Hoy. pose proof (bpow_opp d2) as Hod.
    pose proof (bpow_pos (- ey)). pose proof (bpow_pos (- d2)).
    pose proof (bpow_pos (d1 - 1)). pose proof (bpow_pos d2).
    apply Rmult_lt_reg_r with (IZR (Zpos my) * bpow ey)%R; [nra|].
    replace (IZR (Z.pos mx) * bpow ex / (IZR (Z.pos my) * bpow ey)
             * (IZR (Z.pos my) * bpow ey))%R
      with (IZR (Zpos mx) * bpow ex)%R by (field; lra).
    replace (bpow (d1 - 1) * bpow ex * (bpow (- d2) * bpow (- ey))
             * (IZR (Z.pos my) * bpow ey))%R
      with (bpow (d1 - 1) * bpow ex * (bpow (- d2) * IZR (Zpos my))
            * (bpow (- ey) * bpow ey))%R by ring.
    rewrite Hoy, Rmult_1_r.
    assert (bpow (- d2) * IZR (Zpos my) < 1)%R by nra.
    assert (0 < bpow (d1 - 1) * bpow ex)%R by nra.
    nra. }
  assert (Hmag : d1 + ex - (d2 + ey) - 1 < Zdigits2 (m' / Zpos my) + E).
  { apply bpow_lt_inv. lra. }
  unfold E in *. lia.
Qed.

(** Division by a positive double is monotone on positive doubles. *)
Lemma SFdiv_mono m1 e1 m2 e2 mf ef :
  (IZR (Zpos m1) * bpow e1 <= IZR (Zpos m2) * bpow e2)%R ->
  SFleb (SFdiv prec emax (S754_finite false m1 e1) (S754_finite false mf ef))
        (SFdiv prec emax (S754_finite false m2 e2) (S754_finite false mf ef)) = true.
Proof.
  intros Hle. cbn [SFdiv xorb].
  destruct (div_core_rep m1 e1 mf ef) as (Q1 & R1 & P1).
  destruct (div_core_rep m2 e2 mf ef) as (Q2 & R2 & P2).
  destruct (SFdiv_core_binary prec emax (Zpos m1) e1 (Zpos mf) ef) as [[q1 E1] l1].
  destruct (SFdiv_core_binary prec emax (Zpos m2) e2 (Zpos mf) ef) as [[q2 E2] l2].
  cbn [fst snd] in *.
  apply (bra_mono false _ _ _ _ _ _ _ _ Q1 Q2 R1 R2 P1 P2).
  assert (0 < IZR (Zpos mf) * bpow ef)%R.
  { pose proof (bpow_pos ef). assert (0 < IZR (Zpos mf))%R by (apply IZR_lt; lia). nra. }
  unfold Rdiv. apply Rmult_le_compat_r; [|exact Hle].
  apply Rlt_le, Rinv_0_lt_compat. assumption.
Qed.

Lemma SFdiv_signed m1 e1 mf ef :
  signed false (SFdiv prec emax (S754_finite false m1 e1) (S754_finite false mf ef)).
Proof.
  cbn [SFdiv xorb].
  destruct (div_core_rep m1 e1 mf ef) as (Q1 & R1 & P1).
  destruct (SFdiv_core_binary prec emax (Zpos m1) e1 (Zpos mf) ef) as [[q1 E1] l1].
  cbn [fst snd] in *.
  exact (bra_signed false _ _ _ _ Q1 R1 P1).
Qed.

(** *** Addition *)

Lemma iter_xO_spec d : forall m,
  Zpos (Pos.iter xO m d) = Zpos m * 2 ^ Zpos d
  /\ Zpos (digits2_pos (Pos.iter xO m d)) = Zpos (digits2_pos m) + Zpos d.
Proof.
  induction d as [|d IH] using Pos.peano_ind; intros m.
  - cbn [Pos.iter digits2_pos]. rewrite Pos2Z.inj_succ. split; lia.
  - rewrite Pos.iter_succ. cbn [digits2_pos].
    destruct (IH m) as [H1 H2].
    rewrite (Pos2Z.inj_xO (Pos.iter xO m d)), H1, !Pos2Z.inj_succ, H2.
    rewrite Z.pow_succ_r by lia. split; lia.
Qed.

Lemma shl_align_spec mx ex ex' :
  let r := shl_align mx ex ex' in
  snd r = Z.min ex ex'
  /\ Zpos (fst r) = Zpos mx * 2 ^ (ex - snd r)
  /\ Zdigits2 (Zpos (fst r)) + snd r = Zdigits2 (Zpos mx) + ex.
Proof.
  unfold shl_align. destruct (ex' - ex) as [|d|d] eqn:Ed; cbn [fst snd Zdigits2].
  - replace (ex - ex) with 0 by lia. split; lia.
  - replace (ex - ex) with 0 by lia. split; lia.
  - destruct (iter_xO_spec d mx) as [H1 H2].
    replace (ex - ex') with (Zpos d) by lia. split; lia.
Qed.

Lemma IZR_scaled m e e' :
  e' <= e -> (IZR (m * 2 ^ (e - e')) * bpow e' = IZR m * bpow e)%R.
Proof.
  intros H. rewrite mult_IZR, <- bpow_IZR by lia.
  rewrite Rmult_assoc, <- bpow_add. f_equal. f_equal. lia.
Qed.

(** A positive integer times a power of two, as [binary_round] leaves it
    for the rounding. *)
Lemma binary_round_rep sx mx ex :
  exists mz ez,
    binary_round prec emax sx mx ex
    = binary_round_aux prec emax sx (Zpos mz) ez loc_Exact
    /\ Rep (IZR (Zpos mx) * bpow ex) (Zpos mz) ez loc_Exact
    /\ ez <= Z.max (Zdigits2 (Zpos mz) + ez - 53) (-1074).
Proof.
  unfold binary_round. rewrite fexp_eq.
  pose proof (shl_align_spec mx ex (Z.max (Zpos (digits2_pos mx) + ex - 53) (-1074)))
    as (H1 & H2 & H3).
  destruct (shl_align mx ex _) as [mz ez]. cbn [fst snd] in *.
  exists mz, ez. split; [reflexivity|]. split.
  - unfold Rep. cbn [loc_ok]. rewrite H2.
    rewrite <- (IZR_scaled (Zpos mx) ex ez) by lia.
    rewrite Rmult_assoc. pose proof (bpow_opp ez) as Ho.
    rewrite Rmult_comm in Ho. rewrite Ho. ring.
  - rewrite H3. cbn [Zdigits2]. lia.
Qed.

Lemma binary_round_mono (sx : bool) m1 e1 m2 e2 :
  (IZR (Zpos m1) * bpow e1 <= IZR (Zpos m2) * bpow e2)%R ->
  (if sx then SFleb (binary_round prec emax true m2 e2)
                    (binary_round prec emax true m1 e1)
   else SFleb (binary_round prec emax false m1 e1)
              (binary_round prec emax false m2 e2)) = true.
Proof.
  intros Hle.
  destruct (binary_round_rep true m1 e1) as (a1 & z1 & T1 & R1 & P1).
  destruct (binary_round_rep true m2 e2) as (a2 & z2 & T2 & R2 & P2).
  destruct (binary_round_rep false m1 e1) as (b1 & y1 & F1 & R1' & P1').
  destruct (binary_round_rep false m2 e2) as (b2 & y2 & F2 & R2' & P2').
  destruct sx.
  - rewrite T1, T2.
    exact (bra_mono true _ _ _ _ _ _ _ _ (Pos2Z.is_nonneg a1) (Pos2Z.is_nonneg a2)
             R1 R2 P1 P2 Hle).
  - rewrite F1, F2.
    exact (bra_mono false _ _ _ _ _ _ _ _ (Pos2Z.is_nonneg b1) (Pos2Z.is_nonneg b2)
             R1' R2' P1' P2' Hle).
Qed.

Lemma binary_round_signed sx m e : signed sx (binary_round prec emax sx m e).
Proof.
  destruct (binary_round_rep sx m e) as (a & z & -> & R1 & P1).
  exact (bra_signed sx _ _ _ _ (Pos2Z.is_nonneg a) R1 P1).
Qed.

(** Rounding an integer times a power of two to a double is monotone. *)
Lemma binary_normalize_mono S1 z1 S2 z2 :
  (IZR S1 * bpow z1 <= IZR S2 * bpow z2)%R ->
  SFleb (binary_normalize prec emax S1 z1 false)
        (binary_normalize prec emax S2 z2 false) = true.
Proof.
  intros Hle.
  pose proof (bpow_pos z1) as B1. pose proof (bpow_pos z2) as B2.
  assert (Hp : forall p, (0 < IZR (Zpos p))%R) by (intros p; apply IZR_lt; lia).
  assert (Hn : forall p, IZR (Zneg p) = (- IZR (Zpos p))%R).
  { intros p. rewrite <- opp_IZR. reflexivity. }
  destruct S1 as [|p1|p1], S2 as [|p2|p2]; cbn [binary_normalize].
  - reflexivity.
  - apply SFleb_zero_pos, binary_round_signed.
  - exfalso. rewrite Hn in Hle. specialize (Hp p2). nra.
  - exfalso. specialize (Hp p1). nra.
  - exact (binary_round_mono false _ _ _ _ Hle).
  - exfalso. rewrite Hn in Hle. pose proof (Hp p1). pose proof (Hp p2). nra.
  - apply SFleb_neg_zero, binary_round_signed.
  - apply SFleb_signs; apply binary_round_signed.
  - apply (binary_round_mono true p2 z2 p1 z1). rewrite !Hn in Hle. lra.
Qed.

Lemma valid_finite s m e :
  valid_binary (S754_finite s m e) = true ->
  Z.max (Zpos (digits2_pos m) + e - 53) (-1074) = e /\ e <= 971.
Proof.
  cbn [SpecFloat.valid_binary]. unfold bounded, canonical_mantissa.
  rewrite fexp_eq. intros H. apply andb_true_iff in H. destruct H as [H1 H2].
  apply Z.eqb_eq in H1. apply Z.leb_le in H2. change (emax - prec) with 971 in H2.
  split; assumption.
Qed.

(** A double is its own rounding. *)
Lemma binary_normalize_valid s m e :
  valid_binary (S754_finite s m e) = true ->
  binary_normalize prec emax (cond_Zopp s (Zpos m)) e false = S754_finite s m e.
Proof.
  intros [Hc Hb]%valid_finite.
  assert (Hr : binary_round prec emax s m e = S754_finite s m e).
  { unfold binary_round. rewrite fexp_eq, Hc.
    unfold shl_align. rewrite Z.sub_diag.
    rewrite bra_finish, shr_fexp_exact by (cbn [Zdigits2]; lia).
    cbn [fst snd shr_m loc_of_shr_record round_nearest_even].
    unfold finish. rewrite shr_fexp_exact by (cbn [Zdigits2]; lia).
    cbn [shr_m]. change (emax - prec) with 971.
    destruct (e <=? 971) eqn:E; [reflexivity | lia]. }
  destruct s; cbn [cond_Zopp Z.opp binary_normalize]; exact Hr.
Qed.

Lemma SF2R_cond_Zopp s m e :
  (IZR (cond_Zopp s (Zpos m)) * bpow e)%R = SF2R (S754_finite s m e).
Proof. reflexivity. Qed.

(** The sum of two finite doubles is the rounding of the sum of their
    values. *)
Lemma SFadd_finite sx mx ex sy my ey :
  exists S,
    SFadd prec emax (S754_finite sx mx ex) (S754_finite sy my ey)
    = binary_normalize prec emax S (Z.min ex ey) false
    /\ (IZR S * bpow (Z.min ex ey)
        = SF2R (S754_finite sx mx ex) + SF2R (S754_finite sy my ey))%R.
Proof.
  eexists. split; [reflexivity|].
  set (ez := Z.min ex ey).
  destruct (shl_align_spec mx ex ez) as (X1 & X2 & _).
  destruct (shl_align_spec my ey ez) as (Y1 & Y2 & _).
  rewrite X2, Y2, X1, Y1.
  replace (Z.min ex ez) with ez by (unfold ez; lia).
  replace (Z.min ey ez) with ez by (unfold ez; lia).
  rewrite plus_IZR, Rmult_plus_distr_r. cbn [SF2R]. f_equal.
  - destruct sx; cbn [cond_Zopp]; rewrite ?opp_IZR, ?Ropp_mult_distr_l_reverse;
      [f_equal|]; apply IZR_scaled; unfold ez; lia.
  - destruct sy; cbn [cond_Zopp]; rewrite ?opp_IZR, ?Ropp_mult_distr_l_reverse;
      [f_equal|]; apply IZR_scaled; unfold ez; lia.
Qed.

(** The order of two positive doubles is the order of their values. *)
Lemma SFleb_value m1 e1 m2 e2 :
  valid_binary (S754_finite false m1 e1) = true ->
  valid_binary (S754_finite false m2 e2) = true ->
  SFleb (S754_finite false m1 e1) (S754_finite false m2 e2) = true ->
  (SF2R (S754_finite false m1 e1) <= SF2R (S754_finite false m2 e2))%R.
Proof.
  intros [C1 _]%valid_finite [C2 _]%valid_finite. cbn [SF2R cond_Zopp].
  unfold SFleb, SFcompare.
  pose proof (digits2_pos_spec m1) as [L1 U1].
  pose proof (digits2_pos_spec m2) as [L2 U2].
  set (d1 := Zpos (digits2_pos m1)) in *. set (d2 := Zpos (digits2_pos m2)) in *.
  assert (Hd1 : 1 <= d1) by (unfold d1; lia).
  assert (Hd2 : 1 <= d2) by (unfold d2; lia).
  apply IZR_lt in U1. apply IZR_le in L2.
  rewrite <- bpow_IZR in U1, L2 by lia.
  pose proof (bpow_pos e1). pose proof (bpow_pos e2).
  destruct (Z.compare_spec e1 e2) as [->|Hlt|Hgt].
  - change (Pos.compare_cont Eq m1 m2) with (Pos.compare m1 m2).
    destruct (Pos.compare_spec m1 m2) as [->|Hm|Hm]; try discriminate; intros _.
    + lra.
    + apply Pos2Z.pos_lt_pos, IZR_lt in Hm. nra.
  - intros _.
    assert (Hmu : d1 + e1 <= d2 - 1 + e2) by lia.
    apply bpow_le in Hmu. rewrite !bpow_add in Hmu. nra.
  - discriminate.
Qed.

Lemma SFleb_refl_finite s m e :
  SFleb (S754_finite s m e) (S754_finite s m e) = true.
Proof.
  unfold SFleb, SFcompare. rewrite Z.compare_refl.
  change (Pos.compare_cont Eq m m) with (Pos.compare m m).
  rewrite Pos.compare_refl. destruct s; reflexivity.
Qed.

Lemma SFleb_infinity a : signed false a \/ finite_or_zero a ->
  SFleb a (S754_infinity false) = true.
Proof.
  destruct a as [[]|[]| |[] ? ?]; simpl; intros [H|H]; try discriminate;
    try contradiction; reflexivity.
Qed.

Lemma binary_normalize_finite S z :
  SFleb (binary_normalize prec emax S z false) (S754_infinity false) = true.
Proof.
  destruct S as [|p|p]; cbn [binary_normalize]; [reflexivity| |].
  - apply SFleb_infinity. left. apply binary_round_signed.
  - pose proof (binary_round_signed true p z) as H.
    destruct (binary_round prec emax true p z) as [[]|[]| |[] ? ?];
      simpl in H; try discriminate; try contradiction; reflexivity.
Qed.

(** Adding to a finite double is monotone on doubles that are not
    negative. *)
Lemma SFadd_mono T A B :
  valid_binary T = true -> valid_binary A = true -> valid_binary B = true ->
  finite_or_zero T -> signed false A -> signed false B ->
  SFleb A B = true ->
  SFleb (SFadd prec emax T A) (SFadd prec emax T B) = true.
Proof.
  intros VT VA VB FT SA SB Hle.
  destruct T as [st|st| |st mt et]; try contradiction.
  - (* a zero: the sum is the other summand, or a zero *)
    destruct A as [[]|[]| |[] ma ea]; simpl in SA; try discriminate; try contradiction;
      destruct B as [[]|[]| |[] mb eb]; simpl in SB; try discriminate;
        try contradiction; destruct st; try exact Hle; reflexivity.
  - destruct A as [[]|[]| |[] ma ea]; simpl in SA; try discriminate; try contradiction;
      destruct B as [[]|[]| |[] mb eb]; simpl in SB; try discriminate;
        try contradiction; try discriminate Hle.
    + apply SFleb_refl_finite.
    + cbn [SFadd]. apply SFleb_infinity. right. exact I.
    + (* the summand itself against a rounded sum *)
      change (SFadd prec emax (S754_finite st mt et) (S754_zero false))
        with (S754_finite st mt et).
      destruct (SFadd_finite st mt et false mb eb) as (S & -> & HS).
      rewrite <- (binary_normalize_valid st mt et VT).
      apply binary_normalize_mono. rewrite HS, SF2R_cond_Zopp.
      cbn [SF2R cond_Zopp]. pose proof (bpow_pos eb).
      assert (0 < IZR (Zpos mb))%R by (apply IZR_lt; lia). nra.
    + reflexivity.
    + change (SFadd prec emax (S754_finite st mt et) (S754_infinity false))
        with (S754_infinity false).
      destruct (SFadd_finite st mt et false ma ea) as (S & -> & _).
      apply binary_normalize_finite.
    + destruct (SFadd_finite st mt et false ma ea) as (S1 & -> & H1).
      destruct (SFadd_finite st mt et false mb eb) as (S2 & -> & H2).
      apply binary_normalize_mono. rewrite H1, H2.
      pose proof (SFleb_value _ _ _ _ VA VB Hle). lra.
Qed.

(** *** Doubles of bounded size *)

(** The doubles that end a rounding are doubles of the format. *)
Lemma finish_valid sx k E : canon k E -> valid_binary (finish sx k E) = true.
Proof.
  intros C.
  destruct (finish_cases sx k E C)
    as [[_ ->]|(m & e & [M0 M1] & He & Hn & _ & _ & ->)]; [reflexivity|].
  destruct (e <=? 971) eqn:Le; [|reflexivity].
  cbn [SpecFloat.valid_binary]. unfold bounded, canonical_mantissa.
  rewrite fexp_eq. change (emax - prec) with 971. rewrite Le, andb_true_r.
  apply Z.eqb_eq.
  assert (Hd : Zpos (digits2_pos (Z.to_pos m)) = Zdigits2 m).
  { destruct m as [|p|p]; try lia. reflexivity. }
  rewrite Hd.
  destruct (Zdigits2_spec m ltac:(lia)) as (D0 & D1 & D2).
  destruct (D2 M0) as [D3 D4].
  assert (Zdigits2 m <= 53).
  { destruct (Z_le_gt_dec (Zdigits2 m) 53) as [|Hgt]; [assumption|].
    assert (2 ^ 53 <= 2 ^ (Zdigits2 m - 1)) by (apply Z.pow_le_mono_r; lia). lia. }
  destruct (Z.eq_dec e (-1074)) as [->|Hne]; [lia|].
  rewrite (Zdigits2_unique m 52); [lia | lia |].
  change (52 + 1) with 53. split; [apply Hn|]; lia.
Qed.

(** The value of the double that ends a rounding. *)
Lemma finish_value sx k E :
  canon k E -> E <= 970 ->
  finite_or_zero (finish sx k E)
  /\ SF2R (finish sx k E) = (IZR (cond_Zopp sx k) * bpow E)%R.
Proof.
  intros C HE.
  destruct (finish_cases sx k E C)
    as [[-> ->]|(m & e & [M0 M1] & He & Hn & Hv & Hs & ->)].
  - split; [exact I|]. cbn [SF2R].
    destruct sx; cbn [cond_Zopp Z.opp]; rewrite Rmult_0_l; reflexivity.
  - assert (Le : (e <=? 971) = true).
    { apply Z.leb_le. destruct Hs as [[-> _]|(-> & _)]; lia. }
    rewrite Le. split; [exact I|]. cbn [SF2R].
    rewrite Z2Pos.id by lia.
    destruct sx; cbn [cond_Zopp]; rewrite ?opp_IZR; lra.
Qed.

(** A rounding of a real number of at most [2^p]: a finite double of at
    most [2^(p+1)]. *)
Lemma bra_bounded sx x m e l p :
  0 <= m -> Rep x m e l ->
  e <= Z.max (Zdigits2 m + e - 53) (-1074) ->
  (x <= bpow p)%R -> -1074 <= p <= 1000 ->
  let r := binary_round_aux prec emax sx m e l in
  finite_or_zero r /\ valid_binary r = true
  /\ (Rabs (SF2R r) <= bpow (p + 1))%R.
Proof.
  intros Hm Hx Hpre Hxp Hp r.
  destruct (phase1 x m e l Hm Hx Hpre) as (E1 & R1 & C1 & U1 & L1).
  unfold r. rewrite bra_finish, E1.
  set (mu := Zdigits2 m + e) in *. set (E := Z.max (mu - 53) (-1074)) in *.
  set (M := shr_m (fst (shr_fexp prec emax m e l))) in *.
  set (L := loc_of_shr_record (fst (shr_fexp prec emax m e l))) in *.
  set (k := round_nearest_even M L) in *.
  assert (HEp : E <= Z.max (p - 52) (-1074)).
  { destruct (Z_le_gt_dec E (-1074)) as [|Hgt]; [lia|].
    specialize (L1 ltac:(lia)).
    assert (bpow (mu - 1) <= bpow p)%R by lra.
    assert (mu - 1 <= p).
    { destruct (Z_le_gt_dec (mu - 1) p) as [|Hgt']; [assumption|].
      apply Z.gt_lt, bpow_lt in Hgt'. lra. }
    unfold E in *. lia. }
  destruct (finish_value sx k E C1 ltac:(lia)) as [F V].
  split; [exact F|]. split; [apply finish_valid; exact C1|].
  rewrite V.
  pose proof (rne_bounds M L) as Hk. fold k in Hk.
  pose proof (Rep_scale _ _ _ _ R1) as [Hs0 Hs1].
  pose proof (bpow_pos E) as HbE.
  destruct C1 as ([Hk0 _] & _ & _).
  assert (HkR : (0 <= IZR k <= IZR M + 1)%R).
  { split; [apply IZR_le; lia|]. rewrite <- plus_IZR. apply IZR_le. lia. }
  assert (HEpR : (bpow E <= bpow p)%R) by (apply bpow_le; lia).
  assert (Hval : (0 <= IZR k * bpow E <= bpow (p + 1))%R).
  { rewrite bpow_add, bpow_1. split; [nra|]. nra. }
  destruct sx; cbn [cond_Zopp]; rewrite ?opp_IZR, ?Ropp_mult_distr_l_reverse,
    ?Rabs_Ropp; rewrite Rabs_pos_eq; lra.
Qed.

Lemma binary_round_bounded sx m e p :
  (IZR (Zpos m) * bpow e <= bpow p)%R -> -1074 <= p <= 1000 ->
  bounded_by (p + 1) (binary_round prec emax sx m e).
Proof.
  intros Hx Hp.
  destruct (binary_round_rep sx m e) as (mz & ez & -> & R1 & P1).
  exact (bra_bounded sx _ _ _ _ p (Pos2Z.is_nonneg mz) R1 P1 Hx Hp).
Qed.

Lemma binary_normalize_bounded S z p :
  (Rabs (IZR S * bpow z) <= bpow p)%R -> -1074 <= p <= 1000 ->
  bounded_by (p + 1) (binary_normalize prec emax S z false).
Proof.
  intros Hx Hp. pose proof (bpow_pos z) as Hz. pose proof (bpow_pos (p + 1)).
  destruct S as [|m|m]; cbn [binary_normalize].
  - split; [exact I|]. split; [reflexivity|]. cbn [SF2R]. rewrite Rabs_R0. lra.
  - apply binary_round_bounded; [|exact Hp].
    assert (0 < IZR (Zpos m))%R by (apply IZR_lt; lia).
    rewrite Rabs_pos_eq in Hx by nra. exact Hx.
  - apply binary_round_bounded; [|exact Hp].
    assert (0 < IZR (Zpos m))%R by (apply IZR_lt; lia).
    change (Zneg m) with (- Zpos m) in Hx.
    rewrite opp_IZR, Ropp_mult_distr_l_reverse, Rabs_Ropp, Rabs_pos_eq in Hx by nra.
    exact Hx.
Qed.

(** A [long] converts to a finite double. *)
Lemma double_of_long z :
  LONG_MIN <= z <= LONG_MAX ->
  bounded_by 64 (Prim2SF (double_of_Z z)).
Proof.
  intros Hz. unfold double_of_Z.
  assert (Hb : bounded_by 64 (binary_normalize prec emax z 0 false)).
  { apply (binary_normalize_bounded z 0 63); [|lia].
    rewrite bpow_0, Rmult_1_r, bpow_IZR, <- abs_IZR by lia.
    apply IZR_le. unfold LONG_MIN, LONG_MAX in Hz. lia. }
  rewrite FloatAxioms.Prim2SF_SF2Prim; [exact Hb|].
  destruct Hb as (_ & Hv & _). exact Hv.
Qed.

(** A division by a double that is at least 1. *)
Lemma SFdiv_bounded p B mf ef :
  bounded_by p B -> -1074 <= p <= 1000 ->
  (1 <= IZR (Zpos mf) * bpow ef)%R ->
  bounded_by (p + 1) (SFdiv prec emax B (S754_finite false mf ef)).
Proof.
  intros (FB & VB & HB) Hp HF.
  pose proof (bpow_pos (p + 1)) as Hpp.
  destruct B as [sb|sb| |sb mb eb]; try contradiction.
  - cbn [SFdiv]. split; [exact I|]. split; [reflexivity|].
    cbn [SF2R]. rewrite Rabs_R0. lra.
  - cbn [SFdiv].
    destruct (div_core_rep mb eb mf ef) as (Q1 & R1 & P1).
    destruct (SFdiv_core_binary prec emax (Zpos mb) eb (Zpos mf) ef) as [[q1 E1] l1].
    cbn [fst snd] in *.
    apply (bra_bounded _ _ _ _ _ p Q1 R1 P1); [|exact Hp].
    cbn [SF2R] in HB. pose proof (bpow_pos eb).
    assert (Hmb : (0 < IZR (Zpos mb))%R) by (apply IZR_lt; lia).
    assert (Habs : (IZR (Zpos mb) * bpow eb <= bpow p)%R).
    { destruct sb; cbn [cond_Zopp] in HB;
        rewrite ?opp_IZR, ?Ropp_mult_distr_l_reverse, ?Rabs_Ropp in HB;
        rewrite Rabs_pos_eq in HB by nra; exact HB. }
    apply Rle_trans with (IZR (Zpos mb) * bpow eb)%R; [|exact Habs].
    assert (HX : (0 < IZR (Zpos mb) * bpow eb)%R) by nra.
    revert HX HF. generalize (IZR (Zpos mb) * bpow eb)%R (IZR (Zpos mf) * bpow ef)%R.
    intros X F HX HF.
    apply Rmult_le_reg_r with F; [lra|].
    unfold Rdiv. rewrite Rmult_assoc, Rinv_l by lra. nra.
Qed.

Lemma bounded_by_le p q r : p <= q -> bounded_by p r -> bounded_by q r.
Proof.
  intros Hpq (F & V & B). split; [exact F|]. split; [exact V|].
  apply bpow_le in Hpq. lra.
Qed.

(** The sum of two finite doubles of bounded size. *)
Lemma SFadd_bounded p A B :
  bounded_by p A -> bounded_by p B -> -1074 <= p <= 999 ->
  bounded_by (p + 2) (SFadd prec emax A B).
Proof.
  intros HA HB Hp.
  assert (HA' := bounded_by_le p (p + 2) A ltac:(lia) HA).
  assert (HB' := bounded_by_le p (p + 2) B ltac:(lia) HB).
  destruct HA as (FA & VA & BA), HB as (FB & VB & BB).
  destruct A as [sa|sa| |sa ma ea]; try contradiction;
    destruct B as [sb|sb| |sb mb eb]; try contradiction.
  - split; [|split].
    + destruct sa, sb; exact I.
    + destruct sa, sb; reflexivity.
    + replace (SF2R (SFadd prec emax (S754_zero sa) (S754_zero sb))) with 0%R
        by (destruct sa, sb; reflexivity).
      rewrite Rabs_R0. pose proof (bpow_pos (p + 2)). lra.
  - exact HB'.
  - exact HA'.
  - destruct (SFadd_finite sa ma ea sb mb eb) as (S & -> & HS).
    replace (p + 2) with (p + 1 + 1) by lia.
    apply binary_normalize_bounded; [|lia].
    rewrite HS, bpow_add, bpow_1.
    pose proof (Rabs_triang (SF2R (S754_finite sa ma ea)) (SF2R (S754_finite sb mb eb))).
    lra.
Qed.

(* ===================================================================== *)
(** ** Timestamps                                                         *)
(* ===================================================================== *)

Lemma is_finite_intro x : finite_or_zero (Prim2SF x) -> is_finite x = true.
Proof.
  unfold is_finite, is_nan, is_infinity.
  rewrite !FloatAxioms.eqb_spec, FloatAxioms.abs_spec, Prim2SF_infinity.
  destruct (Prim2SF x) as [s|s| |s m e]; try contradiction; intros _.
  - destruct s; reflexivity.
  - unfold SFeqb, SFcompare. rewrite Z.compare_refl.
    change (Pos.compare_cont Eq m m) with (Pos.compare m m).
    rewrite Pos.compare_refl. destruct s; reflexivity.
Qed.

Section BlockStart.
Context `{Platform}.

(** The start of a block is a finite double, when the seconds since the
    epoch and the microseconds are [long]s. *)
Lemma block_t0_finite time :
  let tm0 := Tm (int_of_long (GN_DATE_YEAR time - 1900))
                (int_of_long (GN_DATE_MONTH time - 1))
                (int_of_long (GN_DATE_DAY time))
                (int_of_long (GN_DATE_HOUR time))
                (int_of_long (GN_DATE_MIN time))
                (int_of_long (GN_DATE_SEC time)) in
  LONG_MIN <= timegm tm0 <= LONG_MAX ->
  LONG_MIN <= GN_DATE_MSEC time * 1000 <= LONG_MAX ->
  is_finite (block_t0 time) = true.
Proof.
  intros tm0 Hs Hm. apply is_finite_intro. unfold block_t0. fold tm0.
  rewrite FloatAxioms.add_spec, FloatAxioms.div_spec.
  unfold SF64add, SF64div.
  assert (HF : Prim2SF 1000000 = S754_finite false 8589934592000000 (-33))
    by (vm_compute; reflexivity).
  rewrite HF.
  pose proof (double_of_long _ Hs) as B1.
  pose proof (double_of_long _ Hm) as B2.
  assert (B3 := SFdiv_bounded 64 _ 8589934592000000 (-33) B2 ltac:(lia)).
  assert (B4 : bounded_by 65 (SFdiv prec emax (Prim2SF (double_of_Z (GN_DATE_MSEC time * 1000)))
                               (S754_finite false 8589934592000000 (-33)))).
  { apply B3. change 8589934592000000 with (1000000 * 2 ^ 33).
    rewrite mult_IZR, <- bpow_IZR by lia.
    assert (Ho : (bpow (-33) * bpow 33 = 1)%R) by apply (bpow_opp 33).
    replace (IZR 1000000 * bpow 33 * bpow (-33))%R
      with (IZR 1000000 * (bpow (-33) * bpow 33))%R by ring.
    rewrite Ho. lra. }
  destruct (SFadd_bounded 65 _ _ (bounded_by_le 64 65 _ ltac:(lia) B1) B4 ltac:(lia))
    as (F & _). exact F.
Qed.

End BlockStart.

(** The sample numbers 1 to 299 convert to the doubles of the same
    value. *)
Lemma double_of_sample_value j :
  1 <= j < 300 ->
  exists m e,
    Prim2SF (double_of_Z j) = S754_finite false m e
    /\ (IZR (Zpos m) * bpow e = IZR j)%R.
Proof.
  intros Hj.
  assert (Hall : forallb (fun n => match Prim2SF (double_of_Z (Z.of_nat n)) with
                                   | S754_finite false m e =>
                                       (e <=? 0) && (Zpos m =? Z.of_nat n * 2 ^ (- e))
                                   | _ => false
                                   end) (seq 1 299) = true)
    by (vm_compute; reflexivity).
  rewrite forallb_forall in Hall.
  specialize (Hall (Z.to_nat j)). rewrite Z2Nat.id in Hall by lia.
  destruct (Prim2SF (double_of_Z j)) as [s|s| |[] m e];
    try (discriminate Hall; apply in_seq; lia).
  exists m, e. split; [reflexivity|].
  specialize (Hall ltac:(apply in_seq; lia)).
  apply andb_true_iff in Hall. destruct Hall as [He Hm].
  apply Z.leb_le in He. apply Z.eqb_eq in Hm.
  rewrite Hm, mult_IZR, <- bpow_IZR by lia.
  rewrite Rmult_assoc, bpow_opp. lra.
Qed.

Lemma positive_double x :
  (0 <? x)%float = true ->
  (exists m e, Prim2SF x = S754_finite false m e)
  \/ Prim2SF x = S754_infinity false.
Proof.
  rewrite FloatAxioms.ltb_spec, Prim2SF_zero.
  destruct (Prim2SF x) as [s|[]| |[] m e]; try discriminate; eauto.
Qed.

(** The quotients of two consecutive sample numbers by a positive rate:
    numbers that are not negative, in their order. *)
Lemma sample_quotients_ordered fs_ j :
  (0 <? fs_)%float = true -> 0 <= j -> j + 1 < 300 ->
  signed false (Prim2SF (double_of_Z j / fs_))
  /\ signed false (Prim2SF (double_of_Z (j + 1) / fs_))
  /\ SFleb (Prim2SF (double_of_Z j / fs_)) (Prim2SF (double_of_Z (j + 1) / fs_))
     = true.
Proof.
  intros Hfs Hj0 Hj1. rewrite !FloatAxioms.div_spec. unfold SF64div.
  destruct (double_of_sample_value (j + 1)) as (m' & e' & -> & V'); [lia|].
  destruct (Z.eq_dec j 0) as [->|Hne].
  - change (Prim2SF (double_of_Z 0)) with (S754_zero false).
    destruct (positive_double _ Hfs) as [(mf & ef & ->)| ->].
    + pose proof (SFdiv_signed m' e' mf ef) as Hs.
      split; [reflexivity|]. split; [exact Hs|].
      apply SFleb_zero_pos. exact Hs.
    + repeat split.
  - destruct (double_of_sample_value j) as (m & e & -> & V); [lia|].
    destruct (positive_double _ Hfs) as [(mf & ef & ->)| ->].
    + split; [apply SFdiv_signed|]. split; [apply SFdiv_signed|].
      apply SFdiv_mono. rewrite V, V'. apply IZR_le. lia.
    + repeat split.
Qed.

(** At a positive sampling rate, from a finite start of the block, the
    timestamp of a sample is not after the timestamp of the next sample. *)
Lemma timestamps_ordered t0 fs_ j :
  (0 <? fs_)%float = true -> is_finite t0 = true ->
  0 <= j -> j + 1 < 300 ->
  (t0 + double_of_Z j / fs_ <=? t0 + double_of_Z (j + 1) / fs_)%float = true.
Proof.
  intros Hfs Ht Hj0 Hj1.
  destruct (sample_quotients_ordered fs_ j Hfs Hj0 Hj1) as (S1 & S2 & Hle).
  rewrite FloatAxioms.leb_spec, !FloatAxioms.add_spec. unfold SF64add.
  apply SFadd_mono; try apply FloatAxioms.Prim2SF_valid; try assumption.
  apply is_finite_spec in Ht.
  destruct (Prim2SF t0); try contradiction; exact I.
Qed.

(** C5, as the code has it.  In a decoded block the timestamp of sample
    [j] is the double [t0 + j / fs], where [t0] is [timegm] of the clock
    stamp plus its millisecond field as a fraction of a second, [fs] is the
    sampling rate of the header after the call, and every operation is
    rounded to a double.  With [fs > 0] and a finite [t0] the timestamps of
    the block do not decrease: each is less than or equal to the next.  And
    [t0] is finite when the seconds that [timegm] returns and the
    microseconds of the clock stamp are [long]s. *)
Theorem timestamps_from_clock_stamp `{Platform} loc fp w info data r :
  geneactiv_read_block loc fp w info data = Some r ->
  decoded (code r) ->
  exists b,
    block_text loc fp = Some b
    /\ let time := bt_time b in
       let tm0 := Tm (int_of_long (GN_DATE_YEAR time - 1900))
                     (int_of_long (GN_DATE_MONTH time - 1))
                     (int_of_long (GN_DATE_DAY time))
                     (int_of_long (GN_DATE_HOUR time))
                     (int_of_long (GN_DATE_MIN time))
                     (int_of_long (GN_DATE_SEC time)) in
       let t0 := (double_of_Z (timegm tm0)
                  + double_of_Z (GN_DATE_MSEC time * 1000) / 1000000)%float in
       (forall j, 0 <= j < GN_SAMPLES ->
          get (ts (data_of r)) (bt_N b * GN_SAMPLES + j)
          = Some (t0 + double_of_Z j / fs (info_of r))%float)
       /\ ((0 <? fs (info_of r))%float = true ->
           is_finite t0 = true ->
           forall j, 0 <= j -> j + 1 < GN_SAMPLES ->
             exists t t',
               get (ts (data_of r)) (bt_N b * GN_SAMPLES + j) = Some t
               /\ get (ts (data_of r)) (bt_N b * GN_SAMPLES + (j + 1)) = Some t'
               /\ (t <=? t')%float = true)
       /\ (LONG_MIN <= timegm tm0 <= LONG_MAX ->
           LONG_MIN <= GN_DATE_MSEC time * 1000 <= LONG_MAX ->
           is_finite t0 = true).
Proof.
  intros Hrun Hdec.
  destruct (read_block_inv _ _ _ _ _ _ Hrun Hdec)
    as (b & ds & Hb & _ & _ & _ & Hs).
  exists b. split; [exact Hb|]. cbv zeta.
  destruct Hs as (_ & _ & _ & _ & Hin & _).
  assert (Hts : forall j, 0 <= j < GN_SAMPLES ->
            get (ts (data_of r)) (bt_N b * GN_SAMPLES + j)
            = Some (block_t0 (bt_time b) + double_of_Z j / fs (info_of r))%float).
  { intros j Hj. destruct (Hin j Hj) as (_ & Hts & _). exact Hts. }
  split; [exact Hts|]. split; [|apply block_t0_finite].
  intros Hfs Ht0 j Hj0 Hj1. unfold GN_SAMPLES in *.
  eexists _, _. split; [apply Hts; lia|]. split; [apply Hts; lia|].
  apply timestamps_ordered; assumption.
Qed.

Lemma timestamps_from_clock_stamp_witness :
  exists r,
    geneactiv_read_block loc0 block1 tt info0 data0 = Some r
    /\ decoded (code r)
    /\ get (ts (data_of r)) (1 * GN_SAMPLES + 2)
       = Some (double_of_Z 1526309174 + double_of_Z 500000 / 1000000
               + double_of_Z 2 / fs (info_of r))%float
    /\ exists t t',
         get (ts (data_of r)) (1 * GN_SAMPLES + 2) = Some t
         /\ get (ts (data_of r)) (1 * GN_SAMPLES + (2 + 1)) = Some t'
         /\ (t <=? t')%float = true.
Proof.
  destruct block1_run as (r & E & D).
  exists r. split; [exact E|]. split; [exact D|].
  destruct (timestamps_from_clock_stamp _ _ _ _ _ _ E D)
    as (b & Hb & Hts & Hord & Hfin).
  rewrite block1_text in Hb. injection Hb as <-.
  split; [apply (Hts 2); unfold GN_SAMPLES; lia|].
  assert (Hfs : fs (info_of r) = fs info0).
  { destruct (read_block_inv _ _ _ _ _ _ E D) as (b & ds & Hb & _ & _ & Hi & _).
    rewrite block1_text in Hb. injection Hb as <-.
    change (fne (bt_fs text1) (fs info0)) with false in Hi.
    destruct Hi as [_ ->]. reflexivity. }
  apply (Hord ltac:(rewrite Hfs; reflexivity)
              (Hfin ltac:(vm_compute; split; discriminate)
                    ltac:(vm_compute; split; discriminate)) 2);
    unfold GN_SAMPLES; lia.
Defined.

(** C5 as stated fails: at a sampling rate of 10^13 Hz, which is positive,
    the first two timestamps of the block are the same double, so the
    timestamps of the block are not strictly increasing. *)
Lemma timestamps_coincide_at_high_rate :
  option_map (fun r => (code r, (0 <? fs (info_of r))%float,
                        get (ts (data_of r)) 300, get (ts (data_of r)) 301))
             (geneactiv_read_block loc0 block_fast tt
                                   (set_fs 10000000000000 info0) data0)
  = Some (GN_READ_E_NONE, true, Some 1526309174.5%float, Some 1526309174.5%float).
Proof. vm_compute. reflexivity. Qed.

(** At 100 Hz, the difference of two consecutive timestamps is not the
    double 1/100. *)
Example timestamp_spacing_is_rounded :
  option_map (fun r => match get (ts (data_of r)) 300, get (ts (data_of r)) 301 with
                       | Some t, Some t' => ((t' - t =? 1 / 100)%float, (t <? t')%float)
                       | _, _ => (true, false)
                       end)
             (geneactiv_read_block loc0 block1 tt info0 data0)
  = Some (false, true).
Proof. vm_compute. reflexivity. Qed.

(* ===================================================================== *)
(** ** Light                                                              *)
(* ===================================================================== *)

Section Light.
Context `{Platform}.

Lemma light_fields_hex_at data_str g :
  light_fields_hex data_str = true -> 0 <= g < 300 ->
  exists v, hex3 data_str (12 * g + 9) = Some v.
Proof.
  unfold light_fields_hex. rewrite forallb_forall. intros Hall Hg.
  specialize (Hall (Z.to_nat g)). rewrite Z2Nat.id in Hall by lia.
  destruct (hex3 data_str (12 * g + 9)) as [v|]; [eauto|].
  discriminate Hall. apply in_seq. lia.
Qed.

Lemma zero_line_light_field data_str g :
  take 3600 data_str = replicate 3600 "0"%char -> 0 <= g < 300 ->
  hex3 data_str (12 * g + 9) = Some 0.
Proof.
  intros Hz Hg. unfold hex3.
  rewrite <- (take_drop 3600 data_str), Hz.
  rewrite drop_app_le by (rewrite length_replicate; lia).
  rewrite drop_replicate.
  replace (3600 - Z.to_nat (12 * g + 9))%nat
    with (S (S (S (3597 - Z.to_nat (12 * g + 9))))) by lia.
  reflexivity.
Qed.

(** The decoder leaves the light scale of the header as it is. *)
Lemma decoded_light_scale (b : BlockText) (info : GN_Info_t) (c : GN_Read_Err)
    (info' : GN_Info_t) :
  (if fne (bt_fs b) (fs info)
   then fs_err info < 1 /\ c = GN_READ_E_BLOCK_FS_WARN
        /\ info' = corrected (bt_fs b) (seen (bt_N b) info)
   else c = GN_READ_E_NONE /\ info' = seen (bt_N b) info) ->
  lux info' = lux info /\ volts info' = volts info.
Proof.
  destruct (fne (bt_fs b) (fs info)).
  - intros (_ & _ & ->). split; reflexivity.
  - intros (_ & ->). split; reflexivity.
Qed.

Lemma shifted_light_range v : 0 <= v <= 4095 -> 0 <= Z.shiftr v 2 <= 1023.
Proof.
  intros Hv. rewrite Z.shiftr_div_pow2 by lia. change (2 ^ 2) with 4.
  pose proof (Z.div_pos v 4) as H0.
  pose proof (Z.div_lt_upper_bound v 4 1024) as H1.
  lia.
Qed.

(** A light value under a positive scale is not negative, and is at least
    zero when the scale is finite. *)
Lemma light_sign s lux_ volts_ :
  0 <= s <= 1023 ->
  (0 <? lux_)%float = true -> (0 <? volts_)%float = true ->
  let l := (double_of_Z s * (lux_ / volts_))%float in
  (l <? 0)%float = false
  /\ (is_finite (lux_ / volts_) = true -> (0 <=? l)%float = true).
Proof.
  intros Hs Hl Hv l.
  pose proof (double_of_Z_light s Hs) as Hm.
  pose proof (SFdiv_not_negative _ _ (positive_nonneg _ Hl) (positive_nonneg _ Hv))
    as Hq.
  rewrite <- FloatAxioms.div_spec in Hq.
  split.
  - apply not_negative_ltb. unfold l. rewrite FloatAxioms.mul_spec.
    apply SFmul_not_negative; assumption.
  - intros Hfin%is_finite_spec. apply nonneg_leb. unfold l.
    rewrite FloatAxioms.mul_spec. apply SFmul_nonneg; [exact Hm|].
    destruct (Prim2SF (lux_ / volts_)) as [s'|s'| |s' m e];
      try contradiction; exact Hq.
Qed.

End Light.

Lemma block_zero_text :
  block_text loc0 block_zero
  = Some (Blk (bt_N text1) (bt_time text1) (bt_temp text1) (bt_fs text1)
              (data_line 300 "000000000000")).
Proof. vm_compute. reflexivity. Defined.

Lemma block_zero_data_str :
  fgets (data_str0 loc0) 3610 (data_line 300 "000000000000")
  = Some (data_str_zero, []).
Proof. vm_compute. reflexivity. Defined.

Lemma block_zero_strlen : 3601 <= strlen data_str_zero.
Proof. vm_compute. discriminate. Defined.

(** [Demo.block_zero] is decoded. *)
Lemma block_zero_run :
  exists r, geneactiv_read_block loc0 block_zero tt info0 data0 = Some r
            /\ decoded (code r).
Proof.
  apply (read_block_total (H := platform) loc0 block_zero tt info0 data0 _
           data_str_zero [] (fields_inside_nul data_str_zero) block_zero_text block1_room
           block_zero_data_str block_zero_strlen).
  vm_compute. reflexivity.
Defined.

(** C6, as the code has it.  In a decoded block each of whose fields is
    read inside the array [p] (the scan of [strtol] ends within its four
    bytes, of which the decoder never writes the last), the light value of
    sample [g] is the light field shifted right by two bits, as a double,
    times [lux / volts]; a field of three hexadecimal digits with value [v]
    is used as it is, without sign adjustment, and the shift leaves [v / 4].
    For an all-zero data line every light value is 0, provided that
    [lux / volts] is a finite double. *)
Theorem light_shifted_and_scaled `{Platform} loc fp w info data b data_str fp' r :
  block_text loc fp = Some b ->
  fgets (data_str0 loc) 3610 (bt_fp b) = Some (data_str, fp') ->
  fields_inside data_str (p3 loc) = true ->
  geneactiv_read_block loc fp w info data = Some r ->
  decoded (code r) ->
  (forall g, 0 <= g < GN_SAMPLES ->
     exists t_,
       field data_str (12 * g + 9) (p3 loc) = Some t_
       /\ get (light (data_of r)) (bt_N b * GN_SAMPLES + g)
          = Some (double_of_Z (Z.shiftr t_ 2) * (lux info / volts info))%float)
  /\ (forall g v, 0 <= g < GN_SAMPLES ->
        hex3 data_str (12 * g + 9) = Some v ->
        field data_str (12 * g + 9) (p3 loc) = Some v
        /\ Z.shiftr v 2 = v / 4 /\ 0 <= v / 4 <= 1023)
  /\ (is_finite (lux info / volts info) = true ->
      take 3600 data_str = replicate 3600 "0"%char ->
      forall g, 0 <= g < GN_SAMPLES ->
        exists l, get (light (data_of r)) (bt_N b * GN_SAMPLES + g) = Some l
                  /\ (l =? 0)%float = true).
Proof.
  intros Hb0 Hg0 _ Hrun Hdec.
  destruct (read_block_inv _ _ _ _ _ _ Hrun Hdec)
    as (b' & ds & Hb & Hg & _ & Hi & Hs).
  rewrite Hb0 in Hb. injection Hb as <-.
  rewrite Hg0 in Hg. injection Hg as <- _.
  destruct (decoded_light_scale _ _ _ _ Hi) as [Hlux Hvolts].
  destruct Hs as (_ & _ & _ & _ & Hin & _).
  assert (Hlight : forall g, 0 <= g < GN_SAMPLES ->
            exists t_,
              field data_str (12 * g + 9) (p3 loc) = Some t_
              /\ get (light (data_of r)) (bt_N b * GN_SAMPLES + g)
                 = Some (double_of_Z (Z.shiftr t_ 2) * (lux info / volts info))%float).
  { intros g Hg'. destruct (Hin g Hg') as (_ & _ & (t_ & Hf & Hl) & _).
    exists t_. split; [exact Hf|].
    rewrite Hl. unfold light_value. rewrite Hlux, Hvolts. reflexivity. }
  assert (Hfield : forall g v, 0 <= g < GN_SAMPLES ->
            hex3 data_str (12 * g + 9) = Some v ->
            field data_str (12 * g + 9) (p3 loc) = Some v /\ 0 <= v <= 4095).
  { intros g v Hg' Hv. destruct (Hlight g Hg') as (t_ & Hf & _).
    destruct (field_hex3 _ _ _ _ _ Hv Hf) as [-> Hr]. auto. }
  split; [exact Hlight|]. split.
  - intros g v Hg' Hv. destruct (Hfield g v Hg' Hv) as [Hf Hr].
    pose proof (shifted_light_range v Hr) as Hsh.
    rewrite Z.shiftr_div_pow2 in Hsh by lia. change (2 ^ 2) with 4 in Hsh.
    split; [exact Hf|]. split; [|exact Hsh].
    rewrite Z.shiftr_div_pow2 by lia. reflexivity.
  - intros Hfin Hzero g Hg'.
    destruct (Hlight g Hg') as (t_ & Hf & Hl).
    destruct (Hfield g 0 Hg' (zero_line_light_field data_str g Hzero Hg')) as [Hf0 _].
    rewrite Hf0 in Hf. injection Hf as <-.
    eexists. split; [exact Hl|].
    change (double_of_Z (Z.shiftr 0 2)) with 0%float.
    apply mul_zero_finite. exact Hfin.
Qed.

Lemma light_shifted_and_scaled_witness :
  exists r,
    geneactiv_read_block loc0 block_zero tt info0 data0 = Some r
    /\ decoded (code r)
    /\ exists l, get (light (data_of r)) (1 * GN_SAMPLES + 7) = Some l
                 /\ (l =? 0)%float = true.
Proof.
  destruct block_zero_run as (r & E & D).
  exists r. split; [exact E|]. split; [exact D|].
  destruct (light_shifted_and_scaled _ _ _ _ _ _ _ _ _ block_zero_text
              block_zero_data_str (fields_inside_nul data_str_zero) E D)
    as (_ & _ & Hzero).
  apply Hzero; [reflexivity | reflexivity | unfold GN_SAMPLES; lia].
Defined.

(** C6 as stated fails: with [volts] at 0 the scale [lux / volts] is
    infinite, and the light values of an all-zero data line are not 0 but
    not-a-number.  And with the digit 5 in the byte [p[3]] the fields of the
    all-zero data line are not read inside [p]: the call has no defined
    result. *)
Lemma zero_line_light_not_zero :
  option_map (fun r => (code r, get (light (data_of r)) 300))
             (geneactiv_read_block loc0 block_zero tt (set_volts 0 info0) data0)
  = Some (GN_READ_E_NONE, Some nan)
  /\ (nan =? 0)%float = false
  /\ fields_inside data_str_zero (p3 loc_stale) = false
  /\ option_map (fun r => code r)
                (geneactiv_read_block loc_stale block_zero tt info0 data0)
     = None.
Proof. repeat split; vm_compute; reflexivity. Qed.

(** C10, as the code has it.  In a decoded block whose light fields are
    three hexadecimal digits each and whose fields are each read inside the
    array [p] (the byte [p[3]], which the decoder never writes, is then no
    hexadecimal digit), under positive [lux] and [volts]: the light field is
    used without sign adjustment, its shifted value is between 0 and 1023,
    and the light value stored is not negative (and at least 0 when
    [lux / volts] is finite); a light buffer without a negative entry
    before the call has none after it. *)
Theorem light_never_negative `{Platform} loc fp w info data b data_str fp' r :
  block_text loc fp = Some b ->
  fgets (data_str0 loc) 3610 (bt_fp b) = Some (data_str, fp') ->
  light_fields_hex data_str = true ->
  fields_inside data_str (p3 loc) = true ->
  geneactiv_read_block loc fp w info data = Some r ->
  decoded (code r) ->
  (0 <? lux info)%float = true ->
  (0 <? volts info)%float = true ->
  hexval (p3 loc) = None
  /\ (forall g, 0 <= g < GN_SAMPLES ->
        exists v l,
          hex3 data_str (12 * g + 9) = Some v
          /\ 0 <= Z.shiftr v 2 <= 1023
          /\ get (light (data_of r)) (bt_N b * GN_SAMPLES + g) = Some l
          /\ l = (double_of_Z (Z.shiftr v 2) * (lux info / volts info))%float
          /\ (l <? 0)%float = false
          /\ (is_finite (lux info / volts info) = true -> (0 <=? l)%float = true))
  /\ ((forall z l, get (light data) z = Some l -> (l <? 0)%float = false) ->
      forall z l, get (light (data_of r)) z = Some l -> (l <? 0)%float = false).
Proof.
  intros Hb0 Hg0 Hhex Hp Hrun Hdec Hlux Hvolts.
  destruct (read_block_inv _ _ _ _ _ _ Hrun Hdec)
    as (b' & ds & Hb & Hg & _ & Hi & Hs).
  rewrite Hb0 in Hb. injection Hb as <-.
  rewrite Hg0 in Hg. injection Hg as <- _.
  destruct (decoded_light_scale _ _ _ _ Hi) as [Elux Evolts].
  destruct Hs as (_ & _ & _ & _ & Hin & Hout & _).
  assert (Hgroup : forall g, 0 <= g < GN_SAMPLES ->
    exists v l,
      hex3 data_str (12 * g + 9) = Some v
      /\ 0 <= Z.shiftr v 2 <= 1023
      /\ get (light (data_of r)) (bt_N b * GN_SAMPLES + g) = Some l
      /\ l = (double_of_Z (Z.shiftr v 2) * (lux info / volts info))%float
      /\ (l <? 0)%float = false
      /\ (is_finite (lux info / volts info) = true -> (0 <=? l)%float = true)).
  { intros g Hg'.
    destruct (light_fields_hex_at data_str g Hhex) as [v Hv];
      [unfold GN_SAMPLES in Hg'; lia|].
    destruct (Hin g Hg') as (_ & _ & (t_ & Hf & Hl) & _).
    destruct (field_hex3 _ _ _ _ _ Hv Hf) as [-> Hr].
    pose proof (shifted_light_range v Hr) as Hsh.
    exists v, (double_of_Z (Z.shiftr v 2) * (lux info / volts info))%float.
    split; [exact Hv|]. split; [exact Hsh|].
    split; [rewrite Hl; unfold light_value; rewrite Elux, Evolts; reflexivity|].
    split; [reflexivity|].
    exact (light_sign (Z.shiftr v 2) (lux info) (volts info) Hsh Hlux Hvolts). }
  split; [|split; [exact Hgroup|]].
  { destruct (light_fields_hex_at data_str 0 Hhex) as [v Hv]; [lia|].
    destruct (proj1 (fields_inside_spec _ _) Hp 0 3) as [t_ Ht]; [lia | lia |].
    change (12 * 0 + 3 * 3) with (12 * 0 + 9) in Ht.
    rewrite (field_hex3_value _ _ _ _ Hv) in Ht.
    destruct (hexval (p3 loc)); [discriminate | reflexivity]. }
  intros Hbefore z l Hz.
  destruct (Z_lt_le_dec z (bt_N b * GN_SAMPLES)) as [Hlo|Hlo].
  { destruct (Hout z) as (_ & _ & Hsame); [lia|].
    rewrite Hsame in Hz. eauto. }
  destruct (Z_lt_le_dec z (bt_N b * GN_SAMPLES + GN_SAMPLES)) as [Hhi|Hhi].
  2:{ destruct (Hout z) as (_ & _ & Hsame); [lia|].
      rewrite Hsame in Hz. eauto. }
  destruct (Hgroup (z - bt_N b * GN_SAMPLES)) as (v & l' & _ & _ & Hl' & _ & Hneg & _);
    [lia|].
  replace (bt_N b * GN_SAMPLES + (z - bt_N b * GN_SAMPLES)) with z in Hl' by lia.
  congruence.
Qed.

Lemma block1_light_fields : light_fields_hex data_str1 = true.
Proof. vm_compute. reflexivity. Defined.

Lemma light_never_negative_witness :
  exists r,
    geneactiv_read_block loc0 block1 tt info0 data0 = Some r
    /\ decoded (code r)
    /\ exists l, get (light (data_of r)) (1 * GN_SAMPLES + 0) = Some l
                 /\ l = (double_of_Z 1023 * (1062 / 299))%float
                 /\ (l <? 0)%float = false.
Proof.
  destruct block1_run as (r & E & D).
  exists r. split; [exact E|]. split; [exact D|].
  destruct (light_never_negative _ _ _ _ _ _ _ _ _ block1_text block1_data_str
              block1_light_fields (fields_inside_nul data_str1) E D eq_refl eq_refl)
    as (_ & Hgroup & _).
  destruct (Hgroup 0) as (v & l & Hv & _ & Hget & Hval & Hneg & _);
    [unfold GN_SAMPLES; lia|].
  assert (Hv' : hex3 data_str1 (12 * 0 + 9) = Some 4092) by (vm_compute; reflexivity).
  rewrite Hv' in Hv. injection Hv as <-.
  exists l. split; [exact Hget|]. split; [exact Hval | exact Hneg].
Defined.

(* ===================================================================== *)
(** ** The header decoder                                                 *)
(* ===================================================================== *)






(* ===================================================================== *)
(** ** The rolling median                                                 *)
(* ===================================================================== *)

Section RollMedianFacts.
Import RollingMedian.
Context `{Gsl}.

(** What the loop over the slices leaves in the array it fills: [n] slices
    of [s] elements from offset [off] on hold the moving medians of the
    slices of the input, and the rest is as it was. *)
Lemma median_loop_spec (s : nat) (wlen : Z) (d : list float) (n : nat) :
  forall off r,
    length r = length d ->
    (off + n * s <= length d)%nat ->
    let r' := median_loop n off s wlen d r in
    length r' = length r
    /\ take off r' = take off r
    /\ drop (off + n * s) r' = drop (off + n * s) r
    /\ forall i, (i < n)%nat ->
         take s (drop (off + i * s) r')
         = gsl_movstat_median GSL_MOVSTAT_END_PADZERO
             (take s (drop (off + i * s) d)) wlen.
Proof.
  induction n as [|n IH]; intros off r Hlen Hfit; cbn [median_loop]; cbv zeta.
  - rewrite Nat.add_0_r. repeat split; intros; lia || reflexivity.
  - set (x := take s (drop off d)).
    set (xmean := gsl_movstat_median GSL_MOVSTAT_END_PADZERO x wlen).
    set (r1 := take off r ++ xmean ++ drop (off + s) r).
    assert (Hx : length xmean = s).
    { unfold xmean. rewrite gsl_movstat_median_size. unfold x.
      rewrite length_take, length_drop. lia. }
    assert (Hr1 : length r1 = length d).
    { unfold r1. rewrite !length_app, length_take, length_drop. lia. }
    destruct (IH (off + s)%nat r1 Hr1) as (L & T & D & S'); [lia|].
    cbv zeta in L, T, D, S'.
    assert (Hhead : take (off + s) r1 = take off r ++ xmean).
    { unfold r1. rewrite app_assoc.
      rewrite take_app_length'; [reflexivity|].
      rewrite length_app, length_take. lia. }
    repeat split.
    + rewrite L. congruence.
    + transitivity (take off (take (off + s) (median_loop n (off + s) s wlen d r1))).
      { rewrite take_take. f_equal. lia. }
      rewrite T, Hhead.
      rewrite take_app_length'; [reflexivity | rewrite length_take; lia].
    + replace (off + S n * s)%nat with (off + s + n * s)%nat by lia.
      rewrite D. unfold r1.
      rewrite app_assoc.
      rewrite drop_app_ge by (rewrite length_app, length_take; lia).
      rewrite length_app, length_take, Hx, drop_drop.
      f_equal. lia.
    + intros i Hi. destruct i as [|i].
      * rewrite Nat.add_0_r. fold x. fold xmean.
        rewrite take_drop_commute, T, Hhead.
        rewrite drop_app_length'; [reflexivity | rewrite length_take; lia].
      * replace (off + S i * s)%nat with (off + s + i * s)%nat by lia.
        apply S'. lia.
Qed.

(** X17.  On an array with a last axis that is not empty, [roll_median] returns
    an array of the shape of its argument whose slices along the last axis
    are the moving medians, with zero padding, of the slices of the
    argument. *)
Lemma roll_median_slices (outer : list Z) (s nrepeats : nat) (wlen : Z)
    (d empty : list float) :
  (0 < s)%nat -> 0 <= wlen ->
  fold_right Z.mul 1 outer = Z.of_nat nrepeats ->
  Z.of_nat nrepeats <= INT_MAX ->
  length d = (nrepeats * s)%nat ->
  length empty = length d ->
  exists out,
    roll_median (Array (outer ++ [Z.of_nat s]) d) wlen empty
    = Returned (Array (outer ++ [Z.of_nat s]) out)
    /\ length out = length d
    /\ forall i, (i < nrepeats)%nat ->
         take s (drop (i * s) out)
         = gsl_movstat_median GSL_MOVSTAT_END_PADZERO (take s (drop (i * s) d)) wlen.
Proof.
  intros Hs Hw Houter Hint Hd He.
  unfold roll_median, PyArray_NDIM, PyArray_SIZE. cbn [dims elems].
  rewrite length_app. cbn [length].
  destruct (Z.of_nat (length outer + 1) <? 1) eqn:E1; [apply Z.ltb_lt in E1; lia|].
  destruct (wlen <? 0) eqn:E2; [apply Z.ltb_lt in E2; lia|].
  replace (Z.to_nat (Z.of_nat (length outer + 1) - 1)) with (length outer) by lia.
  rewrite app_nth2 by lia. rewrite Nat.sub_diag. cbn [nth].
  destruct (Z.of_nat s =? 0) eqn:E3; [apply Z.eqb_eq in E3; lia|].
  rewrite fold_right_app. cbn [fold_right].
  assert (Hprod : forall l a, fold_right Z.mul a l = fold_right Z.mul 1 l * a).
  { induction l as [|y l IHl]; intros a; cbn [fold_right]; [lia|].
    rewrite IHl. lia. }
  rewrite Hprod, Houter, Z.mul_1_r.
  rewrite Z.quot_mul by lia.
  assert (Hi : int_of_long (Z.of_nat nrepeats) = Z.of_nat nrepeats).
  { unfold int_of_long, INT_MAX in *.
    rewrite Z.mod_small by lia. lia. }
  rewrite Hi, !Nat2Z.id.
  destruct (median_loop_spec s wlen d nrepeats 0 empty He) as (L & _ & _ & S');
    [lia|].
  cbv zeta in L, S'.
  eexists. split; [reflexivity|]. split; [congruence|].
  intros i Hi'. apply (S' i Hi').
Qed.

(** C8.  [roll_median] on an empty sequence divides by the length of the
    last axis, which is 0: its behaviour is undefined, and no array of the
    shape of the argument is returned. *)
Theorem roll_median_empty_sequence (outer : list Z) (empty : list float) :
  roll_median (Array (outer ++ [0]) []) 3 empty = Undefined.
Proof.
  unfold roll_median, PyArray_NDIM. cbn [dims].
  rewrite length_app. cbn [length].
  destruct (Z.of_nat (length outer + 1) <? 1) eqn:E1; [apply Z.ltb_lt in E1; lia|].
  change (3 <? 0) with false. cbv iota.
  replace (Z.to_nat (Z.of_nat (length outer + 1) - 1)) with (length outer) by lia.
  rewrite app_nth2 by lia. rewrite Nat.sub_diag. reflexivity.
Qed.

End RollMedianFacts.

(* ===================================================================== *)
(** ** Fields that are not hexadecimal digits                             *)
(* ===================================================================== *)

(** C10 as stated fails: the decoder does not check the characters of the
    data string.  Under positive [lux] and [volts], a light field with a
    sign, [-04], is read by [strtol] as -4; shifted it is -1, and the light
    value of the decoded block is negative.  And with the digit 5 in the
    byte [p[3]] the fields of a data line of hexadecimal digits are not
    read inside [p]: the call has no defined result. *)
Lemma signed_light_field_is_negative :
  (0 <? lux info0)%float = true
  /\ (0 <? volts info0)%float = true
  /\ option_map (fun r => match get (light (data_of r)) 300 with
                          | Some l => (code r, (l <? 0)%float)
                          | None => (code r, false)
                          end)
                (geneactiv_read_block loc0
                   (block_head "1" "25.5" "100.0" ++ data_line 300 "7FF800001-04")
                   tt info0 data0)
     = Some (GN_READ_E_NONE, true)
  /\ light_fields_hex data_str1 = true
  /\ fields_inside data_str1 (p3 loc_stale) = false
  /\ option_map (fun r => code r)
                (geneactiv_read_block loc_stale block1 tt info0 data0)
     = None.
Proof. repeat split; vm_compute; reflexivity. Qed.

(** The byte [p[3]] matters: when the stack holds a hexadecimal digit
    there, the scan of a field of three digits runs behind the end of
    [p]. *)
Example stale_byte_is_read :
  field (bytes "7FF") 0 NUL = Some 2047
  /\ field (bytes "7FF") 0 "G"%char = Some 2047
  /\ field (bytes "7FF") 0 "5"%char = None.
Proof. repeat split; vm_compute; reflexivity. Qed.

Section Invariants.
Context `{Platform}.

Lemma fill_length n i v a a' : fill n i v a = Some a' -> length a' = length a.
Proof.
  rewrite fill_writes. intros Hw. apply writes_spec in Hw. tauto.
Qed.

Lemma temp_loop_length Nps v a a' :
  temp_loop Nps v a = Some a' -> length a' = length a.
Proof.
  unfold temp_loop.
  destruct (_ <=? _); [intros [= <-]; reflexivity|].
  destruct (_ <? _); [discriminate|]. apply fill_length.
Qed.

Lemma fill_S n i v a :
  fill (S n) i v a = (a1 ← store a i v; fill n (i + 1) v a1).
Proof. reflexivity. Qed.

(** A run of the temperature loop that is defined stays inside the
    buffer. *)
Lemma fill_in_range n : forall i v a a',
  fill (S n) i v a = Some a' -> 0 <= i /\ i + Z.of_nat (S n) <= Z.of_nat (length a).
Proof.
  induction n as [|n IH]; intros i v a a' Hf; rewrite fill_S in Hf;
    destruct (store a i v) as [a1|] eqn:Hs;
    cbn [mbind option_bind] in Hf; try discriminate;
    pose proof (store_length _ _ _ _ Hs) as Hl; apply store_inv in Hs.
  - lia.
  - apply IH in Hf. lia.
Qed.

(** What the rest of the decoder leaves of [*info] and of the sizes of the
    buffers. *)
Lemma read_block_data_keeps loc fp w info data Nps time ier r :
  read_block_data loc fp w info data Nps time ier = Some r ->
  info_of r = info
  /\ temp (data_of r) = temp data
  /\ length (ts (data_of r)) = length (ts data)
  /\ length (acc (data_of r)) = length (acc data)
  /\ length (light (data_of r)) = length (light data).
Proof.
  intros Hr. apply read_block_data_cases in Hr.
  destruct Hr as [[_ ->] | [(ds & fp' & _ & _ & ->) |
                             (ds & fp' & data1 & ts' & _ & _ & Hg & Hs & ->)]];
    cbn [info_of data_of]; try tauto.
  apply groups_spec in Hg. destruct Hg as (Gt & Gts & Gla & Gll & _).
  rewrite stamp_writes in Hs. apply writes_spec in Hs. destruct Hs as (Sl & _).
  cbn [temp ts acc light set_ts]. rewrite Sl, Gts. tauto.
Qed.

End Invariants.

(** X8.  Whatever its return code, a call of the block decoder that returns
    leaves the gain, the offset, the volts, the lux and the number of pages
    of [*info] as they were; [max_n] does not decrease, and is the larger of
    its old value and the sequence number of the block; the rate and the
    mismatch counter are either both unchanged, or the counter goes from
    below 1 to one more and the rate becomes the rate the block declares;
    and the four sample buffers keep their sizes. *)
Theorem read_block_invariants `{Platform} loc fp w info data r :
  geneactiv_read_block loc fp w info data = Some r ->
  gain (info_of r) = gain info
  /\ offset (info_of r) = offset info
  /\ volts (info_of r) = volts info
  /\ lux (info_of r) = lux info
  /\ npages (info_of r) = npages info
  /\ max_n info <= max_n (info_of r)
  /\ (forall b, block_text loc fp = Some b ->
        max_n (info_of r) = Z.max (max_n info) (bt_N b))
  /\ ((fs (info_of r) = fs info /\ fs_err (info_of r) = fs_err info)
      \/ (fs_err info < 1 /\ fs_err (info_of r) = fs_err info + 1
          /\ exists b, block_text loc fp = Some b
               /\ fne (bt_fs b) (fs info) = true /\ fs (info_of r) = bt_fs b))
  /\ length (temp (data_of r)) = length (temp data)
  /\ length (ts (data_of r)) = length (ts data)
  /\ length (acc (data_of r)) = length (acc data)
  /\ length (light (data_of r)) = length (light data).
Proof.
  intros Hrun.
  assert (Hmax : forall N, max_n info <= max_n (seen N info)
                           /\ max_n (seen N info) = Z.max (max_n info) N).
  { intros N. unfold seen. cbn [max_n set_max_n].
    destruct (N >? max_n info) eqn:E; lia. }
  destruct (read_block_cases _ _ _ _ _ _ Hrun)
    as [[Hb [N ->]] | (b & temp' & Hb & Hf & Hcase)].
  - cbn [info_of data_of]. destruct (Hmax N) as [Hle _].
    repeat split; try reflexivity; try exact Hle.
    + intros b Hb'. congruence.
    + left. split; reflexivity.
  - pose proof (temp_loop_length _ _ _ _ Hf) as Hlen.
    destruct (Hmax (bt_N b)) as [Hle Heq].
    assert (Hsame : forall b', block_text loc fp = Some b' -> b' = b) by congruence.
    destruct Hcase as [(Hm & He & ->) | [(Hm & He & Hr) | (Hm & Hr)]].
    + cbn [info_of data_of temp ts acc light set_temp].
      repeat split; try reflexivity; try assumption.
      * intros b' ->%Hsame. exact Heq.
      * left. split; reflexivity.
    + destruct (read_block_data_keeps _ _ _ _ _ _ _ _ _ Hr)
        as (-> & Ht & Lts & La & Ll).
      cbn [temp ts acc light set_temp] in Ht, Lts, La, Ll.
      rewrite Ht, Lts, La, Ll.
      repeat split; try reflexivity; try assumption.
      * intros b' ->%Hsame. exact Heq.
      * right. split; [exact He|]. split; [reflexivity|].
        exists b. repeat split; assumption.
    + destruct (read_block_data_keeps _ _ _ _ _ _ _ _ _ Hr)
        as (-> & Ht & Lts & La & Ll).
      cbn [temp ts acc light set_temp] in Ht, Lts, La, Ll.
      rewrite Ht, Lts, La, Ll.
      repeat split; try reflexivity; try assumption.
      * intros b' ->%Hsame. exact Heq.
      * left. split; reflexivity.
Qed.

(* ===================================================================== *)
(** ** Files as lines                                                     *)
(* ===================================================================== *)

Section Lines.

Lemma read_line_line l : forall n rest,
  no_newline l = true -> (length l < n)%nat ->
  read_line n (l ++ newline :: rest) = (l ++ [newline], rest).
Proof.
  induction l as [|c l IH]; intros n rest Hn Hl; destruct n as [|n];
    cbn [length] in Hl; try lia.
  - reflexivity.
  - cbn [no_newline forallb] in Hn. apply andb_true_iff in Hn.
    destruct Hn as [Hc Hn]. apply negb_true_iff in Hc.
    cbn [app read_line]. rewrite Hc, (IH n rest Hn) by lia. reflexivity.
Qed.

Lemma fgets_line n l s rest :
  fits n l = true ->
  fgets s n (l ++ newline :: rest) = Some (line_in l s, rest).
Proof.
  unfold fits. intros [Hn Hl%Nat.ltb_lt]%andb_true_iff.
  unfold fgets. destruct (l ++ newline :: rest) as [|c fp] eqn:E.
  { destruct l; discriminate E. }
  rewrite <- E, (read_line_line l (n - 1) rest Hn) by lia.
  unfold line_in. rewrite <- app_assoc, length_app. cbn [app length].
  repeat f_equal. lia.
Qed.

Lemma GN_READLINE_line l s rest :
  fits 255 l = true ->
  GN_READLINE (s, l ++ newline :: rest) = (line_in l s, rest).
Proof.
  intros Hl. unfold GN_READLINE. cbn [fst snd].
  rewrite (fgets_line 255 l s rest Hl). reflexivity.
Qed.

(** Reading as many lines as [ls] has leaves the last of them in the
    array. *)
Lemma GN_READLINE_lines ls : forall l s rest,
  forallb (fits 255) (ls ++ [l]) = true ->
  exists s',
    Nat.iter (length (ls ++ [l])) GN_READLINE (s, lines (ls ++ [l]) rest)
    = (line_in l s', rest).
Proof.
  induction ls as [|l0 ls IH]; intros l s rest Hf.
  - cbn [app forallb] in Hf. apply andb_true_iff in Hf. destruct Hf as [Hl _].
    exists s. cbn [app length Nat.iter nat_rect lines fold_right].
    apply GN_READLINE_line. exact Hl.
  - cbn [app forallb] in Hf. apply andb_true_iff in Hf. destruct Hf as [Hl0 Hf].
    destruct (IH l (line_in l0 s) rest Hf) as [s' Hs'].
    exists s'. cbn [app length]. rewrite Nat.iter_succ_r.
    cbn [lines fold_right]. rewrite (GN_READLINE_line l0 s _ Hl0).
    exact Hs'.
Qed.

Lemma cstr_no_nul x tail : no_nul x = true -> cstr (x ++ NUL :: tail) = x.
Proof.
  induction x as [|c x IH]; cbn [no_nul forallb app cstr].
  - intros _. reflexivity.
  - intros [Hc Hx]%andb_true_iff. apply negb_true_iff in Hc.
    rewrite Hc, (IH Hx). reflexivity.
Qed.

Lemma no_nul_app x y : no_nul (x ++ y) = no_nul x && no_nul y.
Proof. apply forallb_app. Qed.

Lemma no_nul_skipn k x : no_nul x = true -> no_nul (skipn k x) = true.
Proof.
  intros Hx. rewrite <- (firstn_skipn k x), no_nul_app in Hx.
  apply andb_true_iff in Hx. tauto.
Qed.

(** The C string at column [length label] of a stored line is the text
    behind the label, with the newline. *)
Lemma cstr_at_line_in label v s :
  no_nul (label ++ v) = true ->
  cstr_at (line_in (label ++ v) s) (length label) = v ++ [newline].
Proof.
  intros Hn. unfold cstr_at, line_in.
  rewrite <- app_assoc.
  rewrite skipn_app, skipn_all, Nat.sub_diag. cbn [app skipn].
  change (v ++ newline :: NUL :: ?t) with (v ++ [newline] ++ NUL :: t).
  rewrite app_assoc. apply cstr_no_nul.
  rewrite no_nul_app in Hn. apply andb_true_iff in Hn. destruct Hn as [_ Hv].
  rewrite no_nul_app, Hv. reflexivity.
Qed.

End Lines.

Section StrtolNewline.

Lemma strtol_digits_newline base s : forall acc,
  strtol_digits base (s ++ [newline]) acc = strtol_digits base s acc.
Proof.
  induction s as [|c s IH]; intros acc; cbn [app strtol_digits].
  - reflexivity.
  - destruct (digit_val c) as [d|]; [|reflexivity].
    destruct (d <? base); [apply IH | reflexivity].
Qed.

Lemma skip_space_newline s :
  (skip_space (s ++ [newline]) = [] /\ skip_space s = [])
  \/ (skip_space (s ++ [newline]) = skip_space s ++ [newline]
      /\ exists c t, skip_space s = c :: t).
Proof.
  induction s as [|c s IH]; cbn [app skip_space].
  - left. split; reflexivity.
  - destruct (isspace c); [exact IH|]. right. eauto.
Qed.

(** [strtol] in base 10 does not see the newline behind a text. *)
Lemma strtol_newline s : strtol (s ++ [newline]) 10 = strtol s 10.
Proof.
  unfold strtol.
  destruct (skip_space_newline s) as [[-> ->] | (-> & c & t & ->)];
    [reflexivity|].
  cbn [app strip_sign].
  destruct (Ascii.eqb c "-"); [|destruct (Ascii.eqb c "+")];
    unfold strip_0x; change (10 =? 16) with false; cbv iota;
    try (rewrite strtol_digits_newline; reflexivity).
  change (c :: t ++ [newline]) with ((c :: t) ++ [newline]).
  rewrite strtol_digits_newline. reflexivity.
Qed.

End StrtolNewline.

Section BlockLinesFacts.
Context `{Platform}.

Lemma block_text_lines loc bl fp' :
  head_well_formed bl = true ->
  block_text loc (lines (head_lines bl) fp')
  = Some (Blk (strtol (bl_seq bl) 10)
              (line_in (bl_time bl) (time0 loc))
              (strtod (bl_temp bl ++ [newline]))
              (strtod (bl_fs bl ++ [newline]))
              fp').
Proof.
  unfold head_well_formed. cbn [forallb].
  intros Hw. split_andb.
  unfold block_text, head_lines.
  destruct (GN_READLINE_lines [bl_1 bl; bl_2 bl] (bl_seq_label bl ++ bl_seq bl)
              (buff0 loc)
              (lines [bl_time bl; bl_5 bl; bl_temp_label bl ++ bl_temp bl; bl_7 bl;
                      bl_8 bl; bl_fs_label bl ++ bl_fs bl] fp')) as [s3 E3].
  { all_fit. }
  cbn [app length lines fold_right] in E3. cbn [lines fold_right].
  rewrite E3. clear E3.
  rewrite (fgets_line 40 (bl_time bl) (time0 loc)) by assumption.
  destruct (GN_READLINE_lines [bl_5 bl] (bl_temp_label bl ++ bl_temp bl)
              (line_in (bl_seq_label bl ++ bl_seq bl) s3)
              (lines [bl_7 bl; bl_8 bl; bl_fs_label bl ++ bl_fs bl] fp')) as [s6 E6].
  { all_fit. }
  cbn [app length lines fold_right] in E6. rewrite E6. clear E6.
  destruct (GN_READLINE_lines [bl_7 bl; bl_8 bl] (bl_fs_label bl ++ bl_fs bl)
              (line_in (bl_temp_label bl ++ bl_temp bl) s6) fp') as [s9 E9].
  { all_fit. }
  cbn [app length lines fold_right] in E9. rewrite E9. clear E9.
  replace 22%nat with (length (bl_fs_label bl)) by assumption.
  rewrite cstr_at_line_in by assumption.
  replace 16%nat with (length (bl_seq_label bl)) by assumption.
  rewrite cstr_at_line_in by assumption.
  replace 12%nat with (length (bl_temp_label bl)) by assumption.
  rewrite cstr_at_line_in by assumption.
  rewrite strtol_newline. reflexivity.
Qed.

End BlockLinesFacts.

Section WellFormedBlock.
Context `{Platform}.

Lemma strlen_line_in d s : no_nul d = true -> strlen (line_in d s) = Z.of_nat (length d) + 1.
Proof.
  intros Hd. unfold strlen, line_in.
  change (d ++ newline :: NUL :: ?t) with (d ++ [newline] ++ NUL :: t).
  rewrite app_assoc, cstr_no_nul.
  - rewrite length_app. cbn [length]. lia.
  - rewrite no_nul_app, Hd. reflexivity.
Qed.

Lemma data_line_read loc bl rest :
  data_well_formed bl = true ->
  fgets (data_str0 loc) 3610 (bl_data bl ++ newline :: rest)
  = Some (line_in (bl_data bl) (data_str0 loc), rest)
  /\ 3601 <= strlen (line_in (bl_data bl) (data_str0 loc)).
Proof.
  unfold data_well_formed. intros Hw.
  apply andb_true_iff in Hw. destruct Hw as [Hw Hlen].
  apply andb_true_iff in Hw. destruct Hw as [Hfit Hnul].
  apply Nat.leb_le in Hlen.
  split; [apply fgets_line; exact Hfit|].
  rewrite strlen_line_in by exact Hnul. lia.
Qed.

(** A field inside the text of the data line does not depend on what is
    behind the text. *)
Lemma field_line_in d s off c :
  0 <= off -> off + 3 <= Z.of_nat (length d) ->
  field (line_in d s) off c = field d off c.
Proof.
  intros H0 H3. unfold field, memcpy, line_in.
  rewrite skipn_app, firstn_app, length_skipn.
  replace (3 - (length d - Z.to_nat off))%nat with 0%nat by lia.
  cbn [firstn]. rewrite app_nil_r. reflexivity.
Qed.

Lemma seen_max_n N info : max_n (seen N info) = Z.max (max_n info) N.
Proof.
  unfold seen. cbn [max_n set_max_n]. destruct (N >? max_n info) eqn:E; lia.
Qed.

(** X4.  A block of ten well-formed lines, for which the buffers have room
    and which is no second mismatch of the rate, is decoded, provided that
    each field of its data line is read inside the array [p] (the scan of
    [strtol] ends within its four bytes, of which the decoder never writes
    the last): the call returns success or the warning, the file is left
    behind the data line, the sequence number is [strtol] of the text
    behind column 16 of line 3, the temperature is [strtod] of the text
    behind column 12 of line 6, and the samples are the fields of line 10,
    at the offset of the sequence number. *)
Theorem well_formed_block_is_decoded loc w info data bl rest :
  head_well_formed bl = true ->
  data_well_formed bl = true ->
  fields_inside (bl_data bl) (p3 loc) = true ->
  room (strtol (bl_seq bl) 10) data ->
  fne (strtod (bl_fs bl ++ [newline])) (fs info) && (fs_err info >=? 1) = false ->
  exists r,
    geneactiv_read_block loc (block_file bl rest) w info data = Some r
    /\ decoded (code r)
    /\ file r = rest
    /\ max_n (info_of r) = Z.max (max_n info) (strtol (bl_seq bl) 10)
    /\ forall j, 0 <= j < GN_SAMPLES ->
         let N := strtol (bl_seq bl) 10 in
         get (temp (data_of r)) (N * GN_SAMPLES + j)
         = Some (strtod (bl_temp bl ++ [newline]))
         /\ get (ts (data_of r)) (N * GN_SAMPLES + j)
            = Some (block_t0 (line_in (bl_time bl) (time0 loc))
                    + double_of_Z j / fs (info_of r))%float
         /\ (exists t_,
               field (bl_data bl) (12 * j + 9) (p3 loc) = Some t_
               /\ get (light (data_of r)) (N * GN_SAMPLES + j)
                  = Some (light_value info t_))
         /\ forall k, 0 <= k < 3 ->
              exists t_,
                field (bl_data bl) (12 * j + k * 3) (p3 loc) = Some t_
                /\ get (acc (data_of r)) (N * GN_SAMPLES * 3 + 3 * j + k)
                   = Some (calibrate info k (adjust t_)).
Proof.
  intros Hhead Hdata Hp Hroom Hm.
  pose proof (block_text_lines loc bl (bl_data bl ++ newline :: rest) Hhead) as Hb.
  destruct (data_line_read loc bl rest Hdata) as [Hg Hlen].
  assert (Hd : (3600 <= length (bl_data bl))%nat).
  { unfold data_well_formed in Hdata. apply andb_true_iff in Hdata.
    destruct Hdata as [_ Hd]. apply Nat.leb_le in Hd. exact Hd. }
  fold (block_file bl rest) in Hb.
  destruct (read_block_total loc (block_file bl rest) w info data
              (Blk (strtol (bl_seq bl) 10) (line_in (bl_time bl) (time0 loc))
                   (strtod (bl_temp bl ++ [newline]))
                   (strtod (bl_fs bl ++ [newline]))
                   (bl_data bl ++ newline :: rest))
              (line_in (bl_data bl) (data_str0 loc)) rest)
    as (r & Hrun & Hdec);
    [ | exact Hb | exact Hroom | exact Hg | exact Hlen | exact Hm |].
  { apply fields_inside_spec. intros g k Hg' Hk.
    rewrite field_line_in by lia.
    apply (proj1 (fields_inside_spec _ _) Hp); assumption. }
  exists r. split; [exact Hrun|]. split; [exact Hdec|].
  destruct (read_block_inv _ _ _ _ _ _ Hrun Hdec)
    as (b' & ds & Hb' & Hg' & _ & Hi & Hs).
  rewrite Hb in Hb'. injection Hb' as <-. cbn [bt_fp bt_N bt_fs] in Hg', Hi.
  rewrite Hg in Hg'. injection Hg' as <- <-.
  split; [reflexivity|].
  assert (Hinfo : max_n (info_of r) = Z.max (max_n info) (strtol (bl_seq bl) 10)
                  /\ gain (info_of r) = gain info /\ offset (info_of r) = offset info
                  /\ lux (info_of r) = lux info /\ volts (info_of r) = volts info).
  { destruct (fne _ (fs info)).
    - destruct Hi as (_ & _ & ->). split; [apply seen_max_n|]. repeat split.
    - destruct Hi as (_ & ->). split; [apply seen_max_n|]. repeat split. }
  destruct Hinfo as (Hmax & Egain & Eoff & Elux & Evolts).
  split; [exact Hmax|].
  destruct Hs as (_ & _ & _ & _ & Hin & _). cbn [bt_N bt_temp bt_time] in Hin.
  intros j Hj. cbv zeta. destruct (Hin j Hj) as (Ht & Hts & Hl & Ha).
  split; [exact Ht|]. split; [exact Hts|]. split.
  - destruct Hl as (t_ & Hf & Hget). exists t_.
    rewrite field_line_in in Hf by (unfold GN_SAMPLES in Hj; lia).
    split; [exact Hf|]. rewrite Hget. unfold light_value.
    rewrite Elux, Evolts. reflexivity.
  - intros k Hk. destruct (Ha k Hk) as (t_ & Hf & Hget). exists t_.
    rewrite field_line_in in Hf by (unfold GN_SAMPLES in Hj; lia).
    split; [exact Hf|]. rewrite Hget. unfold calibrate.
    rewrite Egain, Eoff. reflexivity.
Qed.

End WellFormedBlock.

(* ===================================================================== *)
(** ** Calls that do not decode their block                               *)
(* ===================================================================== *)

Section BlockEdges.
Context `{Platform}.


(** X14.  The day indexer runs in a call exactly when the call decodes its
    block: then it has run once, on the indexing state of the caller, with
    the rate after a correction, the clock time of the block (the field
    [msec] in microseconds), [max_n] after the update and the number of
    pages; a call that returns an error leaves the indexing state as it
    was. *)
Theorem indexing_runs_once_per_decoded_block loc fp w info data r :
  geneactiv_read_block loc fp w info data = Some r ->
  (decoded (code r) ->
   exists b,
     block_text loc fp = Some b
     /\ w_info r
        = get_day_indexing (fs (info_of r))
            (MkTime (GN_DATE_HOUR (bt_time b)) (GN_DATE_MIN (bt_time b))
                    (GN_DATE_SEC (bt_time b)) (GN_DATE_MSEC (bt_time b) * 1000))
            (max_n (info_of r)) (npages info) w)
  /\ (~ decoded (code r) -> w_info r = w).
Proof.
  intros Hrun.
  assert (Hd : forall b info1 data1 ier,
            decoded ier -> npages info1 = npages info ->
            read_block_data loc (bt_fp b) w info1 data1 (bt_N b * GN_SAMPLES)
                            (bt_time b) ier = Some r ->
            (decoded (code r) ->
             w_info r
             = get_day_indexing (fs (info_of r))
                 (MkTime (GN_DATE_HOUR (bt_time b)) (GN_DATE_MIN (bt_time b))
                         (GN_DATE_SEC (bt_time b)) (GN_DATE_MSEC (bt_time b) * 1000))
                 (max_n (info_of r)) (npages info) w)
            /\ (~ decoded (code r) -> w_info r = w)).
  { intros b info1 data1 ier Hier Hnp Hr. apply read_block_data_cases in Hr.
    destruct Hr as [[_ ->] | [(ds & fp' & _ & _ & ->) |
                               (ds & fp' & d1 & ts' & _ & _ & _ & _ & ->)]];
      cbn [code w_info info_of].
    - split; [intros [D|D]; discriminate D | reflexivity].
    - split; [intros [D|D]; discriminate D | reflexivity].
    - split; [intros _; rewrite Hnp; reflexivity | intros Hn; contradiction]. }
  destruct (read_block_cases _ _ _ _ _ _ Hrun)
    as [[_ [N ->]] | (b & temp' & Hb & _ & Hcase)].
  - cbn [code w_info]. split; [intros [D|D]; discriminate D | reflexivity].
  - destruct Hcase as [(_ & _ & ->) | [(_ & _ & Hr) | (_ & Hr)]].
    + cbn [code w_info]. split; [intros [D|D]; discriminate D | reflexivity].
    + pose proof (fun D E => Hd b _ _ _ D E Hr) as Hd'.
      destruct (Hd' (or_intror eq_refl) eq_refl) as [H1 H2].
      split; [intros D; exists b; split; [exact Hb | exact (H1 D)] | exact H2].
    + pose proof (fun D E => Hd b _ _ _ D E Hr) as Hd'.
      destruct (Hd' (or_introl eq_refl) eq_refl) as [H1 H2].
      split; [intros D; exists b; split; [exact Hb | exact (H1 D)] | exact H2].
Qed.


(** X10.  A first mismatch of the rate on a block whose data line is
    missing or short: the call returns the data error, not the warning, and
    yet the rate of [*info] has become the rate of the block and the
    mismatch counter has been incremented. *)
Theorem rate_correction_survives_data_error loc fp w info data b :
  block_text loc fp = Some b ->
  room (bt_N b) data ->
  fne (bt_fs b) (fs info) = true ->
  fs_err info < 1 ->
  line_length (bt_fp b) < 3600 ->
  exists r,
    geneactiv_read_block loc fp w info data = Some r
    /\ code r = match bt_fp b with
                | [] => GN_READ_E_BLOCK_DATA
                | _ :: _ => GN_READ_E_BLOCK_DATA_3600
                end
    /\ fs (info_of r) = bt_fs b
    /\ fs_err (info_of r) = fs_err info + 1.
Proof.
  intros Hb Hroom Hm He Hl.
  rewrite (read_block_unfold _ _ _ _ _ _ Hb). cbv zeta.
  destruct (room_in_range _ _ Hroom) as [-> Htl]. rewrite Htl.
  destruct (room_fill b data Hroom) as (temp' & Hf & _).
  rewrite Hf. cbn [mbind option_bind]. rewrite Hm.
  destruct (fs_err info <? 1) eqn:E1; [|lia]. cbn [andb].
  destruct (read_block_data_short loc (bt_fp b) w
              (corrected (bt_fs b) (seen (bt_N b) info)) (set_temp temp' data)
              (bt_N b * GN_SAMPLES) (bt_time b) GN_READ_E_BLOCK_FS_WARN Hl)
    as [fp' ->].
  eexists. split; [reflexivity|]. cbn. repeat split.
Qed.

Lemma read_line_no_newline fp : forall n,
  no_newline fp = true -> (length fp <= n)%nat -> read_line n fp = (fp, []).
Proof.
  induction fp as [|c fp IH]; intros n Hn Hl; destruct n as [|n];
    cbn [length] in Hl; try lia; try reflexivity.
  cbn [no_newline forallb] in Hn. apply andb_true_iff in Hn.
  destruct Hn as [Hc Hn]. apply negb_true_iff in Hc.
  cbn [read_line]. rewrite Hc, (IH n Hn) by lia. reflexivity.
Qed.

(** X11.  The length check counts the newline: a data line that ends the
    file without a newline is rejected with [GN_READ_E_BLOCK_DATA_3600]
    even when it has all 3600 characters, and no timestamp, acceleration or
    light is stored. *)
Theorem unterminated_data_line_is_rejected loc fp w info data b :
  block_text loc fp = Some b ->
  room (bt_N b) data ->
  fne (bt_fs b) (fs info) && (fs_err info >=? 1) = false ->
  no_newline (bt_fp b) = true ->
  (0 < length (bt_fp b) <= 3600)%nat ->
  exists r,
    geneactiv_read_block loc fp w info data = Some r
    /\ code r = GN_READ_E_BLOCK_DATA_3600
    /\ file r = []
    /\ ts (data_of r) = ts data
    /\ acc (data_of r) = acc data
    /\ light (data_of r) = light data.
Proof.
  intros Hb Hroom Hm Hn Hl.
  rewrite (read_block_unfold _ _ _ _ _ _ Hb). cbv zeta.
  destruct (room_in_range _ _ Hroom) as [-> Htl]. rewrite Htl.
  destruct (room_fill b data Hroom) as (temp' & Hf & _).
  rewrite Hf. cbn [mbind option_bind]. rewrite Hm.
  assert (Hfin : forall info1 ier,
    read_block_data loc (bt_fp b) w info1 (set_temp temp' data)
                    (bt_N b * GN_SAMPLES) (bt_time b) ier
    = Some (Out GN_READ_E_BLOCK_DATA_3600 [] w info1 (set_temp temp' data))).
  { intros info1 ier. unfold read_block_data, fgets.
    destruct (bt_fp b) as [|c d] eqn:Ed; [cbn [length] in Hl; lia|].
    rewrite (read_line_no_newline (c :: d) (3610 - 1) Hn) by lia.
    destruct (strlen _ <? 3601) eqn:E; [reflexivity|].
    exfalso. apply Z.ltb_ge in E. unfold strlen in E.
    pose proof (cstr_terminated (c :: d) (skipn (S (length (c :: d))) (data_str0 loc))).
    lia. }
  destruct (fne (bt_fs b) (fs info) && (fs_err info <? 1)); rewrite Hfin;
    eexists; (split; [reflexivity|]); cbn; repeat split.
Qed.

End BlockEdges.

(* ===================================================================== *)
(** ** The header, line by line                                           *)
(* ===================================================================== *)

Section Parseline.

Lemma strspn_colon_token c s : Ascii.eqb c colon = false -> strspn_colon (c :: s) = 0%nat.
Proof. intros E. cbn [strspn_colon]. rewrite E. reflexivity. Qed.

Lemma strcspn_colon_token x : forall y,
  token x = true -> strcspn_colon (x ++ y) = (length x + strcspn_colon y)%nat.
Proof.
  induction x as [|c x IH]; intros y; cbn [token forallb app length strcspn_colon].
  - reflexivity.
  - intros [[Hn Hc]%andb_true_iff Hx]%andb_true_iff.
    apply negb_true_iff in Hn, Hc. rewrite Hn, Hc. cbn [orb].
    rewrite (IH y Hx). reflexivity.
Qed.

Lemma token_no_nul x : token x = true -> no_nul x = true.
Proof.
  unfold token, no_nul. rewrite !forallb_forall.
  intros Hx c Hc. specialize (Hx c Hc). apply andb_true_iff in Hx. tauto.
Qed.

Lemma token_head c x : token (c :: x) = true ->
  Ascii.eqb c NUL = false /\ Ascii.eqb c colon = false.
Proof.
  cbn [token forallb]. intros [[Hn Hc]%andb_true_iff _]%andb_true_iff.
  apply negb_true_iff in Hn, Hc. tauto.
Qed.

Lemma skipn_app_length {A} (x y : list A) : skipn (length x) (x ++ y) = y.
Proof. rewrite skipn_app, skipn_all, Nat.sub_diag. reflexivity. Qed.

(** The first token of an array that starts with a token and ends it with
    a NUL: nothing is written. *)
Lemma strtok_at_last x t p pre :
  length pre = p -> token x = true -> x <> [] ->
  strtok_at (pre ++ x ++ NUL :: t) p
  = (Some p, pre ++ x ++ NUL :: t, (p + length x)%nat).
Proof.
  intros <- Hx Hne. unfold strtok_at.
  destruct x as [|c x]; [contradiction|].
  destruct (token_head c x Hx) as [Hn Hc].
  set (s := pre ++ (c :: x) ++ NUL :: t).
  assert (E1 : skipn (length pre) s = (c :: x) ++ NUL :: t)
    by apply skipn_app_length.
  assert (E0 : strspn_colon ((c :: x) ++ NUL :: t) = 0%nat)
    by apply (strspn_colon_token c _ Hc).
  assert (E2 : strcspn_colon ((c :: x) ++ NUL :: t) = length (c :: x)).
  { rewrite (strcspn_colon_token (c :: x) (NUL :: t) Hx).
    cbn [strcspn_colon]. change (Ascii.eqb NUL NUL) with true. cbn [orb]. lia. }
  assert (E3 : skipn (length pre + length (c :: x)) s = NUL :: t).
  { unfold s. rewrite app_assoc, <- length_app. apply skipn_app_length. }
  rewrite E1, E0, Nat.add_0_r, E1, E2, E3. cbn [app]. rewrite Hn.
  change (Ascii.eqb NUL NUL) with true. reflexivity.
Qed.

(** The first token of an array that starts with a token and ends it with
    a colon: the colon is overwritten by a NUL. *)
Lemma strtok_at_colon x t :
  token x = true -> x <> [] ->
  strtok_at (x ++ colon :: t) 0 = (Some 0%nat, x ++ NUL :: t, S (length x)).
Proof.
  intros Hx Hne. unfold strtok_at. cbn [skipn Nat.add].
  destruct x as [|c x]; [contradiction|].
  destruct (token_head c x Hx) as [Hn Hc].
  set (s := (c :: x) ++ colon :: t).
  assert (E0 : strspn_colon s = 0%nat) by apply (strspn_colon_token c _ Hc).
  assert (E2 : strcspn_colon s = length (c :: x)).
  { unfold s. rewrite (strcspn_colon_token (c :: x) (colon :: t) Hx).
    cbn [strcspn_colon]. change (Ascii.eqb colon NUL) with false.
    change (Ascii.eqb colon colon) with true. cbn [orb]. lia. }
  assert (E3 : skipn (length (c :: x)) s = colon :: t) by apply skipn_app_length.
  change (skipn 0 s) with s. rewrite E0. change (skipn 0 s) with s.
  cbn [Nat.add]. rewrite E2, E3.
  change (Ascii.eqb colon NUL) with false.
  assert (E4 : <[length (c :: x) := NUL]> s = (c :: x) ++ NUL :: t).
  { unfold s. rewrite insert_app_r_alt by lia. rewrite Nat.sub_diag. reflexivity. }
  rewrite E4. unfold s. cbn [app]. rewrite Hn. reflexivity.
Qed.

(** No token at a NUL. *)
Lemma strtok_at_nul pre t p :
  length pre = p -> strtok_at (pre ++ NUL :: t) p = (None, pre ++ NUL :: t, p).
Proof.
  intros <-. unfold strtok_at. rewrite skipn_app_length.
  cbn [strspn_colon]. change (Ascii.eqb NUL colon) with false.
  rewrite Nat.add_0_r, skipn_app_length.
  change (Ascii.eqb NUL NUL) with true. reflexivity.
Qed.

Lemma token_app x y : token (x ++ y) = token x && token y.
Proof. apply forallb_app. Qed.

Lemma fits_no_newline n l : fits n l = true -> no_newline l = true.
Proof. unfold fits. intros [? _]%andb_true_iff. assumption. Qed.

(** [parseline] on a line [key:value]. *)
Lemma parseline_key_value k v s n rest :
  token k = true -> k <> [] -> token v = true -> fits n (k ++ colon :: v) = true ->
  exists buff',
    parseline ((k ++ colon :: v) ++ newline :: rest) s n
    = (buff', rest, Some 0%nat, Some (S (length k)))
    /\ cstr_at buff' 0 = k
    /\ cstr_at buff' (S (length k)) = v ++ [newline].
Proof.
  intros Hk Hne Hv Hfit. unfold parseline.
  rewrite (fgets_line n _ s rest Hfit). unfold line_in.
  rewrite <- app_assoc. cbn [app].
  set (t := skipn _ s).
  rewrite (strtok_at_colon k _ Hk Hne).
  assert (Hvn : token (v ++ [newline]) = true).
  { rewrite token_app, Hv. reflexivity. }
  assert (Hvne : v ++ [newline] <> []) by (destruct v; discriminate).
  pose proof (strtok_at_last (v ++ [newline]) t (S (length k)) (k ++ [NUL])) as Ht.
  rewrite <- !app_assoc in Ht. cbn [app] in Ht.
  rewrite Ht; [|rewrite length_app; cbn [length]; lia | exact Hvn | exact Hvne].
  eexists. split; [reflexivity|]. split.
  - unfold cstr_at. cbn [skipn]. apply cstr_no_nul, token_no_nul, Hk.
  - unfold cstr_at.
    change (k ++ NUL :: ?x) with (k ++ [NUL] ++ x).
    rewrite app_assoc.
    replace (S (length k)) with (length (k ++ [NUL]))
      by (rewrite length_app; cbn [length]; lia).
    rewrite skipn_app_length.
    change (v ++ newline :: NUL :: t) with (v ++ [newline] ++ NUL :: t).
    rewrite app_assoc. apply cstr_no_nul, token_no_nul, Hvn.
Qed.

(** [parseline] on a line without a colon: the value is NULL. *)
Lemma parseline_no_colon l s n rest :
  token l = true -> fits n l = true ->
  parseline (l ++ newline :: rest) s n = (line_in l s, rest, Some 0%nat, None).
Proof.
  intros Hl Hfit. unfold parseline.
  rewrite (fgets_line n _ s rest Hfit). unfold line_in.
  set (t := skipn _ s).
  assert (Hln : token (l ++ [newline]) = true).
  { rewrite token_app, Hl. reflexivity. }
  assert (Hlne : l ++ [newline] <> []) by (destruct l; discriminate).
  pose proof (strtok_at_last (l ++ [newline]) t 0 [] eq_refl Hln Hlne) as Ht.
  rewrite <- app_assoc in Ht. cbn [app] in Ht. rewrite Ht.
  cbn [Nat.add].
  pose proof (strtok_at_nul (l ++ [newline]) t (length (l ++ [newline])) eq_refl) as Hn.
  rewrite <- app_assoc in Hn. cbn [app] in Hn. rewrite Hn. reflexivity.
Qed.

(** [parseline] at the end of the file, on the array a [key:value] line
    has left: the key is found again, the value is NULL. *)
Lemma parseline_end_of_file k x t n :
  token k = true -> k <> [] ->
  parseline [] (k ++ NUL :: x ++ NUL :: t) n
  = (k ++ NUL :: x ++ NUL :: t, [], Some 0%nat, None).
Proof.
  intros Hk Hne. unfold parseline. cbn [fgets].
  pose proof (strtok_at_last k (x ++ NUL :: t) 0 [] eq_refl Hk Hne) as Ht.
  cbn [app Nat.add] in Ht. rewrite Ht.
  rewrite (strtok_at_nul k (x ++ NUL :: t) (length k) eq_refl). reflexivity.
Qed.

End Parseline.

Section Header.

Lemma lines_app ls1 ls2 rest : lines (ls1 ++ ls2) rest = lines ls1 (lines ls2 rest).
Proof. unfold lines. apply fold_right_app. Qed.

(** Reading as many lines as [ls] has leaves the file behind them. *)
Lemma GN_READLINE_skip ls : forall n s rest,
  length ls = n -> forallb (fits 255) ls = true ->
  exists s', Nat.iter n GN_READLINE (s, lines ls rest) = (s', rest).
Proof.
  induction ls as [|l ls IH]; intros n s rest <- Hf.
  - exists s. reflexivity.
  - cbn [forallb] in Hf. apply andb_true_iff in Hf. destruct Hf as [Hl Hf].
    destruct (IH (length ls) (line_in l s) rest eq_refl Hf) as [s' Hs'].
    exists s'. cbn [length]. rewrite Nat.iter_succ_r.
    cbn [lines fold_right]. rewrite (GN_READLINE_line l s _ Hl). exact Hs'.
Qed.

Lemma kv_ok_spec l :
  kv_ok l = true ->
  token (kv_key l) = true /\ kv_key l <> [] /\ token (kv_value l) = true
  /\ fits 255 (kv_key l ++ colon :: kv_value l) = true.
Proof.
  unfold kv_ok, kv_text. destruct (kv_key l) as [|c k]; [discriminate|].
  intros [[Hk Hv]%andb_true_iff Hf]%andb_true_iff.
  repeat split; try assumption. discriminate.
Qed.

(** A [key:value] line is parsed, and its value converted. *)
Lemma parse_key_value l s rest :
  kv_ok l = true ->
  exists buff' v,
    parseline (kv_text l ++ newline :: rest) s 255 = (buff', rest, Some 0%nat, v)
    /\ parse_val buff' v = Some (number (kv_value l)).
Proof.
  intros (Hk & Hne & Hv & Hf)%kv_ok_spec.
  destruct (parseline_key_value _ _ s 255 rest Hk Hne Hv Hf) as (buff' & E & _ & Ev).
  exists buff', (Some (S (length (kv_key l)))). split; [exact E|].
  unfold parse_val, number. rewrite Ev, strtol_newline. reflexivity.
Qed.

Lemma read_gain_offset_lines j g o s (fp rest : FILE) info :
  kv_ok g = true -> kv_ok o = true ->
  fp = kv_text g ++ newline :: kv_text o ++ newline :: rest ->
  exists s',
    read_gain_offset j (s, fp, info)
    = Some (s', rest,
            set_offset j (number (kv_value o)) (set_gain j (number (kv_value g)) info)).
Proof.
  intros Hg Ho ->. unfold read_gain_offset.
  destruct (parse_key_value g s (kv_text o ++ newline :: rest) Hg)
    as (b1 & v1 & -> & ->).
  cbn [mbind option_bind].
  destruct (parse_key_value o b1 rest Ho) as (b2 & v2 & -> & ->).
  cbn [mbind option_bind]. eauto.
Qed.

(** One round of the loop over the axes, on its two lines. *)
Ltac gain_offset_step j g o :=
  match goal with
  | |- context [read_gain_offset j (?s, ?fp, ?i)] =>
      match fp with
      | _ ++ newline :: _ ++ newline :: ?rest' =>
          let s' := fresh "s" in
          destruct (read_gain_offset_lines j g o s fp rest' i) as [s' ->];
          [assumption | assumption | reflexivity |]
      end
  end.

(** X1.  A header of 59 well-formed lines is decoded: the call returns
    [GN_READ_E_NONE], the file is left behind line 59, the rate, the gains
    and the offsets are [strtol] of the values of their [key:value] lines
    (lines 20 and 48 to 53, whatever the keys are), the volts, the lux and
    the number of pages are [strtol] of the text behind columns 6, 4 and 16
    of lines 54, 55 and 58, and [max_n] and the mismatch counter are as they
    were. *)
Theorem well_formed_header_is_decoded buff h rest info :
  header_well_formed h = true ->
  geneactiv_read_header buff (header_file h rest) info
  = Some (GN_READ_E_NONE, rest,
          Info (number (kv_value (hl_fs h)))
               (Axes (number (kv_value (hl_gain0 h)))
                     (number (kv_value (hl_gain1 h)))
                     (number (kv_value (hl_gain2 h))))
               (Axes (number (kv_value (hl_offset0 h)))
                     (number (kv_value (hl_offset1 h)))
                     (number (kv_value (hl_offset2 h))))
               (number (hl_volts h)) (number (hl_lux h))
               (strtol (hl_npages h) 10) (max_n info) (fs_err info)).
Proof.
  unfold header_well_formed. cbn [forallb]. intros Hw. split_andb.
  unfold geneactiv_read_header, header_file.
  match goal with
  | E : length (hl_1_19 h) = _, F : forallb _ (hl_1_19 h) = true |- _ =>
      destruct (GN_READLINE_skip (hl_1_19 h) 19 buff
                  (lines [kv_text (hl_fs h)]
                     (lines (hl_21_47 h)
                        (lines [kv_text (hl_gain0 h); kv_text (hl_offset0 h);
                                kv_text (hl_gain1 h); kv_text (hl_offset1 h);
                                kv_text (hl_gain2 h); kv_text (hl_offset2 h);
                                hl_volts_label h ++ hl_volts h;
                                hl_lux_label h ++ hl_lux h;
                                hl_56 h; hl_57 h;
                                hl_npages_label h ++ hl_npages h;
                                hl_59 h] rest))) E F) as [s1 ->]
  end.
  change (lines [kv_text (hl_fs h)] ?x) with (kv_text (hl_fs h) ++ newline :: x).
  match goal with
  | E : kv_ok (hl_fs h) = true |- _ =>
      destruct (parse_key_value (hl_fs h) s1
                  (lines (hl_21_47 h)
                     (lines [kv_text (hl_gain0 h); kv_text (hl_offset0 h);
                             kv_text (hl_gain1 h); kv_text (hl_offset1 h);
                             kv_text (hl_gain2 h); kv_text (hl_offset2 h);
                             hl_volts_label h ++ hl_volts h;
                             hl_lux_label h ++ hl_lux h;
                             hl_56 h; hl_57 h;
                             hl_npages_label h ++ hl_npages h;
                             hl_59 h] rest)) E) as (s2 & v2 & -> & ->)
  end.
  cbn [mbind option_bind].
  match goal with
  | E : length (hl_21_47 h) = _, F : forallb _ (hl_21_47 h) = true |- _ =>
      destruct (GN_READLINE_skip (hl_21_47 h) 27 s2
                  (lines [kv_text (hl_gain0 h); kv_text (hl_offset0 h);
                          kv_text (hl_gain1 h); kv_text (hl_offset1 h);
                          kv_text (hl_gain2 h); kv_text (hl_offset2 h);
                          hl_volts_label h ++ hl_volts h;
                          hl_lux_label h ++ hl_lux h;
                          hl_56 h; hl_57 h;
                          hl_npages_label h ++ hl_npages h;
                          hl_59 h] rest) E F) as [s3 ->]
  end.
  cbn [lines fold_right].
  gain_offset_step 0 (hl_gain0 h) (hl_offset0 h). cbn [mbind option_bind].
  gain_offset_step 1 (hl_gain1 h) (hl_offset1 h). cbn [mbind option_bind].
  gain_offset_step 2 (hl_gain2 h) (hl_offset2 h). cbn [mbind option_bind].
  match goal with
  | |- context [GN_READLINE (?s, _)] =>
      rewrite (GN_READLINE_line (hl_volts_label h ++ hl_volts h) s) by assumption
  end.
  rewrite (GN_READLINE_line (hl_lux_label h ++ hl_lux h)) by assumption.
  match goal with
  | |- context [Nat.iter 3 GN_READLINE (?s, _)] =>
      destruct (GN_READLINE_lines [hl_56 h; hl_57 h]
                  (hl_npages_label h ++ hl_npages h) s
                  (hl_59 h ++ newline :: rest)) as [s7 E7]; [all_fit|]
  end.
  cbn [app length lines fold_right] in E7. rewrite E7. clear E7.
  rewrite (GN_READLINE_line (hl_59 h)) by assumption.
  replace 16%nat with (length (hl_npages_label h)) by assumption.
  rewrite cstr_at_line_in by assumption.
  replace 6%nat with (length (hl_volts_label h)) by assumption.
  rewrite cstr_at_line_in by assumption.
  replace 4%nat with (length (hl_lux_label h)) by assumption.
  rewrite cstr_at_line_in by assumption.
  rewrite !strtol_newline. reflexivity.
Qed.

(** X3.  The tokens of [parseline].  On a line [key:value] the key is at
    the start of the array and the value is the text behind the colon, up
    to and including the newline.  On a line without a colon the key is the
    whole line and the value is NULL.  At the end of the file nothing is
    read, and the array is tokenised again: where a [key:value] line has
    been parsed before, the key is found and the value is NULL. *)
Theorem parseline_tokens s n rest :
  (forall k v,
     token k = true -> k <> [] -> token v = true -> fits n (k ++ colon :: v) = true ->
     exists buff',
       parseline ((k ++ colon :: v) ++ newline :: rest) s n
       = (buff', rest, Some 0%nat, Some (S (length k)))
       /\ cstr_at buff' 0 = k
       /\ cstr_at buff' (S (length k)) = v ++ [newline])
  /\ (forall l,
        token l = true -> fits n l = true ->
        parseline (l ++ newline :: rest) s n = (line_in l s, rest, Some 0%nat, None))
  /\ (forall k x t,
        token k = true -> k <> [] ->
        parseline [] (k ++ NUL :: x ++ NUL :: t) n
        = (k ++ NUL :: x ++ NUL :: t, [], Some 0%nat, None)).
Proof.
  split; [|split].
  - intros k v. apply parseline_key_value.
  - intros l. apply parseline_no_colon.
  - intros k x t. apply parseline_end_of_file.
Qed.

(** X2.  A header whose line 20 has no colon: [parseline] returns a NULL
    value, which the decoder passes to [strtol]; the behaviour of the call
    is undefined, and no error code is returned. *)
Theorem header_without_colon_is_undefined buff info pre l rest :
  length pre = 19%nat -> forallb (fits 255) pre = true ->
  token l = true -> fits 255 l = true ->
  geneactiv_read_header buff (lines pre (l ++ newline :: rest)) info = None.
Proof.
  intros Hlen Hpre Hl Hfit. unfold geneactiv_read_header.
  destruct (GN_READLINE_skip pre 19 buff (l ++ newline :: rest) Hlen Hpre) as [s1 ->].
  rewrite (parseline_no_colon l s1 255 rest Hl Hfit). reflexivity.
Qed.

End Header.

(* ===================================================================== *)
(** ** The range of the counts                                            *)
(* ===================================================================== *)

Section RawRange.
Context `{Platform}.

Lemma digit_val_nonneg c d : digit_val c = Some d -> 0 <= d.
Proof.
  unfold digit_val.
  destruct (_ && _) eqn:E1; [intros [= <-]; lia|].
  destruct (_ && _) eqn:E2 in |- *; [intros [= <-]; lia|].
  destruct (_ && _) eqn:E3 in |- *; [intros [= <-]; lia | discriminate].
Qed.

(** A scan of hexadecimal digits that stops inside the array has read
    fewer digits than the array has bytes. *)
Lemma strtol_digits_bound s : forall acc,
  digits_stop 16 s = true -> 0 <= acc ->
  acc <= strtol_digits 16 s acc
  /\ strtol_digits 16 s acc < (acc + 1) * 16 ^ (Z.of_nat (length s) - 1).
Proof.
  induction s as [|c s IH]; intros acc Hs Ha; cbn [digits_stop strtol_digits] in *;
    [discriminate|].
  assert (Hpow : 1 <= 16 ^ (Z.of_nat (length (c :: s)) - 1)).
  { cbn [length]. apply (Z.pow_le_mono_r 16 0); lia. }
  destruct (digit_val c) as [d|] eqn:Hd; [|nia].
  destruct (d <? 16) eqn:Hlt; [|nia].
  pose proof (digit_val_nonneg c d Hd) as Hd0.
  destruct (IH (acc * 16 + d) Hs) as [Hlo Hhi]; [lia|].
  split; [lia|].
  assert (Hlen : (0 < length s)%nat) by (destruct s; [discriminate Hs | cbn; lia]).
  cbn [length].
  replace (Z.of_nat (S (length s)) - 1) with (Z.succ (Z.of_nat (length s) - 1)) by lia.
  rewrite Z.pow_succ_r by lia.
  assert (0 < 16 ^ (Z.of_nat (length s) - 1)) by (apply Z.pow_pos_nonneg; lia).
  nia.
Qed.

Lemma NUL_tests :
  isspace NUL = false /\ digit_val NUL = None
  /\ Ascii.eqb NUL "-" = false /\ Ascii.eqb NUL "+" = false
  /\ Ascii.eqb NUL "0" = false /\ Ascii.eqb NUL "x" = false
  /\ Ascii.eqb NUL "X" = false.
Proof. repeat split. Qed.

Lemma cstr_cons c s : Ascii.eqb c NUL = false -> cstr (c :: s) = c :: cstr s.
Proof. intros E. cbn [cstr]. rewrite E. reflexivity. Qed.

Lemma cstr_nul s : cstr (NUL :: s) = [].
Proof. reflexivity. Qed.

Lemma skip_space_cstr s : skip_space (cstr s) = cstr (skip_space s).
Proof.
  induction s as [|c s IH]; [reflexivity|].
  destruct (Ascii.eqb c NUL) eqn:E.
  - apply Ascii.eqb_eq in E. subst c. reflexivity.
  - rewrite (cstr_cons c s E). cbn [skip_space].
    destruct (isspace c); [exact IH | rewrite (cstr_cons c s E); reflexivity].
Qed.

Lemma strip_sign_cstr s :
  strip_sign (cstr s) = (fst (strip_sign s), cstr (snd (strip_sign s))).
Proof.
  destruct s as [|c s]; [reflexivity|].
  destruct (Ascii.eqb c NUL) eqn:E.
  - apply Ascii.eqb_eq in E. subst c. reflexivity.
  - rewrite (cstr_cons c s E). cbn [strip_sign].
    destruct (Ascii.eqb c "-"); [reflexivity|].
    destruct (Ascii.eqb c "+"); [reflexivity|].
    cbn [fst snd]. rewrite (cstr_cons c s E). reflexivity.
Qed.

Lemma strip_0x_cstr base s : strip_0x base (cstr s) = cstr (strip_0x base s).
Proof.
  unfold strip_0x. destruct (base =? 16); [|reflexivity].
  destruct s as [|c0 s]; [reflexivity|].
  destruct (Ascii.eqb c0 NUL) eqn:E0.
  { apply Ascii.eqb_eq in E0. subst c0.
    destruct s as [|c1 s]; reflexivity. }
  rewrite (cstr_cons c0 s E0).
  destruct s as [|c1 s]; [cbn [cstr]; rewrite E0; reflexivity|].
  destruct (Ascii.eqb c1 NUL) eqn:E1.
  { apply Ascii.eqb_eq in E1. subst c1. rewrite cstr_nul.
    change (Ascii.eqb NUL "x" || Ascii.eqb NUL "X") with false.
    rewrite andb_false_r. rewrite (cstr_cons c0 _ E0), cstr_nul. reflexivity. }
  rewrite (cstr_cons c1 s E1).
  destruct (Ascii.eqb c0 "0" && (Ascii.eqb c1 "x" || Ascii.eqb c1 "X"));
    [reflexivity|].
  rewrite (cstr_cons c0 _ E0), (cstr_cons c1 s E1). reflexivity.
Qed.

Lemma strtol_digits_cstr base s : forall acc,
  strtol_digits base (cstr s) acc = strtol_digits base s acc.
Proof.
  induction s as [|c s IH]; intros acc; [reflexivity|].
  destruct (Ascii.eqb c NUL) eqn:E.
  - apply Ascii.eqb_eq in E. subst c. reflexivity.
  - rewrite (cstr_cons c s E). cbn [strtol_digits].
    destruct (digit_val c) as [d|]; [|reflexivity].
    destruct (d <? base); [apply IH | reflexivity].
Qed.

(** [strtol] reads an array up to its first NUL. *)
Lemma strtol_cstr s base : strtol (cstr s) base = strtol s base.
Proof.
  unfold strtol. rewrite skip_space_cstr, strip_sign_cstr.
  destruct (strip_sign (skip_space s)) as [neg s1]. cbn [fst snd].
  rewrite strip_0x_cstr, strtol_digits_cstr. reflexivity.
Qed.

Lemma skip_space_length s : (length (skip_space s) <= length s)%nat.
Proof.
  induction s as [|c s IH]; cbn [skip_space length]; [lia|].
  destruct (isspace c); cbn [length]; lia.
Qed.

Lemma strip_sign_length s :
  (length (snd (strip_sign s)) + (if fst (strip_sign s) then 1 else 0)
   <= length s)%nat.
Proof.
  destruct s as [|c s]; cbn [strip_sign]; [cbn; lia|].
  destruct (Ascii.eqb c "-"); [cbn; lia|].
  destruct (Ascii.eqb c "+"); cbn; lia.
Qed.

Lemma strip_0x_length base s : (length (strip_0x base s) <= length s)%nat.
Proof.
  unfold strip_0x. destruct (base =? 16); [|lia].
  destruct s as [|c0 [|c1 s]]; try lia.
  destruct (_ && _); cbn [length]; lia.
Qed.

(** The value of a field: at most three hexadecimal digits, or a sign and
    at most two. *)
Lemma field_range data_str off c t_ :
  field data_str off c = Some t_ -> -255 <= t_ <= 4095.
Proof.
  unfold field, memcpy.
  set (p := firstn 3 (skipn (Z.to_nat off) data_str) ++ skipn 3 [NUL; NUL; NUL; c]).
  assert (Hp : (length p <= 4)%nat).
  { unfold p. rewrite length_app, length_take. cbn [skipn length]. lia. }
  destruct (strtol_stops p 16) eqn:Hs; [|discriminate].
  intros [= <-]. rewrite strtol_cstr.
  unfold strtol_stops in Hs. unfold strtol.
  pose proof (skip_space_length p) as H1.
  pose proof (strip_sign_length (skip_space p)) as H2.
  destruct (strip_sign (skip_space p)) as [neg s1]. cbn [fst snd] in *.
  pose proof (strip_0x_length 16 s1) as H3.
  destruct (strtol_digits_bound _ 0 Hs) as [Hlo Hhi]; [lia|].
  set (v := strtol_digits 16 (strip_0x 16 s1) 0) in *.
  assert (Hpow : forall n : nat, (n <= 4)%nat -> 16 ^ (Z.of_nat n - 1) <= 4096
                                 /\ ((n <= 3)%nat -> 16 ^ (Z.of_nat n - 1) <= 256)).
  { intros n Hn. destruct n as [|[|[|[|[|n]]]]]; try lia; cbn; lia. }
  destruct (Hpow (length (strip_0x 16 s1))) as [P4 P3]; [lia|].
  unfold LONG_MIN, LONG_MAX.
  destruct neg; [specialize (P3 ltac:(lia))|]; lia.
Qed.

(** Whatever the characters of its field, the acceleration count is a
    12-bit two's complement number, and the light count has ten bits and a
    sign. *)
Lemma raw_range data_str off c t_ :
  field data_str off c = Some t_ ->
  -2048 <= adjust t_ <= 2047 /\ -64 <= Z.shiftr t_ 2 <= 1023.
Proof.
  intros Hr%field_range. split.
  - unfold adjust. destruct (t_ >? 2047) eqn:E; lia.
  - rewrite Z.shiftr_div_pow2 by lia. change (2 ^ 2) with 4.
    pose proof (Z.div_le_lower_bound t_ 4 (-64)).
    pose proof (Z.div_lt_upper_bound t_ 4 1024). lia.
Qed.

(** X12.  In a decoded block each of whose fields is read inside the
    array [p] (the scan of [strtol] ends within its four bytes, of which the
    decoder never writes the last), whatever the characters of the data
    line are, every acceleration stored is the calibration of an integer
    between -2048 and 2047, and every light value stored is the scaling of
    an integer between -64 and 1023. *)
Theorem decoded_counts_in_range loc fp w info data b data_str fp' r :
  block_text loc fp = Some b ->
  fgets (data_str0 loc) 3610 (bt_fp b) = Some (data_str, fp') ->
  fields_inside data_str (p3 loc) = true ->
  geneactiv_read_block loc fp w info data = Some r ->
  decoded (code r) ->
  forall j, 0 <= j < GN_SAMPLES ->
    (exists t_ s,
       field data_str (12 * j + 9) (p3 loc) = Some t_
       /\ s = Z.shiftr t_ 2
       /\ -64 <= s <= 1023
       /\ get (light (data_of r)) (bt_N b * GN_SAMPLES + j)
          = Some (double_of_Z s * (lux info / volts info))%float)
    /\ forall k, 0 <= k < 3 ->
         exists t_ a,
           field data_str (12 * j + k * 3) (p3 loc) = Some t_
           /\ a = adjust t_
           /\ -2048 <= a <= 2047
           /\ get (acc (data_of r)) (bt_N b * GN_SAMPLES * 3 + 3 * j + k)
              = Some ((double_of_Z a * 100 - axis_get (offset info) k)
                      / axis_get (gain info) k)%float.
Proof.
  intros Hb0 Hg0 _ Hrun Hdec.
  destruct (read_block_inv _ _ _ _ _ _ Hrun Hdec)
    as (b' & ds & Hb & Hg & _ & Hi & Hs).
  rewrite Hb0 in Hb. injection Hb as <-.
  rewrite Hg0 in Hg. injection Hg as <- _.
  assert (Hinfo : gain (info_of r) = gain info /\ offset (info_of r) = offset info
                  /\ lux (info_of r) = lux info /\ volts (info_of r) = volts info).
  { destruct (fne _ (fs info)).
    - destruct Hi as (_ & _ & ->). repeat split.
    - destruct Hi as (_ & ->). repeat split. }
  destruct Hinfo as (Egain & Eoff & Elux & Evolts).
  destruct Hs as (_ & _ & _ & _ & Hin & _).
  intros j Hj. destruct (Hin j Hj) as (_ & _ & (tl & Hfl & Hl) & Ha). split.
  - exists tl, (Z.shiftr tl 2). split; [exact Hfl|]. split; [reflexivity|].
    split; [apply (raw_range _ _ _ _ Hfl)|].
    rewrite Hl. unfold light_value. rewrite Elux, Evolts. reflexivity.
  - intros k Hk. destruct (Ha k Hk) as (t_ & Hf & Hget).
    exists t_, (adjust t_). split; [exact Hf|]. split; [reflexivity|].
    split; [apply (raw_range _ _ _ _ Hf)|].
    rewrite Hget. unfold calibrate. rewrite Egain, Eoff. reflexivity.
Qed.

End RawRange.

(* ===================================================================== *)
(** ** Timestamps at the edges                                            *)
(* ===================================================================== *)

Section TimestampEdges.
Context `{Platform}.

(** The sample numbers 1 to 299 convert to doubles that are finite and not
    zero. *)
Lemma double_of_sample j :
  1 <= j < 300 ->
  exists m e, Prim2SF (double_of_Z j) = S754_finite false m e.
Proof.
  intros Hj.
  assert (Hall : forallb (fun n => match Prim2SF (double_of_Z (Z.of_nat n)) with
                                   | S754_finite false _ _ => true
                                   | _ => false
                                   end) (seq 1 299) = true)
    by (vm_compute; reflexivity).
  rewrite forallb_forall in Hall.
  specialize (Hall (Z.to_nat j)). rewrite Z2Nat.id in Hall by lia.
  destruct (Prim2SF (double_of_Z j)) as [s|s| |[] m e];
    try (discriminate Hall; apply in_seq; lia).
  eauto.
Qed.

Lemma eqb_zero_spec x :
  (x =? 0)%float = true -> exists s, Prim2SF x = S754_zero s.
Proof.
  rewrite FloatAxioms.eqb_spec, Prim2SF_zero.
  destruct (Prim2SF x) as [s|s| |s m e]; try (destruct s; discriminate); eauto.
  discriminate.
Qed.

Lemma not_finite_spec x :
  match Prim2SF x with S754_infinity _ | S754_nan => True | _ => False end ->
  is_finite x = false.
Proof.
  unfold is_finite, is_nan, is_infinity.
  rewrite !FloatAxioms.eqb_spec, FloatAxioms.abs_spec, Prim2SF_infinity.
  destruct (Prim2SF x) as [s|s| |s m e]; try contradiction; intros _;
    [destruct s|]; reflexivity.
Qed.

(** At a sampling rate of zero no timestamp is a finite double. *)
Lemma stamp_at_zero_rate t0 fs_ j :
  (fs_ =? 0)%float = true -> 0 <= j < 300 ->
  is_finite (t0 + double_of_Z j / fs_)%float = false.
Proof.
  intros [s Hz]%eqb_zero_spec Hj. apply not_finite_spec.
  rewrite FloatAxioms.add_spec, FloatAxioms.div_spec, Hz.
  destruct (Z.eq_dec j 0) as [->|Hne].
  - change (Prim2SF (double_of_Z 0)) with (Prim2SF 0). rewrite Prim2SF_zero.
    cbn. destruct (Prim2SF t0); exact I.
  - destruct (double_of_sample j) as (m & e & ->); [lia|].
    cbn. destruct (Prim2SF t0) as [s0|[]| |s0 m0 e0], s; exact I.
Qed.

(** Adding a zero to a number leaves a double equal to it. *)
Lemma SFadd_zero x s :
  SFeqb x x = true -> SFeqb (SF64add x (S754_zero s)) x = true.
Proof.
  destruct x as [s0|s0| |s0 m0 e0]; cbn [SF64add SFadd]; intros Hx;
    try exact Hx.
  destruct s0, s; reflexivity.
Qed.

(** At a sampling rate that is a number other than zero, the first
    timestamp of a block equals the start of the block. *)
Lemma stamp_first t0 fs_ :
  (fs_ =? 0)%float = false -> (fs_ =? fs_)%float = true ->
  (t0 =? t0)%float = true ->
  (t0 + double_of_Z 0 / fs_ =? t0)%float = true.
Proof.
  rewrite !FloatAxioms.eqb_spec, FloatAxioms.add_spec, FloatAxioms.div_spec.
  change (Prim2SF (double_of_Z 0)) with (Prim2SF 0). rewrite Prim2SF_zero.
  intros Hnz Hfs Ht.
  destruct (Prim2SF fs_) as [s|s| |s m e]; try discriminate;
    cbn [SF64div SFdiv]; apply SFadd_zero, Ht.
Qed.

(** X16.  A decoded block under a sampling rate of zero (of either sign)
    has no finite timestamp: every timestamp of the block is infinite or
    not a number. *)
Theorem zero_rate_gives_no_finite_timestamp loc fp w info data r :
  geneactiv_read_block loc fp w info data = Some r ->
  decoded (code r) ->
  (fs (info_of r) =? 0)%float = true ->
  exists b,
    block_text loc fp = Some b
    /\ forall j, 0 <= j < GN_SAMPLES ->
         exists t, get (ts (data_of r)) (bt_N b * GN_SAMPLES + j) = Some t
                   /\ is_finite t = false.
Proof.
  intros Hrun Hdec Hz.
  destruct (read_block_inv _ _ _ _ _ _ Hrun Hdec) as (b & ds & Hb & _ & _ & _ & Hs).
  exists b. split; [exact Hb|]. intros j Hj.
  destruct Hs as (_ & _ & _ & _ & Hin & _).
  destruct (Hin j Hj) as (_ & Hts & _).
  eexists. split; [exact Hts|]. apply stamp_at_zero_rate; assumption.
Qed.

(** X15.  In a decoded block under a sampling rate that is a number other
    than zero, the first timestamp equals the start of the block, the time
    of its clock stamp, when that is a number. *)
Theorem first_timestamp_is_block_start loc fp w info data r :
  geneactiv_read_block loc fp w info data = Some r ->
  decoded (code r) ->
  (fs (info_of r) =? 0)%float = false ->
  (fs (info_of r) =? fs (info_of r))%float = true ->
  exists b t,
    block_text loc fp = Some b
    /\ get (ts (data_of r)) (bt_N b * GN_SAMPLES) = Some t
    /\ ((block_t0 (bt_time b) =? block_t0 (bt_time b))%float = true ->
        (t =? block_t0 (bt_time b))%float = true).
Proof.
  intros Hrun Hdec Hnz Hnum.
  destruct (read_block_inv _ _ _ _ _ _ Hrun Hdec) as (b & ds & Hb & _ & _ & _ & Hs).
  destruct Hs as (_ & _ & _ & _ & Hin & _).
  destruct (Hin 0) as (_ & Hts & _); [unfold GN_SAMPLES; lia|].
  rewrite Z.add_0_r in Hts.
  exists b. eexists. split; [exact Hb|]. split; [exact Hts|].
  intros Ht. apply stamp_first; assumption.
Qed.

End TimestampEdges.

Section GetTimestamps.
Context `{Platform}.

(** A run of [writes] that is defined stays inside the buffer. *)
Lemma writes_in_range n : forall m base f a a',
  writes (S n) m base f a = Some a' ->
  0 <= base + m /\ base + m + Z.of_nat (S n) <= Z.of_nat (length a).
Proof.
  induction n as [|n IH]; intros m base f a a' Hw;
    change (writes (S ?k) m base f a)
      with (v ← f m; a1 ← store a (base + m) v; writes k (m + 1) base f a1) in Hw;
    destruct (f m) as [v|]; cbn [mbind option_bind] in Hw; try discriminate;
    destruct (store a (base + m) v) as [a1|] eqn:Hs;
    cbn [mbind option_bind] in Hw; try discriminate;
    pose proof (store_length _ _ _ _ Hs) as Hl; apply store_inv in Hs.
  - lia.
  - apply IH in Hw. lia.
Qed.

(** X13.  [get_timestamps] has no error result.  With room in the
    timestamp buffer for the [GN_SAMPLES] samples from [Nps] on it returns
    [GN_READ_E_NONE], stores [t0 + j / fs] at [Nps + j], leaves every other
    element and the other buffers as they were, and runs the day indexer
    once; without room its stores leave the buffer and its behaviour is
    undefined. *)
Theorem get_timestamps_total Nps time info data winfo :
  (0 <= Nps /\ Nps + GN_SAMPLES <= Z.of_nat (length (ts data)) ->
   exists ts',
     get_timestamps Nps time info data winfo
     = Some (GN_READ_E_NONE, set_ts ts' data,
             get_day_indexing (fs info)
               (MkTime (GN_DATE_HOUR time) (GN_DATE_MIN time) (GN_DATE_SEC time)
                       (GN_DATE_MSEC time * 1000))
               (max_n info) (npages info) winfo)
     /\ length ts' = length (ts data)
     /\ (forall j, 0 <= j < GN_SAMPLES ->
           get ts' (Nps + j)
           = Some (block_t0 time + double_of_Z j / fs info)%float)
     /\ (forall z, ~ (Nps <= z < Nps + GN_SAMPLES) -> get ts' z = get (ts data) z))
  /\ (~ (0 <= Nps /\ Nps + GN_SAMPLES <= Z.of_nat (length (ts data))) ->
      get_timestamps Nps time info data winfo = None).
Proof.
  unfold get_timestamps, GN_SAMPLES. rewrite stamp_writes. split.
  - intros [H0 H1].
    destruct (writes_some (Z.to_nat 300) 0 Nps
                (fun z => Some (block_t0 time + double_of_Z z / fs info)%float)
                (ts data)) as [ts' Hs]; [eauto | lia | lia |].
    rewrite Hs. cbn [mbind option_bind]. exists ts'. split; [reflexivity|].
    apply writes_total_spec in Hs. destruct Hs as (Hl & Hin & Hout).
    split; [exact Hl|]. split.
    + intros j Hj. apply Hin. lia.
    + intros z Hz. apply Hout. lia.
  - intros Hout.
    destruct (writes _ 0 Nps _ (ts data)) as [ts'|] eqn:Hs; [|reflexivity].
    exfalso. apply Hout.
    change (Z.to_nat 300) with (S 299) in Hs. apply writes_in_range in Hs. lia.
Qed.

End GetTimestamps.

Section Fit.
Context `{Platform}.

Lemma set_temp_same data : set_temp (temp data) data = data.
Proof. destruct data. reflexivity. Qed.

(** X7.  The block decoder does not compare the sequence number of a block
    with the sizes of the buffers.  When the first sample index
    [N * GN_SAMPLES] of the block is at least [INT_MIN], and the
    [GN_SAMPLES] temperature slots from that index are not inside the
    temperature buffer (a negative sequence number, or one behind the pages
    allocated), the call stores outside the buffer: its behaviour is
    undefined.  When the index is below [INT_MIN] (and is a [long]), the
    [int] counter of the temperature loop starts above its bound: the loop
    stores nothing, the call never decodes the block and leaves the buffers
    as they were, and it returns (an error code) at least when the rate
    mismatches a second time or the data line is missing or short.
    Conversely, a block that has been decoded had room in all four
    buffers. *)
Theorem decoder_trusts_sequence_number loc fp w info data b :
  block_text loc fp = Some b ->
  (INT_MIN <= bt_N b * GN_SAMPLES ->
   ~ (0 <= bt_N b * GN_SAMPLES
      /\ bt_N b * GN_SAMPLES + GN_SAMPLES <= Z.of_nat (length (temp data))) ->
   geneactiv_read_block loc fp w info data = None)
  /\ (LONG_MIN <= bt_N b * GN_SAMPLES < INT_MIN ->
      (forall r,
         geneactiv_read_block loc fp w info data = Some r ->
         data_of r = data /\ ~ decoded (code r))
      /\ (fne (bt_fs b) (fs info) && (fs_err info >=? 1) = true
          \/ line_length (bt_fp b) < 3600 ->
          exists r, geneactiv_read_block loc fp w info data = Some r))
  /\ (forall r,
        geneactiv_read_block loc fp w info data = Some r ->
        decoded (code r) -> room (bt_N b) data).
Proof.
  intros Hb. split; [|split].
  - intros Hint Hout. rewrite (read_block_unfold _ _ _ _ _ _ Hb). cbv zeta.
    destruct (negb _); [reflexivity|].
    destruct (Z_le_gt_dec (bt_N b * GN_SAMPLES + GN_SAMPLES) INT_MAX) as [Hle|Hgt].
    + rewrite temp_loop_int by assumption.
      destruct (fill _ _ _ (temp data)) as [temp'|] eqn:Hf; [|reflexivity].
      exfalso. apply Hout.
      change (Z.to_nat GN_SAMPLES) with (S 299) in Hf.
      apply fill_in_range in Hf. unfold GN_SAMPLES in *. lia.
    + rewrite temp_loop_above by lia. reflexivity.
  - intros [Hlo Hhi].
    assert (Hlong : negb ((LONG_MIN <=? bt_N b * GN_SAMPLES)
                          && (bt_N b * GN_SAMPLES <=? LONG_MAX)) = false).
    { apply negb_false_iff, andb_true_iff.
      unfold INT_MIN, LONG_MAX in *. split; lia. }
    assert (Hun : geneactiv_read_block loc fp w info data =
      if fne (bt_fs b) (fs info) && (fs_err info <? 1) then
        read_block_data loc (bt_fp b) w (corrected (bt_fs b) (seen (bt_N b) info))
          data (bt_N b * GN_SAMPLES) (bt_time b) GN_READ_E_BLOCK_FS_WARN
      else if fne (bt_fs b) (fs info) && (fs_err info >=? 1) then
        Some (Out GN_READ_E_BLOCK_FS (bt_fp b) w (seen (bt_N b) info) data)
      else
        read_block_data loc (bt_fp b) w (seen (bt_N b) info)
          data (bt_N b * GN_SAMPLES) (bt_time b) GN_READ_E_NONE).
    { rewrite (read_block_unfold _ _ _ _ _ _ Hb). cbv zeta.
      rewrite Hlong, temp_loop_below by exact Hhi.
      cbn [mbind option_bind]. rewrite set_temp_same. reflexivity. }
    assert (Hdata : forall info1 ier r,
      read_block_data loc (bt_fp b) w info1 data (bt_N b * GN_SAMPLES)
                      (bt_time b) ier = Some r ->
      data_of r = data /\ ~ decoded (code r)).
    { intros info1 ier r Hr. apply read_block_data_cases in Hr.
      destruct Hr as [[_ ->] | [(ds & fp' & _ & _ & ->) |
                                 (ds & fp' & data1 & ts' & _ & _ & Hg & _)]].
      - split; [reflexivity|]. intros [D|D]; discriminate D.
      - split; [reflexivity|]. intros [D|D]; discriminate D.
      - apply groups_start in Hg. unfold INT_MIN in Hhi. lia. }
    rewrite Hun. split.
    + intros r.
      destruct (fne (bt_fs b) (fs info) && (fs_err info <? 1)); [apply Hdata|].
      destruct (fne (bt_fs b) (fs info) && (fs_err info >=? 1)); [|apply Hdata].
      intros [= <-]. split; [reflexivity|]. intros [D|D]; discriminate D.
    + intros Hret.
      destruct (fne (bt_fs b) (fs info) && (fs_err info <? 1)) eqn:E1.
      * destruct Hret as [Hm|Hl].
        { apply andb_true_iff in Hm, E1. lia. }
        destruct (read_block_data_short loc (bt_fp b) w
                    (corrected (bt_fs b) (seen (bt_N b) info)) data
                    (bt_N b * GN_SAMPLES) (bt_time b) GN_READ_E_BLOCK_FS_WARN Hl)
          as [fp' ->].
        eauto.
      * destruct (fne (bt_fs b) (fs info) && (fs_err info >=? 1)) eqn:E2; [eauto|].
        destruct Hret as [Hm|Hl]; [discriminate|].
        destruct (read_block_data_short loc (bt_fp b) w (seen (bt_N b) info) data
                    (bt_N b * GN_SAMPLES) (bt_time b) GN_READ_E_NONE Hl)
          as [fp' ->].
        eauto.
  - intros r Hrun Hdec.
    destruct (read_block_inv _ _ _ _ _ _ Hrun Hdec)
      as (b' & ds & Hb' & _ & _ & _ & Hs).
    rewrite Hb in Hb'. injection Hb' as <-.
    destruct (read_block_cases _ _ _ _ _ _ Hrun)
      as [[Hn _] | (b' & temp' & Hb' & Hf & _)]; [congruence|].
    rewrite Hb in Hb'. injection Hb' as <-.
    destruct Hs as (Lt & Lts & La & Ll & Hin & _).
    destruct (Hin 0) as (T0 & S0 & (tl0 & _ & L0) & A0); [unfold GN_SAMPLES; lia|].
    destruct (Hin 299) as (T1 & S1 & (tl1 & _ & L1) & A1); [unfold GN_SAMPLES; lia|].
    destruct (A0 0) as (a0 & _ & A00); [lia|].
    destruct (A1 2) as (a1 & _ & A12); [lia|].
    apply get_some_lt in T0, T1, S0, S1, L0, L1, A00, A12.
    apply temp_loop_fill in Hf; [|lia]. destruct Hf as [Hint _].
    unfold room, GN_SAMPLES in *.
    rewrite Lt in T0, T1. rewrite Lts in S0, S1. rewrite Ll in L0, L1.
    rewrite La in A00, A12. lia.
Qed.

End Fit.

(* ===================================================================== *)
(** ** The rolling median on many slices                                  *)
(* ===================================================================== *)

Section RollMedianEdges.
Import RollingMedian.
Context `{Gsl}.

(** X18.  The number of slices, a [long], is stored in an [int]; the
    conversion of a value outside the range of [int] is defined by the
    implementation, and wraps here as with the usual compilers.  On an
    array of 2^31 to 2^32 - 1 slices the counter is negative, the loop over
    the slices does not run, and [roll_median] returns the array that
    [PyArray_EMPTY] allocated, as it was. *)
Theorem roll_median_row_counter_is_int (outer : list Z) (s : nat) (wlen : Z)
    (d empty : list float) :
  (0 < s)%nat -> 0 <= wlen ->
  2 ^ 31 <= fold_right Z.mul 1 outer < 2 ^ 32 ->
  roll_median (Array (outer ++ [Z.of_nat s]) d) wlen empty
  = Returned (Array (outer ++ [Z.of_nat s]) empty).
Proof.
  intros Hs Hw Hrows.
  unfold roll_median, PyArray_NDIM, PyArray_SIZE. cbn [dims elems].
  rewrite length_app. cbn [length].
  destruct (Z.of_nat (length outer + 1) <? 1) eqn:E1; [apply Z.ltb_lt in E1; lia|].
  destruct (wlen <? 0) eqn:E2; [apply Z.ltb_lt in E2; lia|].
  replace (Z.to_nat (Z.of_nat (length outer + 1) - 1)) with (length outer) by lia.
  rewrite app_nth2 by lia. rewrite Nat.sub_diag. cbn [nth].
  destruct (Z.of_nat s =? 0) eqn:E3; [apply Z.eqb_eq in E3; lia|].
  rewrite fold_right_app. cbn [fold_right].
  assert (Hprod : forall l a, fold_right Z.mul a l = fold_right Z.mul 1 l * a).
  { induction l as [|y l IHl]; intros a; cbn [fold_right]; [lia|].
    rewrite IHl. lia. }
  rewrite Hprod, Z.mul_1_r, Z.quot_mul by lia.
  set (rows := fold_right Z.mul 1 outer) in *.
  assert (Hi : int_of_long rows = rows - 2 ^ 32).
  { unfold int_of_long.
    replace (rows + 2 ^ 31) with (rows - 2 ^ 31 + 1 * 2 ^ 32) by lia.
    rewrite Z.mod_add by lia. rewrite Z.mod_small by lia. lia. }
  rewrite Hi. replace (Z.to_nat (rows - 2 ^ 32)) with 0%nat by lia.
  reflexivity.
Qed.

End RollMedianEdges.

(* ===================================================================== *)
(** ** One block after another                                            *)
(* ===================================================================== *)

Section TwoBlocks.
Context `{Platform}.

(** [max_n] after a decoded block. *)
Lemma decoded_max_n (b : BlockText) (info : GN_Info_t) (c : GN_Read_Err)
    (info' : GN_Info_t) :
  (if fne (bt_fs b) (fs info)
   then fs_err info < 1 /\ c = GN_READ_E_BLOCK_FS_WARN
        /\ info' = corrected (bt_fs b) (seen (bt_N b) info)
   else c = GN_READ_E_NONE /\ info' = seen (bt_N b) info) ->
  max_n info' = Z.max (max_n info) (bt_N b).
Proof.
  destruct (fne (bt_fs b) (fs info)).
  - intros (_ & _ & ->). apply seen_max_n.
  - intros (_ & ->). apply seen_max_n.
Qed.

(** X5.  Two blocks decoded one after the other, the second from the file,
    the indexing state, [*info] and the buffers the first call left: with
    different sequence numbers the samples of the first block are still in
    the buffers after the second call, and [max_n] is the largest of its
    value before the calls and the two sequence numbers. *)
Theorem later_block_keeps_earlier_samples loc fp w info data r1 loc' r2 :
  geneactiv_read_block loc fp w info data = Some r1 ->
  decoded (code r1) ->
  geneactiv_read_block loc' (file r1) (w_info r1) (info_of r1) (data_of r1) = Some r2 ->
  decoded (code r2) ->
  exists b1 b2,
    block_text loc fp = Some b1
    /\ block_text loc' (file r1) = Some b2
    /\ max_n (info_of r2) = Z.max (Z.max (max_n info) (bt_N b1)) (bt_N b2)
    /\ (bt_N b1 <> bt_N b2 ->
        forall j, 0 <= j < GN_SAMPLES ->
          get (temp (data_of r2)) (bt_N b1 * GN_SAMPLES + j) = Some (bt_temp b1)
          /\ get (ts (data_of r2)) (bt_N b1 * GN_SAMPLES + j)
             = get (ts (data_of r1)) (bt_N b1 * GN_SAMPLES + j)
          /\ get (light (data_of r2)) (bt_N b1 * GN_SAMPLES + j)
             = get (light (data_of r1)) (bt_N b1 * GN_SAMPLES + j)
          /\ forall k, 0 <= k < 3 ->
               get (acc (data_of r2)) (bt_N b1 * GN_SAMPLES * 3 + 3 * j + k)
               = get (acc (data_of r1)) (bt_N b1 * GN_SAMPLES * 3 + 3 * j + k)).
Proof.
  intros E1 D1 E2 D2.
  destruct (read_block_inv _ _ _ _ _ _ E1 D1) as (b1 & ds1 & Hb1 & _ & _ & Hi1 & Hs1).
  destruct (read_block_inv _ _ _ _ _ _ E2 D2) as (b2 & ds2 & Hb2 & _ & _ & Hi2 & Hs2).
  exists b1, b2. split; [exact Hb1|]. split; [exact Hb2|].
  split.
  { rewrite (decoded_max_n _ _ _ _ Hi2), (decoded_max_n _ _ _ _ Hi1). reflexivity. }
  intros Hne j Hj.
  destruct Hs1 as (_ & _ & _ & _ & Hin1 & _).
  destruct Hs2 as (_ & _ & _ & _ & _ & Hout2 & Hacc2).
  destruct (Hin1 j Hj) as (Ht & _).
  unfold GN_SAMPLES in *.
  destruct (Hout2 (bt_N b1 * 300 + j)) as (Ot & Ots & Ol); [lia|].
  split; [rewrite Ot; exact Ht|]. split; [exact Ots|]. split; [exact Ol|].
  intros k Hk. apply Hacc2. lia.
Qed.

End TwoBlocks.

(* ===================================================================== *)
(** ** The properties above on the demonstration platform                 *)
(* ===================================================================== *)

(** [Demo.block1] is decoded without a correction of the rate. *)
Lemma block1_run_info :
  exists r, geneactiv_read_block loc0 block1 tt info0 data0 = Some r
            /\ decoded (code r) /\ info_of r = seen 1 info0.
Proof.
  destruct block1_run as (r & E & D).
  exists r. split; [exact E|]. split; [exact D|].
  destruct (read_block_inv _ _ _ _ _ _ E D) as (b & ds & Hb & _ & _ & Hi & _).
  rewrite block1_text in Hb. injection Hb as <-.
  assert (Hm : fne (bt_fs text1) (fs info0) = false) by reflexivity.
  rewrite Hm in Hi. destruct Hi as [_ Hi]. exact Hi.
Defined.

Lemma read_block_invariants_witness :
  exists r,
    geneactiv_read_block loc0 block_50hz tt info0 data0 = Some r
    /\ gain (info_of r) = gain info0
    /\ max_n info0 <= max_n (info_of r)
    /\ length (acc (data_of r)) = length (acc data0).
Proof.
  destruct block_50hz_run as (r & E & _).
  exists r. split; [exact E|].
  destruct (read_block_invariants (H := platform) _ _ _ _ _ _ E)
    as (Hg & _ & _ & _ & _ & Hm & _ & _ & _ & _ & Ha & _).
  auto.
Defined.


Lemma block_beyond_text : block_text loc0 block_beyond = Some text_beyond.
Proof. vm_compute. reflexivity. Defined.

Lemma block_wrapped_text : block_text loc0 block_wrapped = Some text_wrapped.
Proof. vm_compute. reflexivity. Defined.

(** Block -7158279, whose first sample index is below [INT_MIN], on a
    second mismatch of the rate: the temperature loop stores nothing and
    the call returns the mismatch error. *)
Example wrapped_counter_returns_rate_error :
  option_map (fun r => (code r, get (temp (data_of r)) 0, get (temp data0) 0))
             (geneactiv_read_block loc0 block_wrapped tt (set_fs_err 1 info0) data0)
  = Some (GN_READ_E_BLOCK_FS, Some 0%float, Some 0%float).
Proof. vm_compute. reflexivity. Qed.

Lemma decoder_trusts_sequence_number_witness :
  (bt_N text_beyond = 2
   /\ length (temp data0) = 600%nat
   /\ geneactiv_read_block loc0 block_beyond tt info0 data0 = None)
  /\ (bt_N text_wrapped * GN_SAMPLES = -2147483700
      /\ exists r,
           geneactiv_read_block loc0 block_wrapped tt (set_fs_err 1 info0) data0
           = Some r
           /\ data_of r = data0 /\ ~ decoded (code r)).
Proof.
  split.
  - split; [reflexivity|]. split; [reflexivity|].
    destruct (decoder_trusts_sequence_number (H := platform) loc0 block_beyond tt
                info0 data0 text_beyond block_beyond_text) as [Hout _].
    apply Hout; change (bt_N text_beyond) with 2;
      change (length (temp data0)) with 600%nat; unfold GN_SAMPLES, INT_MIN; lia.
  - split; [reflexivity|].
    destruct (decoder_trusts_sequence_number (H := platform) loc0 block_wrapped tt
                (set_fs_err 1 info0) data0 text_wrapped block_wrapped_text)
      as (_ & Hwrap & _).
    destruct Hwrap as [Hnot Hret].
    { change (bt_N text_wrapped * GN_SAMPLES) with (-2147483700).
      unfold LONG_MIN, INT_MIN. lia. }
    destruct Hret as [r Hr]; [left; reflexivity|].
    exists r. split; [exact Hr|]. exact (Hnot r Hr).
Defined.

Lemma indexing_runs_once_per_decoded_block_witness :
  exists r,
    geneactiv_read_block loc0 block1 tt info0 data0 = Some r
    /\ w_info r
       = get_day_indexing (fs (info_of r))
           (MkTime (GN_DATE_HOUR (bt_time text1)) (GN_DATE_MIN (bt_time text1))
                   (GN_DATE_SEC (bt_time text1)) (GN_DATE_MSEC (bt_time text1) * 1000))
           (max_n (info_of r)) (npages info0) tt.
Proof.
  destruct block1_run as (r & E & D).
  exists r. split; [exact E|].
  destruct (indexing_runs_once_per_decoded_block (H := platform) _ _ _ _ _ _ E)
    as [Hdec _].
  destruct (Hdec D) as (b & Hb & Hw).
  rewrite block1_text in Hb. injection Hb as <-. exact Hw.
Defined.

Lemma block_lines_room freq : room (strtol (bl_seq (block_lines freq)) 10) data0.
Proof. repeat split; vm_compute; discriminate. Defined.


Lemma block_50hz_short_text :
  block_text loc0 block_50hz_short = Some text_50hz_short.
Proof. vm_compute. reflexivity. Defined.

Lemma rate_correction_survives_data_error_witness :
  exists r,
    geneactiv_read_block loc0 block_50hz_short tt info0 data0 = Some r
    /\ code r = GN_READ_E_BLOCK_DATA_3600
    /\ fs (info_of r) = 50%float
    /\ fs_err (info_of r) = 1.
Proof.
  destruct (rate_correction_survives_data_error (H := platform) loc0
              block_50hz_short tt info0 data0 text_50hz_short)
    as (r & E & Hc & Hfs & He).
  - exact block_50hz_short_text.
  - repeat split; vm_compute; discriminate.
  - reflexivity.
  - cbn. lia.
  - vm_compute. reflexivity.
  - exists r. auto.
Defined.

Lemma block_unterminated_text :
  block_text loc0 block_unterminated = Some text_unterminated.
Proof. vm_compute. reflexivity. Defined.

Lemma unterminated_data_line_is_rejected_witness :
  length (bt_fp text_unterminated) = 3600%nat
  /\ exists r,
       geneactiv_read_block loc0 block_unterminated tt info0 data0 = Some r
       /\ code r = GN_READ_E_BLOCK_DATA_3600
       /\ acc (data_of r) = acc data0.
Proof.
  split; [reflexivity|].
  destruct (unterminated_data_line_is_rejected (H := platform) loc0
              block_unterminated tt info0 data0 text_unterminated)
    as (r & E & Hc & _ & _ & Ha & _).
  - exact block_unterminated_text.
  - repeat split; vm_compute; discriminate.
  - reflexivity.
  - reflexivity.
  - change (length (bt_fp text_unterminated)) with 3600%nat. lia.
  - exists r. auto.
Defined.

Lemma well_formed_block_is_decoded_witness :
  exists r,
    geneactiv_read_block loc0 (block_file (block_lines "100.0") block1) tt info0 data0
    = Some r
    /\ decoded (code r)
    /\ file r = block1
    /\ get (temp (data_of r)) 299 = Some 25.5%float.
Proof.
  destruct (well_formed_block_is_decoded (H := platform) loc0 tt info0 data0
              (block_lines "100.0") block1)
    as (r & E & D & Hf & _ & Hin).
  - reflexivity.
  - reflexivity.
  - reflexivity.
  - apply block_lines_room.
  - reflexivity.
  - exists r. split; [exact E|]. split; [exact D|]. split; [exact Hf|].
    destruct (Hin 299) as (Ht & _); [unfold GN_SAMPLES; lia|]. exact Ht.
Defined.

Lemma well_formed_header_is_decoded_witness :
  geneactiv_read_header buff_junk (header_file header_lines block1) blank_info
  = Some (GN_READ_E_NONE, block1,
          Info (number (bytes "100 Hz"))
               (Axes (number (bytes "25548")) (number (bytes "25665"))
                     (number (bytes "25391")))
               (Axes (number (bytes "-574")) (number (bytes "-330"))
                     (number (bytes "356")))
               (number (bytes "299")) (number (bytes "1062")) 2 0 0)
  /\ number (bytes "100 Hz") = 100%float.
Proof.
  split; [|reflexivity].
  apply (well_formed_header_is_decoded buff_junk header_lines block1 blank_info).
  reflexivity.
Defined.

Lemma header_without_colon_is_undefined_witness :
  geneactiv_read_header buff_junk
    (lines (replicate 19 (bytes "Device Identity"))
           (bytes "Measurement Frequency 100 Hz" ++ newline :: block1))
    blank_info
  = None.
Proof.
  apply header_without_colon_is_undefined; reflexivity.
Defined.

Lemma decoded_counts_in_range_witness :
  exists r a,
    geneactiv_read_block loc0 block1 tt info0 data0 = Some r
    /\ -2048 <= a <= 2047
    /\ get (acc (data_of r)) (1 * GN_SAMPLES * 3 + 3 * 0 + 1)
       = Some ((double_of_Z a * 100 - axis_get (offset info0) 1)
               / axis_get (gain info0) 1)%float.
Proof.
  destruct block1_run as (r & E & D).
  destruct (decoded_counts_in_range (H := platform) _ _ _ _ _ _ _ _ _ block1_text
              block1_data_str (fields_inside_nul data_str1) E D 0)
    as (_ & Ha); [unfold GN_SAMPLES; lia|].
  destruct (Ha 1) as (t_ & a & _ & _ & Hr & Hget); [lia|].
  exists r, a. auto.
Defined.

Lemma block_norate_text : block_text loc0 block_norate = Some text_norate.
Proof. vm_compute. reflexivity. Defined.

Lemma block_norate_data_str :
  fgets (data_str0 loc0) 3610 (bt_fp text_norate) = Some (data_str1, []).
Proof. vm_compute. reflexivity. Defined.

Lemma zero_rate_gives_no_finite_timestamp_witness :
  exists r t,
    geneactiv_read_block loc0 block_norate tt info0 data0 = Some r
    /\ code r = GN_READ_E_BLOCK_FS_WARN
    /\ get (ts (data_of r)) (1 * GN_SAMPLES + 5) = Some t
    /\ is_finite t = false.
Proof.
  destruct (read_block_total (H := platform) loc0 block_norate tt info0 data0
              text_norate data_str1 [] (fields_inside_nul data_str1)
              block_norate_text block1_room
              block_norate_data_str block1_strlen eq_refl) as (r & E & D).
  destruct (read_block_inv _ _ _ _ _ _ E D) as (b & ds & Hb & _ & _ & Hi & _).
  rewrite block_norate_text in Hb. injection Hb as <-.
  assert (Hm : fne (bt_fs text_norate) (fs info0) = true) by reflexivity.
  rewrite Hm in Hi. destruct Hi as (_ & Hc & Hinfo).
  destruct (zero_rate_gives_no_finite_timestamp (H := platform) _ _ _ _ _ _ E D)
    as (b & Hb & Hts).
  { rewrite Hinfo. reflexivity. }
  rewrite block_norate_text in Hb. injection Hb as <-.
  destruct (Hts 5) as (t & Hget & Hfin); [unfold GN_SAMPLES; lia|].
  exists r, t. auto.
Defined.

Lemma first_timestamp_is_block_start_witness :
  exists r t,
    geneactiv_read_block loc0 block1 tt info0 data0 = Some r
    /\ get (ts (data_of r)) (1 * GN_SAMPLES) = Some t
    /\ (t =? 1526309174.5)%float = true.
Proof.
  destruct block1_run_info as (r & E & D & Hinfo).
  destruct (first_timestamp_is_block_start (H := platform) _ _ _ _ _ _ E D)
    as (b & t & Hb & Hget & Heq).
  - rewrite Hinfo. reflexivity.
  - rewrite Hinfo. reflexivity.
  - rewrite block1_text in Hb. injection Hb as <-.
    exists r, t. split; [exact E|]. split; [exact Hget|].
    apply Heq. vm_compute. reflexivity.
Defined.

Lemma roll_median_slices_witness :
  exists out,
    RollingMedian.roll_median
      (RollingMedian.Array ([2] ++ [Z.of_nat 3]) [1; 5; 2; 9; 3; 4]%float) 3
      (replicate 6 0%float)
    = RollingMedian.Returned (RollingMedian.Array ([2] ++ [Z.of_nat 3]) out)
    /\ take 3 (drop (1 * 3) out)
       = RollingMedian.gsl_movstat_median RollingMedian.GSL_MOVSTAT_END_PADZERO
           [9; 3; 4]%float 3.
Proof.
  destruct (roll_median_slices (H := gsl) [2] 3 2 3 [1; 5; 2; 9; 3; 4]%float
              (replicate 6 0%float))
    as (out & E & _ & Hs); try reflexivity; try lia.
  { unfold INT_MAX. lia. }
  exists out. split; [exact E|]. apply (Hs 1%nat). lia.
Defined.

Lemma roll_median_row_counter_is_int_witness :
  RollingMedian.roll_median
    (RollingMedian.Array ([2 ^ 31] ++ [Z.of_nat 1])
                         (replicate (Z.to_nat (2 ^ 31)) 1%float)) 3
    (replicate (Z.to_nat (2 ^ 31)) 0%float)
  = RollingMedian.Returned
      (RollingMedian.Array ([2 ^ 31] ++ [Z.of_nat 1])
                           (replicate (Z.to_nat (2 ^ 31)) 0%float)).
Proof.
  apply (roll_median_row_counter_is_int (H := gsl)); [lia | lia |].
  cbn [fold_right]. lia.
Defined.

(** A file of two blocks: block 0, then [Demo.block1]. *)
Lemma two_blocks_first_run :
  exists r,
    geneactiv_read_block loc0 (block_file (block_lines "100.0") block1) tt info0 data0
    = Some r
    /\ decoded (code r) /\ file r = block1
    /\ info_of r = seen 0 info0
    /\ room (bt_N text1) (data_of r).
Proof.
  pose proof (block_text_lines (H := platform) loc0 (block_lines "100.0")
                (bl_data (block_lines "100.0") ++ newline :: block1) eq_refl) as Hb.
  destruct (data_line_read loc0 (block_lines "100.0") block1 eq_refl) as [Hg Hlen].
  destruct (read_block_total (H := platform) loc0
              (block_file (block_lines "100.0") block1) tt info0 data0 _ _ block1
              (fields_inside_nul _) Hb (block_lines_room "100.0") Hg Hlen eq_refl)
    as (r & E & D).
  destruct (read_block_inv _ _ _ _ _ _ E D) as (b & ds & Hb' & Hg' & _ & Hi & Hs).
  unfold block_file in Hb'. rewrite Hb in Hb'. apply (inj Some) in Hb'. subst b.
  cbn [bt_fp bt_N bt_fs] in Hg', Hi.
  rewrite Hg in Hg'. apply (inj Some) in Hg'.
  assert (Hfile : block1 = file r) by exact (f_equal snd Hg').
  exists r. split; [exact E|]. split; [exact D|]. split; [symmetry; exact Hfile|].
  split.
  - assert (Hm : fne (strtod (bl_fs (block_lines "100.0") ++ [newline])) (fs info0)
                 = false) by reflexivity.
    rewrite Hm in Hi. destruct Hi as [_ Hi]. exact Hi.
  - destruct Hs as (Lt & Lts & La & Ll & _).
    unfold room. rewrite Lt, Lts, La, Ll. exact block1_room.
Defined.

Lemma later_block_keeps_earlier_samples_witness :
  exists r1 r2,
    geneactiv_read_block loc0 (block_file (block_lines "100.0") block1) tt info0 data0
    = Some r1
    /\ geneactiv_read_block loc0 (file r1) (w_info r1) (info_of r1) (data_of r1)
       = Some r2
    /\ max_n (info_of r2) = 1
    /\ get (temp (data_of r2)) (0 * GN_SAMPLES + 7) = Some 25.5%float.
Proof.
  destruct two_blocks_first_run as (r1 & E1 & D1 & Hfile & Hinfo & Hroom).
  destruct (read_block_total (H := platform) loc0 (file r1) (w_info r1) (info_of r1)
              (data_of r1) text1 data_str1 []) as (r2 & E2 & D2).
  - apply fields_inside_nul.
  - rewrite Hfile. exact block1_text.
  - exact Hroom.
  - exact block1_data_str.
  - exact block1_strlen.
  - rewrite Hinfo. reflexivity.
  - destruct (later_block_keeps_earlier_samples (H := platform) _ _ _ _ _ _ _ _
                E1 D1 E2 D2) as (b1 & b2 & Hb1 & Hb2 & Hmax & Hkeep).
    pose proof (block_text_lines (H := platform) loc0 (block_lines "100.0")
                  (bl_data (block_lines "100.0") ++ newline :: block1) eq_refl) as Hb.
    unfold block_file in Hb1. rewrite Hb in Hb1. injection Hb1 as <-.
    rewrite Hfile, block1_text in Hb2. injection Hb2 as <-.
    exists r1, r2. split; [exact E1|]. split; [exact E2|].
    split; [rewrite Hmax; reflexivity|].
    destruct (Hkeep ltac:(discriminate) 7) as (Ht & _); [unfold GN_SAMPLES; lia|].
    exact Ht.
Defined.

(* ===================================================================== *)
(** ** The array behind a field                                           *)
(* ===================================================================== *)

Section FieldBuffer.
Context `{Platform}.

Lemma writes_undefined n m base f a :
  f m = None -> writes (S n) m base f a = None.
Proof.
  intros Hf.
  change (writes (S n) m base f a)
    with (v ← f m; a1 ← store a (base + m) v; writes n (m + 1) base f a1).
  rewrite Hf. reflexivity.
Qed.

(** X20.  The array [p] of four bytes receives the three characters of a
    field and no terminator.  A field of three hexadecimal digits is read
    as their value when the byte [p[3]], which the decoder never writes, is
    no hexadecimal digit; when it is one, the scan of [strtol] runs behind
    the end of [p].  A block with a complete data line that starts with
    three hexadecimal digits then has no defined behaviour. *)
Theorem field_buffer_is_not_terminated loc fp w info data b data_str fp' d :
  block_text loc fp = Some b ->
  fgets (data_str0 loc) 3610 (bt_fp b) = Some (data_str, fp') ->
  3601 <= strlen data_str ->
  fne (bt_fs b) (fs info) && (fs_err info >=? 1) = false ->
  hexval (p3 loc) = Some d ->
  (forall off v, hex3 data_str off = Some v ->
     field data_str off (p3 loc) = None
     /\ forall c, hexval c = None -> field data_str off c = Some v)
  /\ (is_Some (hex3 data_str 0) ->
      geneactiv_read_block loc fp w info data = None).
Proof.
  intros Hb Hg Hlen Hm Hp. split.
  - intros off v Hv. split.
    + rewrite (field_hex3_value _ _ _ _ Hv), Hp. reflexivity.
    + intros c Hc. rewrite (field_hex3_value _ _ _ _ Hv), Hc. reflexivity.
  - intros [v Hv].
    assert (Hfin : forall info1 data1 ier,
              read_block_data loc (bt_fp b) w info1 data1 (bt_N b * GN_SAMPLES)
                              (bt_time b) ier = None).
    { intros info1 data1 ier.
      rewrite (read_block_data_full _ _ _ _ _ _ _ _ _ _ Hg Hlen).
      rewrite groups_S, accel_writes, writes_undefined; [reflexivity|].
      change (0 + 0 * 3) with 0.
      rewrite (field_hex3_value _ _ _ _ Hv), Hp. reflexivity. }
    rewrite (read_block_unfold _ _ _ _ _ _ Hb). cbv zeta.
    destruct (negb _); [reflexivity|].
    destruct (temp_loop _ _ (temp data)) as [temp'|]; [|reflexivity].
    cbn [mbind option_bind]. rewrite Hm, !Hfin.
    destruct (fne (bt_fs b) (fs info) && (fs_err info <? 1)); reflexivity.
Qed.

End FieldBuffer.

(* ===================================================================== *)
(** ** Every element of the rolling median is written                     *)
(* ===================================================================== *)

Section RollMedianOutput.
Import RollingMedian.
Context `{Gsl}.

(** Two lists of [n] slices of [s] elements with the same slices are the
    same list. *)
Lemma slices_eq (s : nat) (n : nat) : forall l1 l2 : list float,
  length l1 = (n * s)%nat -> length l2 = (n * s)%nat ->
  (forall i, (i < n)%nat ->
     take s (drop (i * s) l1) = take s (drop (i * s) l2)) ->
  l1 = l2.
Proof.
  induction n as [|n IH]; intros l1 l2 H1 H2 Hs.
  - destruct l1, l2; try discriminate. reflexivity.
  - rewrite <- (take_drop s l1), <- (take_drop s l2). f_equal.
    + apply (Hs 0%nat). lia.
    + apply IH.
      * rewrite length_drop. lia.
      * rewrite length_drop. lia.
      * intros i Hi. rewrite !drop_drop.
        replace (s + i * s)%nat with (S i * s)%nat by lia.
        apply Hs. lia.
Qed.

(** [roll_median] on an array of slices that are not empty, in terms of
    its loop. *)
Lemma roll_median_loop (outer : list Z) (s nrepeats : nat) (wlen : Z)
    (d empty : list float) :
  (0 < s)%nat -> 0 <= wlen ->
  fold_right Z.mul 1 outer = Z.of_nat nrepeats ->
  Z.of_nat nrepeats <= INT_MAX ->
  roll_median (Array (outer ++ [Z.of_nat s]) d) wlen empty
  = Returned (Array (outer ++ [Z.of_nat s])
                    (median_loop nrepeats 0 s wlen d empty)).
Proof.
  intros Hs Hw Houter Hint.
  unfold roll_median, PyArray_NDIM, PyArray_SIZE. cbn [dims elems].
  rewrite length_app. cbn [length].
  destruct (Z.of_nat (length outer + 1) <? 1) eqn:E1; [apply Z.ltb_lt in E1; lia|].
  destruct (wlen <? 0) eqn:E2; [apply Z.ltb_lt in E2; lia|].
  replace (Z.to_nat (Z.of_nat (length outer + 1) - 1)) with (length outer) by lia.
  rewrite app_nth2 by lia. rewrite Nat.sub_diag. cbn [nth].
  destruct (Z.of_nat s =? 0) eqn:E3; [apply Z.eqb_eq in E3; lia|].
  rewrite fold_right_app. cbn [fold_right].
  assert (Hprod : forall l a, fold_right Z.mul a l = fold_right Z.mul 1 l * a).
  { induction l as [|y l IHl]; intros a; cbn [fold_right]; [lia|].
    rewrite IHl. lia. }
  rewrite Hprod, Houter, Z.mul_1_r.
  rewrite Z.quot_mul by lia.
  assert (Hi : int_of_long (Z.of_nat nrepeats) = Z.of_nat nrepeats).
  { unfold int_of_long, INT_MAX in *. rewrite Z.mod_small by lia. lia. }
  rewrite Hi, !Nat2Z.id. reflexivity.
Qed.

(** X19.  On an array with a last axis that is not empty and at most
    [INT_MAX] slices, every element of the array [roll_median] returns has
    been written by the loop: the result does not depend on what the
    array allocated by [PyArray_EMPTY] held. *)
Theorem roll_median_output_is_written (outer : list Z) (s nrepeats : nat)
    (wlen : Z) (d e1 e2 : list float) :
  (0 < s)%nat -> 0 <= wlen ->
  fold_right Z.mul 1 outer = Z.of_nat nrepeats ->
  Z.of_nat nrepeats <= INT_MAX ->
  length d = (nrepeats * s)%nat ->
  length e1 = length d -> length e2 = length d ->
  roll_median (Array (outer ++ [Z.of_nat s]) d) wlen e1
  = roll_median (Array (outer ++ [Z.of_nat s]) d) wlen e2.
Proof.
  intros Hs Hw Houter Hint Hd H1 H2.
  rewrite !(roll_median_loop outer s nrepeats wlen d) by assumption.
  do 2 f_equal.
  destruct (median_loop_spec s wlen d nrepeats 0 e1 H1) as (L1 & _ & _ & S1); [lia|].
  destruct (median_loop_spec s wlen d nrepeats 0 e2 H2) as (L2 & _ & _ & S2); [lia|].
  cbv zeta in L1, S1, L2, S2.
  apply (slices_eq s nrepeats); [congruence | congruence |].
  intros i Hi. specialize (S1 i Hi). specialize (S2 i Hi).
  change (0 + i * s)%nat with (i * s)%nat in S1, S2. congruence.
Qed.

End RollMedianOutput.

(* ===================================================================== *)
(** ** More of the demonstration platform                                 *)
(* ===================================================================== *)

Lemma field_buffer_is_not_terminated_witness :
  geneactiv_read_block (Stack (buff0 loc0) (data_str0 loc0) (time0 loc0) "5")
                       block1 tt info0 data0
  = None
  /\ field data_str1 0 "5" = None
  /\ field data_str1 0 "G" = Some 2047.
Proof.
  destruct (field_buffer_is_not_terminated (H := platform)
              (Stack (buff0 loc0) (data_str0 loc0) (time0 loc0) "5")
              block1 tt info0 data0 text1 data_str1 [] 5)
    as [Hfield Hrun].
  - exact block1_text.
  - exact block1_data_str.
  - exact block1_strlen.
  - reflexivity.
  - reflexivity.
  - assert (Hv : hex3 data_str1 0 = Some 2047) by (vm_compute; reflexivity).
    split; [apply Hrun; eauto|].
    destruct (Hfield 0 2047 Hv) as [Hnone Hsome].
    split; [exact Hnone | apply Hsome; reflexivity].
Defined.

Lemma roll_median_output_is_written_witness :
  RollingMedian.roll_median
    (RollingMedian.Array ([2] ++ [Z.of_nat 3]) [1; 5; 2; 9; 3; 4]%float) 3
    (replicate 6 0%float)
  = RollingMedian.roll_median
      (RollingMedian.Array ([2] ++ [Z.of_nat 3]) [1; 5; 2; 9; 3; 4]%float) 3
      (replicate 6 7%float).
Proof.
  apply (roll_median_output_is_written (H := gsl) [2] 3 2);
    try reflexivity; try lia.
  unfold INT_MAX. lia.
Defined.

Lemma parseline_tokens_witness :
  exists buff',
    parseline (bytes "x gain:25548" ++ newline :: block1) buff_junk 255
    = (buff', block1, Some 0%nat, Some 7%nat)
    /\ cstr_at buff' 7 = bytes "25548" ++ [newline]
    /\ parseline (bytes "x gain 25548" ++ newline :: block1) buff_junk 255
       = (line_in (bytes "x gain 25548") buff_junk, block1, Some 0%nat, None).
Proof.
  destruct (parseline_tokens buff_junk 255 block1) as (Hkv & Hno & _).
  destruct (Hkv (bytes "x gain") (bytes "25548")) as (b & E & _ & Ev);
    try reflexivity; [discriminate|].
  exists b. split; [exact E|]. split; [exact Ev|].
  apply Hno; reflexivity.
Defined.

Lemma get_timestamps_total_witness :
  exists ts',
    get_timestamps 300 (bt_time text1) info0 data0 tt
    = Some (GN_READ_E_NONE, set_ts ts' data0, tt)
    /\ get ts' 301
       = Some (block_t0 (bt_time text1) + double_of_Z 1 / fs info0)%float
    /\ get_timestamps 400 (bt_time text1) info0 data0 tt = None.
Proof.
  destruct (get_timestamps_total (H := platform) 300 (bt_time text1) info0 data0 tt)
    as [Hin _].
  destruct Hin as (ts' & E & _ & Hts & _).
  { change (length (ts data0)) with 600%nat. unfold GN_SAMPLES. lia. }
  exists ts'. split; [exact E|]. split.
  - apply (Hts 1). unfold GN_SAMPLES. lia.
  - destruct (get_timestamps_total (H := platform) 400 (bt_time text1) info0 data0 tt)
      as [_ Hout].
    apply Hout. change (length (ts data0)) with 600%nat. unfold GN_SAMPLES. lia.
Defined.
